(* ===== verification/_CoqProject ===== *)
-Q . S2P
Prelude.v
Table.v
TimeFilter.v
GroupBy.v
Ranking.v
Daily.v
Currency.v
Metrics.v
Stats.v
Correlation.v
Histogram.v
Datetime.v
Reviews.v
Demographics.v
Geo.v
Dashboard.v
Session.v
