(* ===== verification/Prelude.v ===== *)
(** * E-Commerce Marketplace dashboard: a verification development

    The program is [src/dashboard/dashboard.py], a Streamlit script of
    467 lines.  It loads two CSV tables (the merged orders table
    [all_df] and the geolocation table [geo_df]), restricts the orders
    to a date range chosen in the sidebar ([main_df], lines 409-430) and
    hands the restricted table to one function per panel.  The panels
    do not talk to each other: each one groups or reduces [main_df]
    with pandas and draws one chart.  The only shared state is the
    module-level [all_df]/[geo_df] pair and the global [min_date] that
    [plot_daily_orders] reads.  Streamlit reruns the script top to
    bottom on each interaction; an exception in a panel stops the page.

    ** Files, in dependency order

    - [Prelude] (this file): the Python exceptions [pyexc] and the
      result monad [result] (a value or a raised exception, with stdpp's
      [≫=]/[mret]); the pandas reductions every panel uses ([sum_by] for
      [Series.sum], [nunique] for [Series.nunique], [max_opt]/[min_opt]
      for [Series.max]/[Series.min] on a column with NaN); the notations
      of [pd_scope]; the hint databases [pd] and [pd_rw]; the tactics
      [simpl_pd] and [by_compute]; and the shared lemmas: sums over a
      partition by keys ([sum_by_keys]), distinct counts over a
      partition ([nunique_keys]), [mapM] in the result monad ([mapM_Ok]).
    - [Table]: the rows of the two tables as records with the column
      names of the CSVs (those the script reads, [price] included).  Timestamps are seconds ([Z]), the calendar day
      is [day_of t = t / 86400], [midnight d = d * 86400]; a NaN/NaT cell
      is [None]; payment values are integer centavos.
    - [TimeFilter] (lines 409-430): [date_input] (unpacking the widget,
      which raises [ValueError] unless two dates are picked), the mask
      [main_mask] built from [ge_str]/[le_str] (a comparison with
      [str(date)], i.e. with midnight of that date), [main_df] and the
      whole [sidebar].
    - [GroupBy]: [DataFrame.groupby(key)] (sort=True, dropna=True) as a
      one-pass insertion of each row into a key-sorted list of groups
      ([gb_insert], [groupby]), proved equal to a reference
      ([groupby_ref]: sorted distinct keys, each with the filter of its
      rows); [agg] for the per-group reduction; [Series.sort_values] as
      the class [SortValues] (sorted and a permutation, nothing said on
      ties, like pandas' default quicksort), with stdpp's merge sort as
      the executable instance; [head n] as [take n].
    - [Ranking] (lines 115-178): [plot_best_worst_performing_product],
      proved for any [SortValues] instance.
    - [Daily] (lines 59-113): [create_daily_orders_df]
      ([resample('D')]: one bin per calendar day from the first to the
      last approval day), [plot_total_orders_and_revenue] and the
      labelling decision of [plot_daily_orders].
    - [Currency]: babel's [format_currency(x, 'BRL', locale='pt_BR')] on
      centavos, and [parse_brl] which reads it back.
    - [Metrics] (lines 16-57, 438-441): [display_dataframe], the
      category filter ([isin], NaN matching NaN) and its three metrics,
      the mean review rounded half to even in hundredths; the options of
      the category multiselect ([category_options], [Series.unique()]).
    - [Stats]: exact statistics in [Q]: [Qsum], and the Welford update
      pandas' [nancorr] runs for [DataFrame.corr()] ([welford_step]),
      proved equal to the two-pass mean and co-moments, with the
      Cauchy-Schwarz bound on them (proved in [R], read back in [Q]).
    - [Correlation] (lines 335-360): [plot_correlation_matrix]: the
      numeric columns, the matrix of [nancorr] cells (three exact
      accumulators each, read as the real [cov / sqrt (ssx * ssy)]),
      the mask [abs() < threshold] and the [price] column.
    - [Histogram] (lines 243-254): [plot_delivery_times_distribution]:
      numpy's bin edges ([linspace] over the range, widened by 0.5 for
      one value) and [np.histogram] over them ([searchsorted] counts
      and [diff]), with numpy's arithmetic binning as the reference.
    - [Reviews] (lines 180-241): [value_counts], the percentages and the
      colour lookup in the dictionary [review_colors] ([KeyError]).
    - [Demographics] (lines 256-333): distinct orders by state, city and
      payment type, [idxmax] ([ValueError] on an empty series) and the
      colour lists.
    - [Geo] (lines 362-397): the zip-code slider and the colour level
      of each point ([Normalize] with [vmin]/[vmax], clipped to [0, 1]).
    - [Datetime] (lines 399-410 and 427-430): the conversion loop
      [convert_datetime_cols] over the six [datetime_cols] of a table of
      named columns ([get_col] raises [KeyError]); [pd.to_datetime] of a
      column ([to_datetime]: the format guessed from the first string,
      [%Y-%m-%d] or [%Y-%m-%d %H:%M:%S], read by [parse]; [strptime]
      checks the date, the time and pandas' nanosecond range); the
      proleptic Gregorian calendar ([days_from_civil],
      [civil_from_days], inverse on every day and every valid date);
      [str(date)] ([str_date]) and [main_df_text], the mask computed on
      the strings pandas compares with.
    - [Dashboard] (lines 412-468): [run_dashboard], the script after
      the datetime conversion (modelled in [Datetime]) in the result
      monad, sidebar first and the panels in source order.
    - [Session] (lines 419-424): the reruns of the script as the user
      clicks in the date range picker: [click] (a click completes a
      one-date range in calendar order or starts a new one),
      [session_step] (every day the calendar offers), the [reachable]
      widget values, and the omnisemantics combinators [eventually] and
      [always] over a step the user drives.

    ** What the theorems show (claim ids C1-C40)

    - the date filter: its exact characterisation (C1), the rows of the
      end day after midnight dropped (C2), the latest orders dropped by
      the initial range (C9);
    - the session: every widget value reachable by clicks is one date,
      where the sidebar raises, or an ordered range within the bounds
      (C10); whatever the user clicks, the sidebar passes again within
      one click, infinitely often (C28, liveness);
    - the group-by: one group per key, sorted, no row lost (C3), with
      the one-pass [groupby] equal to the reference [groupby_ref];
    - the ranking: bars sum to the item total (C4), both charts sorted
      for every table and dominating the categories left out (C6, C7),
      and the bar of one order of n items showing
      n(n+1)/2 sales (C8);
    - the daily series: conservation (C11), contiguous zero-filled days
      (C12), the global order count as a sum of daily distinct counts
      (C13), the same totals as the detail panel (C29);
    - currency: the printed text reads back to the amount (C14);
    - metrics: the shown table (C15), the mean's bounds and rounding
      error (C17), the multiselect's options: each category once, NaN
      included, and a non-empty selection never shows an empty table
      (C36);
    - timestamps: the mask computed on the strings [str(start_date)],
      [str(end_date)] equals the comparison with midnight (C16); a
      column of timestamps printed as the CSV spells them converts back
      to itself (C18); the conversion loop succeeds exactly when every
      datetime column is present and readable by [pd.to_datetime], and
      otherwise raises [KeyError] for a missing column or [ValueError]
      for an unreadable one (C30); the calendar is a bijection between
      day numbers and valid dates, day 0 being 1970-01-01 (C40);
    - reviews: percentages add up to 100 (C19), [KeyError] exactly on a
      score outside 1..5 (C20), sorted counts (C21);
    - demographics: [ValueError] exactly on an empty table (C22), the
      highlighted state is a maximum (C23), city bars coloured with the
      state palette (C24), state bars summing to the distinct orders
      (C25);
    - geolocation: every row drawn whatever the slider (C26), colour
      levels in [0, 1] (C27);
    - the page: it runs to the end exactly when two dates are picked,
      the range holds an order with scores in 1..5 and the zip range is
      not reversed (C5);
    - correlation: every cell is the two-pass Pearson coefficient
      (C31), lies in [-1, 1] (C32), is hidden exactly when its real
      absolute value is below the threshold (C33); the diagonal is 1 or,
      on a constant column, NaN (C34); no slider value hides the
      diagonal and thresholds up to 0 hide nothing (C35);
    - delivery histogram: the [searchsorted] heights are numpy's
      arithmetic binning (C37), 20 bars holding every delivery time
      (C38), one repeated value widening the edges to [d - 1/2, d + 1/2]
      and filling the middle bar (C39).

    ** Bounds and fuel

    The only fuel is in [Currency.rev_digits]: [S (N.size n)] steps,
    enough because an amount below [2 ^ k] has at most [k] decimal
    digits ([Currency.rev_digits_value]).  Every other definition is structural.  The calendar's
    inverse laws are checked by computation on one 400-year era (146097
    day numbers, and the dates of the years 0 to 399) and carried to
    every era by the period of 146097 days; the check is a
    [check_range] loop run with [vm_compute].  Timestamps are bounded
    where pandas bounds them: an int64 count of nanoseconds, i.e. the
    seconds [ts_min] to [ts_max] (1677-09-21 00:12:44 to 2262-04-11
    23:47:16), outside which [pd.to_datetime] raises; [to_datetime]
    follows pandas 2, which reads a whole column with the format of its
    first string.  Other integers are unbounded: pandas' int64 sums of
    the dataset stay far below 2^63, so no wrap-around is modelled.  The
    correlation and histogram are computed exactly in [Q] where pandas
    and numpy use floats; a correlation's value involves a square root
    and is a real number, used only in the statements (Stdlib's [R]).

    ** Not modelled

    CSV loading over HTTP (I/O); the world map read at line 368 with
    [gpd.datasets.get_path], which is assumed to succeed (geopandas 1.0
    removed it); the date input's text field (typing a
    date) and the way Streamlit keeps or drops a multiselect's choices
    when its options change between reruns, so the widgets other than
    the date range are inputs of [run_dashboard] rather than steps of
    the session; the spellings of a time that
    [pd.to_datetime] accepts beyond the two ISO forms the data and
    [str(date)] use (the model rejects them), fractional seconds and
    time zones; every
    plotting and layout call (matplotlib, seaborn, streamlit) beyond the
    data and colours it is given, the histogram's kernel density curve
    among them; the numeric columns of the table the script never names
    (freight, product sizes, zip prefixes), which [select_dtypes] also
    passes to the correlation matrix; and floating-point rounding, which
    is replaced by exact arithmetic: money in centavos ([Z]), means,
    percentages, correlations and bin edges in [Q]. *)

From stdpp Require Export base list strings sorting numbers sets gmap.
From Stdlib Require Export ZArith Lia.

(** ** Python exceptions and the result of a step that may raise *)

(** [KeyError] carries the missing key: an integer key of a [dict],
    or a column label of a [DataFrame]. *)
Inductive pyexc :=
  | ValueError (msg : string)
  | KeyError (key : Z)
  | ColumnKeyError (label : string).

Inductive result (A : Type) :=
  | Ok (a : A)
  | Raise (e : pyexc).
Arguments Ok {A} a.
Arguments Raise {A} e.

#[export] Instance result_ret : MRet result := λ A a, Ok a.
#[export] Instance result_bind : MBind result :=
  λ A B f m, match m with Ok a => f a | Raise e => Raise e end.

Definition is_ok {A} (r : result A) : bool :=
  match r with Ok _ => true | Raise _ => false end.

(** ** Pandas reductions shared by every panel *)

Section Reductions.
Context {A : Type}.

(** [Series.sum()]: an empty series sums to 0. *)
Definition sum_by (f : A → Z) (l : list A) : Z :=
  foldr (λ x acc, (f x + acc)%Z) 0%Z l.

(** [Series.nunique()] of a column that holds no NaN. *)
Definition nunique {K} `{EqDecision K} (f : A → K) (l : list A) : nat :=
  length (remove_dups (map f l)).
End Reductions.

(** [Series.max()] / [Series.min()] skip NaN and give NaN on no value. *)
Definition max_opt (l : list (option Z)) : option Z :=
  foldr (λ o acc, match o, acc with
                  | Some x, Some m => Some (Z.max x m)
                  | Some x, None => Some x
                  | None, _ => acc
                  end) None l.

Definition min_opt (l : list (option Z)) : option Z :=
  foldr (λ o acc, match o, acc with
                  | Some x, Some m => Some (Z.min x m)
                  | Some x, None => Some x
                  | None, _ => acc
                  end) None l.

Declare Scope pd_scope.
Delimit Scope pd_scope with pd.
Notation "'Σ[' f ']' l" := (sum_by f l)
  (at level 10, f at level 200, l at level 9) : pd_scope.
Notation "'raise' e" := (Raise e) (at level 10) : pd_scope.
Open Scope pd_scope.

Create HintDb pd discriminated.
Create Rewrite HintDb pd_rw.

(** ** Lemmas on the reductions *)

Section ReductionLemmas.
Context {A : Type}.
Implicit Types (f g : A → Z) (l : list A).

Lemma sum_by_nil f : Σ[f] [] = 0%Z.
Proof. done. Qed.

Lemma sum_by_cons f x l : Σ[f] (x :: l) = (f x + Σ[f] l)%Z.
Proof. done. Qed.

Lemma sum_by_app f l1 l2 : Σ[f] (l1 ++ l2) = (Σ[f] l1 + Σ[f] l2)%Z.
Proof. induction l1; simpl; lia. Qed.

#[export] Instance sum_by_Permutation f :
  Proper ((≡ₚ) ==> (=)) (sum_by f).
Proof. intros l1 l2 Hp. induction Hp; simpl; lia. Qed.

Lemma sum_by_ext f g l :
  (∀ x, x ∈ l → f x = g x) → Σ[f] l = Σ[g] l.
Proof.
  induction l as [|x l IH]; intros H; simpl; [done|].
  rewrite H, IH; set_solver.
Qed.

Lemma sum_by_nonneg f l :
  (∀ x, x ∈ l → (0 ≤ f x)%Z) → (0 ≤ Σ[f] l)%Z.
Proof.
  induction l as [|x l IH]; intros H; simpl; [lia|].
  assert (0 ≤ f x)%Z by set_solver. assert (0 ≤ Σ[f] l)%Z by set_solver. lia.
Qed.

Lemma sum_by_filter_split f (P : A → Prop) `{∀ x, Decision (P x)} l :
  Σ[f] l = (Σ[f] (filter P l) + Σ[f] (filter (λ x, ¬ P x) l))%Z.
Proof.
  induction l as [|x l IH]; [done|].
  rewrite !filter_cons. simpl. repeat case_decide; simpl; try lia; tauto.
Qed.

Lemma sum_by_filter_none f (P : A → Prop) `{∀ x, Decision (P x)} l :
  (∀ x, x ∈ l → ¬ P x → f x = 0%Z) → Σ[f] (filter P l) = Σ[f] l.
Proof.
  intros Hz. rewrite (sum_by_filter_split f P l).
  rewrite (sum_by_ext f (λ _, 0%Z) (filter (λ x, ¬ P x) l)).
  - enough (Σ[λ _ : A, 0%Z] (filter (λ x, ¬ P x) l) = 0%Z) by lia.
    induction (filter (λ x, ¬ P x) l); simpl; lia.
  - intros x [Hx Hin]%list_elem_of_filter. auto using Hz.
Qed.

Lemma filter_ext_elem (P Q : A → Prop) `{∀ x, Decision (P x), ∀ x, Decision (Q x)} l :
  (∀ x, x ∈ l → P x ↔ Q x) → filter P l = filter Q l.
Proof.
  induction l as [|x l IH]; intros HPQ; [done|]. rewrite !filter_cons.
  rewrite IH by set_solver. assert (P x ↔ Q x) by set_solver.
  repeat case_decide; tauto.
Qed.

Lemma sum_by_map {B} f (g : B → A) (l : list B) : Σ[f] (map g l) = Σ[λ x, f (g x)] l.
Proof. induction l; simpl; lia. Qed.

Lemma sum_by_one l : Σ[λ _, 1%Z] l = Z.of_nat (length l).
Proof. induction l; simpl; lia. Qed.

Lemma sum_by_concat f (ls : list (list A)) :
  Σ[f] (concat ls) = Σ[sum_by f] ls.
Proof. induction ls as [|l ls IH]; simpl; [done|]. rewrite sum_by_app. lia. Qed.

Lemma nunique_le_length {K} `{EqDecision K} (h : A → K) l :
  nunique h l ≤ length l.
Proof.
  unfold nunique. rewrite <- (length_map h l).
  induction (map h l) as [|x k IH]; simpl; [lia|].
  case_decide; simpl; lia.
Qed.

Lemma nunique_nil {K} `{EqDecision K} (h : A → K) : nunique h [] = 0.
Proof. done. Qed.
End ReductionLemmas.

(** ** Sums over a partition of rows by key *)

Section Partition.
Context {A K : Type} `{EqDecision K} (key : A → option K).

(** The row's key is one of [ks]. *)
Definition in_keys (ks : list K) (x : A) : Prop := ∃ k, key x = Some k ∧ k ∈ ks.

#[export] Instance in_keys_dec ks x : Decision (in_keys ks x).
Proof.
  unfold in_keys. destruct (key x) as [k|].
  - destruct (decide (k ∈ ks)); [left; eauto|right; naive_solver].
  - right. naive_solver.
Defined.

Lemma sum_by_plus {B} (f g : B → Z) (l : list B) :
  Σ[λ x, (f x + g x)%Z] l = (Σ[f] l + Σ[g] l)%Z.
Proof. induction l; simpl; lia. Qed.

Lemma sum_by_zero {B} (l : list B) : Σ[λ _, 0%Z] l = 0%Z.
Proof. induction l; simpl; lia. Qed.

Lemma sum_by_indicator_opt (ks : list K) (o : option K) (c : Z) :
  NoDup ks →
  Σ[λ k, if decide (o = Some k) then c else 0%Z] ks =
  match o with Some k => if decide (k ∈ ks) then c else 0%Z | None => 0%Z end.
Proof.
  induction 1 as [|k ks Hk Hnd IH]; simpl.
  { destruct o; [|done]. try case_decide; set_solver || done. }
  rewrite IH. destruct o as [k0|]; [|simpl; lia].
  repeat case_decide; simplify_eq; set_solver || lia.
Qed.

Lemma sum_by_indicator (ks : list K) (x : A) (c : Z) :
  NoDup ks →
  Σ[λ k, if decide (key x = Some k) then c else 0%Z] ks =
  if decide (in_keys ks x) then c else 0%Z.
Proof.
  intros Hnd. rewrite sum_by_indicator_opt by done.
  case_decide as Hin; unfold in_keys in Hin;
    destruct (key x) as [k0|]; try case_decide; naive_solver.
Qed.

(** Summing per key over distinct keys sums over the rows whose key is
    one of them. *)
Lemma sum_by_keys (h : A → Z) (ks : list K) (l : list A) :
  NoDup ks →
  Σ[λ k, Σ[h] (filter (λ x, key x = Some k) l)] ks = Σ[h] (filter (in_keys ks) l).
Proof.
  intros Hnd. induction l as [|x l IH].
  { simpl. apply sum_by_zero. }
  rewrite (sum_by_ext _ (λ k, (if decide (key x = Some k) then h x else 0) +
                              Σ[h] (filter (λ y, key y = Some k) l))%Z).
  - rewrite sum_by_plus, IH, sum_by_indicator by done.
    rewrite filter_cons. case_decide; simpl; lia.
  - intros k _. rewrite filter_cons. case_decide; simpl; lia.
Qed.
End Partition.

(** ** Distinct counts as set sizes *)

Section Distinct.
Context {A I : Type} `{Countable I} (id : A → I).

Definition id_set (l : list A) : gset I := list_to_set (map id l).

Lemma nunique_size l : nunique id l = size (id_set l).
Proof.
  unfold nunique, id_set.
  rewrite <- (size_list_to_set (C:=gset I) (remove_dups _)) by apply NoDup_remove_dups.
  f_equal. apply set_eq. intros i. by rewrite !elem_of_list_to_set, elem_of_remove_dups.
Qed.

Lemma elem_of_id_set l i : i ∈ id_set l ↔ ∃ x, x ∈ l ∧ id x = i.
Proof. unfold id_set. rewrite elem_of_list_to_set, list_elem_of_fmap. naive_solver. Qed.
End Distinct.

(** Distinct counts add up over a partition by key when every id
    determines the key (no id is split over two parts). *)
Lemma nunique_keys {A I K} `{Countable I} `{EqDecision K}
    (id : A → I) (key : A → option K) (ks : list K) (l : list A) :
  NoDup ks → (∀ x y, x ∈ l → y ∈ l → id x = id y → key x = key y) →
  Σ[λ k, Z.of_nat (nunique id (filter (λ x, key x = Some k) l))] ks =
  Z.of_nat (nunique id (filter (in_keys key ks) l)).
Proof.
  intros Hnd Hfd. induction Hnd as [|k ks Hk Hnd IH]; simpl.
  - assert (filter (in_keys key []) l = []) as ->; [|done].
    induction l as [|x l IHl]; [done|]. rewrite filter_cons, decide_False.
    + apply IHl. intros; apply Hfd; set_solver.
    + intros (? & _ & ?%elem_of_nil). done.
  - rewrite IH, !nunique_size, <- Nat2Z.inj_add. f_equal. rewrite <- size_union.
    + f_equal. apply set_eq. intros i. rewrite elem_of_union, !elem_of_id_set.
      setoid_rewrite list_elem_of_filter. unfold in_keys.
      setoid_rewrite elem_of_cons. naive_solver.
    + intros i. rewrite !elem_of_id_set. setoid_rewrite list_elem_of_filter.
      intros (x & [Hx Hxl] & <-) (y & [(k' & Hy & Hk') Hyl] & Hid).
      pose proof (Hfd x y Hxl Hyl (eq_sym Hid)) as Hkey. congruence.
Qed.

#[export] Hint Rewrite @sum_by_nil @sum_by_cons @sum_by_app : pd_rw.

(** [max_opt] is the largest present value, [min_opt] the smallest. *)
Lemma max_opt_spec (l : list (option Z)) :
  match max_opt l with
  | None => ∀ o, o ∈ l → o = None
  | Some m => Some m ∈ l ∧ ∀ x, Some x ∈ l → (x ≤ m)%Z
  end.
Proof.
  induction l as [|[x|] l IH]; simpl.
  - intros o Ho. set_solver.
  - destruct (max_opt l) as [m|].
    + destruct IH as [Hin Hle]. split.
      * destruct (Z.max_spec x m) as [[_ ->]|[_ ->]]; set_solver.
      * intros y [Hy|Hy]%elem_of_cons; [simplify_eq; lia|].
        specialize (Hle y Hy). lia.
    + split; [set_solver|].
      intros y [Hy|Hy]%elem_of_cons; [simplify_eq; lia|].
      by specialize (IH _ Hy).
  - destruct (max_opt l) as [m|].
    + destruct IH as [Hin Hle]. split; [set_solver|].
      intros y [Hy|Hy]%elem_of_cons; [done|auto].
    + intros o [Ho|Ho]%elem_of_cons; auto.
Qed.

Lemma min_opt_spec (l : list (option Z)) :
  match min_opt l with
  | None => ∀ o, o ∈ l → o = None
  | Some m => Some m ∈ l ∧ ∀ x, Some x ∈ l → (m ≤ x)%Z
  end.
Proof.
  induction l as [|[x|] l IH]; simpl.
  - intros o Ho. set_solver.
  - destruct (min_opt l) as [m|].
    + destruct IH as [Hin Hle]. split.
      * destruct (Z.min_spec x m) as [[_ ->]|[_ ->]]; set_solver.
      * intros y [Hy|Hy]%elem_of_cons; [simplify_eq; lia|].
        specialize (Hle y Hy). lia.
    + split; [set_solver|].
      intros y [Hy|Hy]%elem_of_cons; [simplify_eq; lia|].
      by specialize (IH _ Hy).
  - destruct (min_opt l) as [m|].
    + destruct IH as [Hin Hle]. split; [set_solver|].
      intros y [Hy|Hy]%elem_of_cons; [done|auto].
    + intros o [Ho|Ho]%elem_of_cons; auto.
Qed.

(** [simpl_pd] normalises sums over list constructors and appends. *)
Ltac simpl_pd := autorewrite with pd_rw in *.

(** [mapM] in the result monad succeeds exactly when every call does. *)
Lemma mapM_is_ok {A B} (f : A → result B) (l : list A) :
  is_ok (mapM f l) = true ↔ Forall (λ x, is_ok (f x) = true) l.
Proof.
  induction l as [|x l IH]; simpl; [split; auto|].
  rewrite Forall_cons, <- IH. destruct (f x); simpl; [|naive_solver].
  destruct (mapM f l); simpl; naive_solver.
Qed.

Lemma mapM_Ok {A B} (f : A → result B) (l : list A) (ys : list B) :
  mapM f l = Ok ys ↔ Forall2 (λ x y, f x = Ok y) l ys.
Proof.
  revert ys. induction l as [|x l IH]; intros ys; simpl.
  { split; [intros [= <-]; constructor|]. intros Hf. by inversion Hf. }
  split.
  - destruct (f x) as [y|e] eqn:Hfx; simpl; [|done].
    destruct (mapM f l) as [ys'|e] eqn:Hm; simpl; [|done].
    intros [= <-]. constructor; [done|]. by apply IH.
  - intros Hf. inversion Hf as [|? y ? ys' Hy Hrest]; subst.
    rewrite Hy. simpl. apply IH in Hrest. by rewrite Hrest.
Qed.

(** Bounded quantification over a table is decidable. *)
#[export] Instance list_forall_decision {A} (P : A → Prop) (l : list A)
  `{∀ x, Decision (P x)} : Decision (∀ x, x ∈ l → P x) := list_forall_dec P l _.

(** [by_compute] proves a decidable proposition about concrete tables
    by evaluating its decision procedure. *)
Ltac by_compute :=
  lazymatch goal with |- ?P => apply (bool_decide_unpack P) end; vm_compute; exact I.
