(* ===== verification/Table.v ===== *)
(** The two tables the dashboard loads ([all_df] and [geo_df] in
    [src/dashboard/dashboard.py]), as records of the columns the script
    reads.  Timestamps are seconds since the epoch after
    [pd.to_datetime] (lines 400-410); a NaT or NaN cell is [None].
    Money is kept in integer centavos, so that sums are exact. *)

From S2P Require Import Prelude.

(** One row of [all_df] (the merged orders table): one order item. *)
Record order_row := {
  order_id : string;
  order_item_id : Z;
  product_category_name_english : option string;
  payment_value : Z;
  price : option Z;
  review_score : option Z;
  order_approved_at : option Z;
  order_delivery_time : option Z;
  customer_state : string;
  customer_city : string;
  payment_type : string
}.

(** One row of [geo_df]. *)
Record geo_row := {
  geolocation_zip_code_prefix : Z;
  geolocation_lat : Z;
  geolocation_lng : Z
}.

#[export] Instance order_row_eq_dec : EqDecision order_row.
Proof. solve_decision. Defined.

#[export] Instance geo_row_eq_dec : EqDecision geo_row.
Proof. solve_decision. Defined.

Definition seconds_per_day : Z := 86400.

(** The calendar day of a timestamp ([Timestamp.floor('D')]) as a day
    number, and the timestamp a date string such as [str(start_date)]
    denotes when pandas compares it with a datetime column: midnight. *)
Definition day_of (t : Z) : Z := t `div` seconds_per_day.
Definition midnight (d : Z) : Z := d * seconds_per_day.

(** A row builder for concrete tables. *)
Definition mk_order (oid : string) (item : Z) (cat : option string)
    (pay : Z) (score : option Z) (approved : option Z) : order_row :=
  {| order_id := oid; order_item_id := item;
     product_category_name_english := cat; payment_value := pay;
     price := None; review_score := score; order_approved_at := approved;
     order_delivery_time := None; customer_state := "SP";
     customer_city := "sao paulo"; payment_type := "credit_card" |}.

(** ** Day arithmetic *)

Lemma midnight_le (t : Z) : (midnight (day_of t) ≤ t)%Z.
Proof.
  unfold midnight, day_of, seconds_per_day.
  pose proof (Z.mul_div_le t 86400). lia.
Qed.

Lemma lt_next_midnight (t : Z) : (t < midnight (day_of t + 1))%Z.
Proof.
  unfold midnight, day_of, seconds_per_day.
  pose proof (Z.mod_pos_bound t 86400). pose proof (Z.div_mod t 86400). lia.
Qed.

Lemma day_of_midnight (d : Z) : day_of (midnight d) = d.
Proof. unfold day_of, midnight, seconds_per_day. apply Z.div_mul. lia. Qed.

(** [day_of t] is the only day whose midnight window holds [t]. *)
Lemma day_of_unique (t d : Z) :
  (midnight d ≤ t < midnight (d + 1))%Z → day_of t = d.
Proof.
  unfold midnight, day_of, seconds_per_day. intros H.
  symmetry. apply Z.div_unique with (t - d * 86400)%Z; lia.
Qed.

(** Comparing a timestamp with a midnight is comparing days, except
    at the boundary itself. *)
Lemma midnight_le_iff (d t : Z) : (midnight d ≤ t)%Z ↔ (d ≤ day_of t)%Z.
Proof.
  pose proof (midnight_le t). pose proof (lt_next_midnight t).
  unfold midnight, seconds_per_day in *. split; intros Hd; nia.
Qed.

Lemma le_midnight_iff (d t : Z) :
  (t ≤ midnight d)%Z ↔ (day_of t < d)%Z ∨ t = midnight d.
Proof.
  pose proof (midnight_le t). pose proof (lt_next_midnight t).
  unfold midnight, seconds_per_day in *. split; [intros Hd|intros [Hd|Hd]]; nia.
Qed.

#[export] Hint Resolve midnight_le lt_next_midnight : pd.
#[export] Hint Rewrite day_of_midnight : pd_rw.
