(* ===== verification/TimeFilter.v ===== *)
(** The time-range filter: the sidebar's date input and the [main_df]
    mask of [src/dashboard/dashboard.py] (lines 412-430).  [main_df]
    keeps a row when its approval timestamp compares [>=] with
    [str(start_date)] and [<=] with [str(end_date)]; pandas reads both
    strings as midnight of that date, and a NaT compares false. *)

From S2P Require Import Prelude Table.

Module TimeFilter.
Local Open Scope Z_scope.

(** [min_date] / [max_date] (lines 413-414): [Series.min]/[max] of
    the approval column, NaT skipped. *)
Definition min_date (all_df : list order_row) : option Z :=
  min_opt (map order_approved_at all_df).
Definition max_date (all_df : list order_row) : option Z :=
  max_opt (map order_approved_at all_df).

(** [start_date, end_date = st.date_input(..., value=[min_date,
    max_date])] (lines 419-424): the widget returns the dates picked so
    far, one while a range is being picked; unpacking anything but two
    dates raises. *)
Definition date_input (picked : list Z) : result (Z * Z) :=
  match picked with
  | [s; e] => Ok (s, e)
  | _ => raise (ValueError "not enough values to unpack")
  end.

(** The widget's initial value: the calendar days of [min_date] and
    [max_date]. *)
Definition default_picked (all_df : list order_row) : list Z :=
  match min_date all_df, max_date all_df with
  | Some lo, Some hi => [day_of lo; day_of hi]
  | _, _ => []
  end.

(** [all_df['order_approved_at'] >= str(d)] and [<= str(d)]. *)
Definition ge_str (t : option Z) (d : Z) : bool :=
  match t with Some t => bool_decide (midnight d ≤ t)%Z | None => false end.
Definition le_str (t : option Z) (d : Z) : bool :=
  match t with Some t => bool_decide (t ≤ midnight d)%Z | None => false end.

Definition main_mask (start_date end_date : Z) (r : order_row) : bool :=
  ge_str (order_approved_at r) start_date && le_str (order_approved_at r) end_date.

(** [main_df = all_df[mask]] (lines 427-430). *)
Definition main_df (all_df : list order_row) (start_date end_date : Z)
    : list order_row :=
  filter (λ r, main_mask start_date end_date r = true) all_df.

(** The sidebar as a whole: unpack the picked dates, then filter. *)
Definition sidebar (all_df : list order_row) (picked : list Z)
    : result (list order_row) :=
  '(s, e) ← date_input picked; mret (main_df all_df s e).

(** ** Lemmas *)

Lemma main_mask_true s e r :
  main_mask s e r = true ↔
  ∃ t, order_approved_at r = Some t ∧ (midnight s ≤ t ≤ midnight e)%Z.
Proof.
  unfold main_mask, ge_str, le_str.
  destruct (order_approved_at r) as [t|]; [|naive_solver].
  rewrite andb_true_iff, !bool_decide_eq_true. naive_solver.
Qed.

Lemma elem_of_main_df all_df s e r :
  r ∈ main_df all_df s e ↔ r ∈ all_df ∧ main_mask s e r = true.
Proof. unfold main_df. rewrite list_elem_of_filter. tauto. Qed.

(** The mask read in days: strictly before the end day, or exactly
    the end date's midnight. *)
Lemma main_mask_days s e r :
  main_mask s e r = true ↔
  ∃ t, order_approved_at r = Some t ∧
       (s ≤ day_of t)%Z ∧ ((day_of t < e)%Z ∨ t = midnight e).
Proof.
  rewrite main_mask_true. split; intros (t & Ht & H); exists t;
    rewrite midnight_le_iff, le_midnight_iff in *; naive_solver.
Qed.

(** The mask rejects the end day after its midnight. *)
Lemma main_mask_end_day s e r t :
  order_approved_at r = Some t → day_of t = e → t ≠ midnight e →
  main_mask s e r = false.
Proof.
  intros Ht Hd Hne. apply not_true_iff_false. rewrite main_mask_days.
  intros (t' & Ht' & _ & [Hlt|Heq]); simplify_eq; lia.
Qed.

(** C1: a row is in [main_df] exactly when it is a row of [all_df]
    whose approval timestamp exists and lies between midnight of the
    start date and midnight of the end date, both included. *)
Theorem main_df_spec all_df s e r :
  r ∈ main_df all_df s e ↔
  r ∈ all_df ∧ ∃ t, order_approved_at r = Some t ∧
                    (midnight s ≤ t)%Z ∧ (t ≤ midnight e)%Z.
Proof. rewrite elem_of_main_df, main_mask_true. naive_solver. Qed.

(** C2: a row approved on the end date after midnight is dropped:
    the mask compares with the string [str(end_date)], i.e. with
    midnight, so the last selected day is excluded but for its first
    instant. *)
Theorem main_df_drops_end_day all_df s e r t :
  order_approved_at r = Some t → day_of t = e → t ≠ midnight e →
  r ∉ main_df all_df s e.
Proof.
  intros Ht Hd Hne [_ Hm]%elem_of_main_df.
  by rewrite (main_mask_end_day s e r t) in Hm.
Qed.

Lemma main_df_drops_end_day_witness :
  let r := mk_order "o1" 1 (Some "toys") 1000 (Some 5) (Some (midnight 10 + 3600)) in
  order_approved_at r = Some (midnight 10 + 3600)%Z ∧
  day_of (midnight 10 + 3600) = 10%Z ∧ (midnight 10 + 3600)%Z ≠ midnight 10 ∧
  r ∉ main_df [r] 0 10.
Proof.
  intros r. split; [reflexivity|]. split; [vm_compute; reflexivity|].
  split; [vm_compute; discriminate|].
  apply (main_df_drops_end_day [r] 0 10 r (midnight 10 + 3600));
    [reflexivity|vm_compute; reflexivity|vm_compute; discriminate].
Defined.

Lemma min_date_of_max_date all_df hi :
  max_date all_df = Some hi → ∃ lo, min_date all_df = Some lo.
Proof.
  unfold max_date, min_date. intros Hmax.
  pose proof (max_opt_spec (map order_approved_at all_df)) as Hs.
  pose proof (min_opt_spec (map order_approved_at all_df)) as Hm.
  rewrite Hmax in Hs. destruct Hs as [Hin _].
  destruct (min_opt _) as [lo|]; [by eexists|].
  by specialize (Hm _ Hin).
Qed.

(** C9: with the sidebar left at its initial value, the latest
    approved rows are dropped from [main_df] unless they were approved
    exactly at midnight. *)
Theorem default_range_drops_latest all_df hi r :
  max_date all_df = Some hi → hi ≠ midnight (day_of hi) →
  order_approved_at r = Some hi →
  ∃ rows, sidebar all_df (default_picked all_df) = Ok rows ∧ r ∉ rows.
Proof.
  intros Hmax Hne Hr.
  destruct (min_date_of_max_date _ _ Hmax) as [lo Hmin].
  unfold sidebar, default_picked. rewrite Hmax, Hmin. simpl.
  eexists; split; [done|]. intros [_ Hm]%elem_of_main_df.
  by erewrite main_mask_end_day in Hm.
Qed.

Lemma default_range_drops_latest_witness :
  let r1 := mk_order "o1" 1 (Some "toys") 1000 (Some 5) (Some (midnight 3 + 60)) in
  let r2 := mk_order "o2" 1 (Some "toys") 2500 (Some 4) (Some (midnight 9 + 7200)) in
  max_date [r1; r2] = Some (midnight 9 + 7200) ∧
  ∃ rows, sidebar [r1; r2] (default_picked [r1; r2]) = Ok rows ∧ r2 ∉ rows.
Proof.
  intros r1 r2. split; [vm_compute; reflexivity|].
  apply (default_range_drops_latest [r1; r2] (midnight 9 + 7200) r2);
    [vm_compute; reflexivity|vm_compute; discriminate|reflexivity].
Defined.

(** The sidebar raises exactly when the widget does not hold two
    dates (a range whose second end is not picked yet). *)
Theorem sidebar_raises_iff all_df picked :
  is_ok (sidebar all_df picked) = false ↔ length picked ≠ 2%nat.
Proof.
  unfold sidebar, date_input.
  destruct picked as [|s [|e [|x l]]]; simpl; split; done || lia.
Qed.

End TimeFilter.
