(* ===== verification/GroupBy.v ===== *)
(** The pandas operations the panels compose: [DataFrame.groupby(key)]
    (with pandas' defaults [sort=True], [dropna=True]),
    [Series.sort_values] and [head].

    [groupby] is the one-pass computation: each row is inserted into a
    list of groups kept sorted by key, a row whose key is NaN is
    skipped.  [groupby_ref] is the reference: the distinct keys sorted,
    each with the filter of the rows of that key.  [groupby_eq_ref]
    proves them equal; the panels' theorems then reason on the
    reference.  [SortValues] is the interface the panels are proved
    against: a sort that returns a sorted permutation and promises
    nothing on the order of ties, since pandas' default quicksort is
    not stable; stdpp's merge sort is the executable instance. *)

From S2P Require Import Prelude.
From stdpp Require Import list_tactics.

Section GroupBy.
Context {R K : Type} `{EqDecision K} (le : relation K).
Context `{!RelDecision le, !PartialOrder le, !Total le}.

(** The strict order of group keys. *)
Definition key_lt (a b : K) : Prop := le a b ∧ a ≠ b.

(** Insert row [r] of key [k] into groups sorted by key. *)
Fixpoint gb_insert (k : K) (r : R) (gs : list (K * list R)) : list (K * list R) :=
  match gs with
  | [] => [(k, [r])]
  | (k', g) :: gs' =>
      if decide (k = k') then (k', g ++ [r]) :: gs'
      else if decide (le k k') then (k, [r]) :: gs
      else (k', g) :: gb_insert k r gs'
  end.

(** [df.groupby(by=key)]: rows in their original order inside each
    group, groups in ascending key order, NaN keys dropped. *)
Definition groupby (key : R → option K) (rows : list R) : list (K * list R) :=
  foldl (λ gs r, match key r with Some k => gb_insert k r gs | None => gs end)
        [] rows.

(** The reference: sorted distinct keys, and for each the rows of it. *)
Definition group_keys (key : R → option K) (rows : list R) : list K :=
  merge_sort le (remove_dups (omap key rows)).

Definition group_of (key : R → option K) (rows : list R) (k : K) : list R :=
  filter (λ r, key r = Some k) rows.

Definition groupby_ref (key : R → option K) (rows : list R) : list (K * list R) :=
  map (λ k, (k, group_of key rows k)) (group_keys key rows).

(** Insertion of a key into a strictly sorted key list. *)
Fixpoint ins_key (k : K) (ks : list K) : list K :=
  match ks with
  | [] => [k]
  | k' :: ks' =>
      if decide (k = k') then ks
      else if decide (le k k') then k :: ks
      else k' :: ins_key k ks'
  end.

(** ** Strictly sorted key lists *)

Lemma StronglySorted_key_lt_NoDup (ks : list K) :
  StronglySorted key_lt ks → NoDup ks.
Proof.
  induction 1 as [|k ks _ IH HF]; constructor; [|done].
  intros Hin. rewrite Forall_forall in HF. by destruct (HF k Hin).
Qed.

Lemma key_lt_of_le_NoDup (ks : list K) :
  StronglySorted le ks → NoDup ks → StronglySorted key_lt ks.
Proof.
  induction 1 as [|k ks _ IH HF]; intros Hnd; constructor.
  - apply IH. by apply NoDup_cons in Hnd as [_ ?].
  - apply NoDup_cons in Hnd as [Hk _].
    rewrite Forall_forall in HF |- *. intros k' Hk'. split; [auto|].
    intros ->. contradiction.
Qed.

#[local] Instance key_lt_antisymm : AntiSymm (=) key_lt.
Proof.
  intros a b [Hab Hne] [Hba _]. exfalso. apply Hne. by apply (anti_symm le).
Qed.

(** Two strictly sorted key lists with the same keys are equal. *)
Lemma key_lt_sorted_unique (ks1 ks2 : list K) :
  StronglySorted key_lt ks1 → StronglySorted key_lt ks2 →
  (∀ k, k ∈ ks1 ↔ k ∈ ks2) → ks1 = ks2.
Proof.
  intros H1 H2 Hiff. apply (StronglySorted_unique key_lt); [done|done|].
  apply NoDup_Permutation; auto using StronglySorted_key_lt_NoDup.
Qed.

Lemma elem_of_ins_key k k' ks : k' ∈ ins_key k ks ↔ k' = k ∨ k' ∈ ks.
Proof.
  induction ks as [|k0 ks IH]; simpl; [set_solver|].
  repeat case_decide; subst; rewrite ?elem_of_cons, ?IH; naive_solver.
Qed.

Lemma ins_key_sorted k ks :
  StronglySorted key_lt ks → StronglySorted key_lt (ins_key k ks).
Proof.
  induction 1 as [|k0 ks Hs IH HF]; simpl; [by repeat constructor|].
  case_decide as Heq; [by constructor|].
  case_decide as Hle.
  - constructor; [by constructor|]. constructor; [by split|].
    eapply Forall_impl; [done|]. intros x [Hx Hne]. split; [by trans k0|].
    intros ->. apply Heq. by apply (anti_symm le).
  - constructor; [done|]. rewrite Forall_forall in HF |- *.
    intros x [->|Hx]%elem_of_ins_key; [|auto].
    split; [|done]. destruct (total le k0 k); [done|contradiction].
Qed.

(** ** The reference keys *)

Lemma elem_of_group_keys key rows k :
  k ∈ group_keys key rows ↔ ∃ r, r ∈ rows ∧ key r = Some k.
Proof.
  unfold group_keys. rewrite (merge_sort_Permutation le), elem_of_remove_dups.
  apply list_elem_of_omap.
Qed.

Lemma group_keys_sorted key rows : StronglySorted key_lt (group_keys key rows).
Proof.
  apply key_lt_of_le_NoDup.
  - apply Sorted_StronglySorted; [apply _|]. apply Sorted_merge_sort, _.
  - unfold group_keys. rewrite (merge_sort_Permutation le). apply NoDup_remove_dups.
Qed.

Lemma group_keys_snoc key rows r :
  group_keys key (rows ++ [r]) =
  match key r with Some k => ins_key k (group_keys key rows) | None => group_keys key rows end.
Proof.
  destruct (key r) as [k|] eqn:Hk;
    apply key_lt_sorted_unique; auto using group_keys_sorted, ins_key_sorted;
    intros k'; rewrite ?elem_of_ins_key, !elem_of_group_keys;
    setoid_rewrite elem_of_app; setoid_rewrite list_elem_of_singleton; naive_solver.
Qed.

Lemma group_of_snoc key rows r k :
  group_of key (rows ++ [r]) k =
  if decide (key r = Some k) then group_of key rows k ++ [r] else group_of key rows k.
Proof.
  unfold group_of. rewrite filter_app, filter_cons, filter_nil.
  case_decide; by rewrite ?app_nil_r.
Qed.

Lemma group_of_not_key key rows k :
  k ∉ group_keys key rows → group_of key rows k = [].
Proof.
  rewrite elem_of_group_keys. intros Hk. unfold group_of.
  induction rows as [|r rows IH]; [done|]. rewrite filter_cons.
  case_decide; [set_solver|]. apply IH. set_solver.
Qed.

(** Inserting a row into groups of the reference shape. *)
Lemma gb_insert_map k r (G : K → list R) ks :
  StronglySorted key_lt ks → (k ∉ ks → G k = []) →
  gb_insert k r (map (λ k', (k', G k')) ks) =
  map (λ k', (k', if decide (k = k') then G k' ++ [r] else G k')) (ins_key k ks).
Proof.
  induction 1 as [|k0 ks Hs IH HF]; intros HG; simpl.
  { rewrite decide_True, HG by set_solver. done. }
  rewrite Forall_forall in HF.
  assert (∀ k', k' ∈ ks → k0 ≠ k') as Hne0 by (intros k' Hk' ->; by destruct (HF k' Hk')).
  case_decide as Heq; [subst k0|case_decide as Hle].
  - simpl. rewrite decide_True by done. f_equal. apply map_ext_in.
    intros k' Hk'%list_elem_of_In%Hne0. by rewrite decide_False.
  - assert (k ∉ k0 :: ks) as Hnot.
    { intros [->|Hin]%elem_of_cons; [done|]. destruct (HF k Hin) as [Hle' Hne'].
      apply Hne', (anti_symm le); done. }
    simpl. rewrite decide_True, HG by done. rewrite decide_False by done.
    do 2 f_equal. apply map_ext_in. intros k' Hk'%list_elem_of_In.
    rewrite decide_False; [done|]. intros ->. apply Hnot. by right.
  - simpl. rewrite decide_False by done. f_equal. apply IH.
    intros Hk. apply HG. intros [->|?]%elem_of_cons; done.
Qed.

(** One more row, in the reference. *)
Lemma groupby_ref_snoc key rows r :
  groupby_ref key (rows ++ [r]) =
  match key r with Some k => gb_insert k r (groupby_ref key rows) | None => groupby_ref key rows end.
Proof.
  unfold groupby_ref. rewrite group_keys_snoc.
  destruct (key r) as [k|] eqn:Hk.
  - rewrite gb_insert_map by auto using group_keys_sorted, group_of_not_key.
    apply map_ext. intros k'. rewrite group_of_snoc, Hk.
    do 2 case_decide; naive_solver.
  - apply map_ext. intros k'. rewrite group_of_snoc, Hk. by rewrite decide_False.
Qed.

Lemma groupby_snoc key rows r :
  groupby key (rows ++ [r]) =
  match key r with Some k => gb_insert k r (groupby key rows) | None => groupby key rows end.
Proof. unfold groupby. by rewrite foldl_app. Qed.

(** The one-pass group-by computes the reference. *)
Theorem groupby_eq_ref key rows : groupby key rows = groupby_ref key rows.
Proof.
  induction rows as [|r rows IH] using rev_ind; [done|].
  rewrite groupby_snoc, groupby_ref_snoc, IH. done.
Qed.

(** ** What the groups hold *)

Lemma gb_insert_concat k r gs :
  concat (map snd (gb_insert k r gs)) ≡ₚ concat (map snd gs) ++ [r].
Proof.
  induction gs as [|[k' g] gs IH]; simpl; [done|].
  repeat case_decide; simpl; [solve_Permutation|solve_Permutation|].
  by rewrite IH, app_assoc.
Qed.

(** Every row with a key is in exactly one group: the groups are a
    permutation of the rows whose key is not NaN. *)
Lemma groupby_concat key rows :
  concat (map snd (groupby key rows)) ≡ₚ filter (λ r, is_Some (key r)) rows.
Proof.
  induction rows as [|r rows IH] using rev_ind; [done|].
  rewrite groupby_snoc, filter_app, filter_cons, filter_nil.
  destruct (key r) as [k|] eqn:Hk.
  - rewrite gb_insert_concat, IH, decide_True; [done|]. by eexists.
  - rewrite decide_False; [by rewrite IH, app_nil_r|]. intros [x Hx]. discriminate.
Qed.

Lemma groupby_keys key rows : map fst (groupby key rows) = group_keys key rows.
Proof. rewrite groupby_eq_ref. unfold groupby_ref. by rewrite map_map, map_id. Qed.

Lemma elem_of_groupby key rows k g :
  (k, g) ∈ groupby key rows ↔ k ∈ group_keys key rows ∧ g = group_of key rows k.
Proof.
  rewrite groupby_eq_ref. unfold groupby_ref. rewrite list_elem_of_fmap. naive_solver.
Qed.

(** C3: [groupby] yields one group per key present in the rows, keys
    strictly ascending, each group holding the rows of its key in their
    original order, and no row with a key lost or duplicated. *)
Theorem groupby_spec key rows :
  StronglySorted key_lt (map fst (groupby key rows)) ∧
  (∀ k g, (k, g) ∈ groupby key rows ↔
          (∃ r, r ∈ rows ∧ key r = Some k) ∧ g = filter (λ r, key r = Some k) rows) ∧
  concat (map snd (groupby key rows)) ≡ₚ filter (λ r, is_Some (key r)) rows.
Proof.
  split_and!.
  - rewrite groupby_keys. apply group_keys_sorted.
  - intros k g. rewrite elem_of_groupby, elem_of_group_keys. done.
  - apply groupby_concat.
Qed.

(** A table whose rows all have the same key is one group. *)
Lemma groupby_single_key key rows k :
  rows ≠ [] → (∀ r, r ∈ rows → key r = Some k) → groupby key rows = [(k, rows)].
Proof.
  intros Hne Hall. rewrite groupby_eq_ref. unfold groupby_ref.
  replace (group_keys key rows) with [k].
  - simpl. do 2 f_equal. unfold group_of. clear Hne.
    induction rows as [|r rows IH]; [done|]. rewrite filter_cons, decide_True by set_solver.
    f_equal. set_solver.
  - apply key_lt_sorted_unique; [by repeat constructor|apply group_keys_sorted|].
    intros k'. rewrite elem_of_group_keys, list_elem_of_singleton.
    destruct rows as [|r rows]; [done|]. split; [intros ->; exists r; set_solver|].
    intros (r' & Hr' & Hk'). rewrite Hall in Hk' by done. congruence.
Qed.

End GroupBy.

Lemma groupby_spec_witness :
  let rows : list (string * Z) := [("b", 1%Z); ("a", 2%Z); ("b", 3%Z)] in
  let key := λ p : string * Z, Some p.1 in
  PartialOrder String.le ∧ Total String.le ∧
  groupby String.le key rows = [("a", [("a", 2%Z)]); ("b", [("b", 1%Z); ("b", 3%Z)])] ∧
  (StronglySorted (key_lt String.le) (map fst (groupby String.le key rows)) ∧
   (∀ k g, (k, g) ∈ groupby String.le key rows ↔
           (∃ r, r ∈ rows ∧ key r = Some k) ∧ g = filter (λ r, key r = Some k) rows) ∧
   concat (map snd (groupby String.le key rows)) ≡ₚ filter (λ r, is_Some (key r)) rows).
Proof.
  intros rows key. split; [apply _|]. split; [apply _|]. split; [vm_compute; reflexivity|].
  exact (groupby_spec String.le key rows).
Defined.

(** [df.groupby(key).col.agg()]: one reduced value per group. *)
Definition agg {K R V} (f : list R → V) (gs : list (K * list R)) : list (K * V) :=
  map (λ kg, (kg.1, f kg.2)) gs.

Lemma elem_of_agg_groupby {R K V} `{EqDecision K} (le : relation K)
    `{!RelDecision le, !PartialOrder le, !Total le} (f : list R → V) key rows k v :
  (k, v) ∈ agg f (groupby le key rows) ↔
  k ∈ group_keys le key rows ∧ v = f (group_of key rows k).
Proof.
  unfold agg. rewrite list_elem_of_fmap. split.
  - intros ([k' g] & [= -> ->] & Hin). apply elem_of_groupby in Hin; [naive_solver|apply _..].
  - intros [Hk ->]. exists (k, group_of key rows k). split; [done|].
    by apply (elem_of_groupby le).
Qed.

(** The rows that have a key are the rows whose key is a group key. *)
Lemma filter_in_group_keys {R K} `{EqDecision K} (le : relation K)
    `{!RelDecision le, !PartialOrder le, !Total le} (key : R → option K) rows :
  filter (in_keys key (group_keys le key rows)) rows = filter (λ r, is_Some (key r)) rows.
Proof.
  apply filter_ext_elem. intros r Hr. unfold in_keys. split.
  - intros (k & Hk & _). by eexists.
  - intros [k Hk]. exists k. split; [done|]. apply elem_of_group_keys. eauto.
Qed.

(** Per-group distinct counts add up to the distinct count of the rows
    with a key, when an id never spans two groups. *)
Lemma agg_nunique_groupby {R K I} `{EqDecision K} `{Countable I} (le : relation K)
    `{!RelDecision le, !PartialOrder le, !Total le} (id : R → I) key rows :
  (∀ x, x ∈ rows → ∀ y, y ∈ rows → id x = id y → key x = key y) →
  Σ[snd] (agg (λ g, Z.of_nat (nunique id g)) (groupby le key rows)) =
  Z.of_nat (nunique id (filter (λ r, is_Some (key r)) rows)).
Proof.
  intros Hfd. rewrite groupby_eq_ref by apply _. unfold agg, groupby_ref.
  rewrite map_map, sum_by_map. simpl. unfold group_of.
  rewrite nunique_keys.
  - rewrite filter_in_group_keys by apply _. done.
  - apply (StronglySorted_key_lt_NoDup le), group_keys_sorted; apply _.
  - intros x y Hx Hy. by apply Hfd.
Qed.

(** The sum over the groups of a per-group sum is the sum over the rows
    that have a key. *)
Lemma agg_sum_groupby {R K} `{EqDecision K} (le : relation K)
    `{!RelDecision le, !PartialOrder le, !Total le} (h : R → Z) key rows :
  Σ[snd] (agg (sum_by h) (groupby le key rows)) = Σ[h] (filter (λ r, is_Some (key r)) rows).
Proof.
  rewrite <- (groupby_concat le key rows), sum_by_concat.
  unfold agg. induction (groupby le key rows) as [|[k g] gs IH]; simpl; lia.
Qed.

(** ** [Series.sort_values] and [head] *)

Inductive SortDir := Ascending | Descending.

(** [p] may come before [q] in a series sorted by value. *)
Definition sort_rel {K} (dir : SortDir) (p q : K * Z) : Prop :=
  match dir with
  | Ascending => (p.2 ≤ q.2)%Z
  | Descending => (q.2 ≤ p.2)%Z
  end.

#[export] Instance sort_rel_dec {K} dir : RelDecision (@sort_rel K dir).
Proof. intros p q. destruct dir; simpl; apply _. Defined.

#[export] Instance sort_rel_total {K} dir : Total (@sort_rel K dir).
Proof. intros p q. destruct dir; simpl; lia. Qed.

#[export] Instance sort_rel_trans {K} dir : Transitive (@sort_rel K dir).
Proof. intros p q u. destruct dir; simpl; lia. Qed.

(** What the panels rely on from [sort_values]: the result is sorted
    and is a permutation.  Nothing is promised on ties. *)
Class SortValues := {
  sort_values {K} : SortDir → list (K * Z) → list (K * Z);
  sort_values_sorted {K} dir (l : list (K * Z)) : Sorted (sort_rel dir) (sort_values dir l);
  sort_values_perm {K} dir (l : list (K * Z)) : sort_values dir l ≡ₚ l
}.

#[export] Program Instance merge_sort_values : SortValues := {|
  sort_values K dir l := merge_sort (sort_rel dir) l
|}.
Next Obligation. intros K dir l. apply Sorted_merge_sort, _. Qed.
Next Obligation. intros K dir l. apply merge_sort_Permutation. Qed.

(** [Series.head(n)] / [DataFrame.head(n)]. *)
Definition head {A} (n : nat) (l : list A) : list A := take n l.

Section SortLemmas.
Context `{SortValues} {K : Type}.

Lemma sort_values_strongly_sorted dir (l : list (K * Z)) :
  StronglySorted (sort_rel dir) (sort_values dir l).
Proof. apply Sorted_StronglySorted; [apply _|apply sort_values_sorted]. Qed.

(** Every entry of the first [n] comes before every entry after them. *)
Lemma head_dominates dir (l : list (K * Z)) n p q :
  p ∈ head n (sort_values dir l) → q ∈ drop n (sort_values dir l) →
  sort_rel dir p q.
Proof.
  intros Hp Hq. eapply StronglySorted_app_1_elem_of; [|done|done].
  rewrite take_drop. apply sort_values_strongly_sorted.
Qed.

Lemma sort_values_nil dir : sort_values dir ([] : list (K * Z)) = [].
Proof. apply Permutation_nil_r, sort_values_perm. Qed.

Lemma elem_of_sort_values dir (l : list (K * Z)) p :
  p ∈ sort_values dir l ↔ p ∈ l.
Proof. by rewrite sort_values_perm. Qed.

Lemma sum_sort_values dir (l : list (K * Z)) :
  Σ[snd] (sort_values dir l) = Σ[snd] l.
Proof. by rewrite sort_values_perm. Qed.
End SortLemmas.
