(* ===== verification/Ranking.v ===== *)
(** The best and worst performing product categories:
    [plot_best_worst_performing_product] (lines 115-178 of
    [src/dashboard/dashboard.py]).  The series of per-category sums of
    [order_item_id] is sorted descending; the left chart shows its
    [head(5)], the right chart the [head(5)] of the same series sorted
    again ascending.  The theorems are proved for any implementation of
    the [SortValues] interface, since pandas fixes no order of ties. *)

From S2P Require Import Prelude Table GroupBy.

Module Ranking.
Local Open Scope Z_scope.

Section Ranking.
Context `{SortValues}.

(** [df.groupby(by='product_category_name_english').order_item_id.sum()
    .sort_values(ascending=False).reset_index()] (lines 116-118). *)
Definition sum_order_items_df (df : list order_row) : list (string * Z) :=
  sort_values Descending
    (agg (sum_by order_item_id) (groupby String.le product_category_name_english df)).

(** [sum_order_items_df.head(5)], the data of the left chart (line 128). *)
Definition best_performing (df : list order_row) : list (string * Z) :=
  head 5 (sum_order_items_df df).

(** [asc_sum_order] (lines 148-150), the data of the right chart. *)
Definition asc_sum_order (df : list order_row) : list (string * Z) :=
  head 5 (sort_values Ascending (sum_order_items_df df)).

(** The value labels: the loop of lines 138-145 writes
    [sum_order_items_df['order_item_id'].iloc[i]] at bar [i], the loop of
    lines 168-176 writes each value of [asc_sum_order] at its bar. *)
Definition best_labels (df : list order_row) : list (nat * Z) :=
  imap (λ i _, (i, default 0 (snd <$> sum_order_items_df df !! i)))
       (best_performing df).
Definition worst_labels (df : list order_row) : list (nat * Z) :=
  imap (λ i kv, (i, kv.2)) (asc_sum_order df).

(** The whole figure. *)
Definition plot_best_worst_performing_product (df : list order_row)
    : (list (string * Z) * list (nat * Z)) * (list (string * Z) * list (nat * Z)) :=
  ((best_performing df, best_labels df), (asc_sum_order df, worst_labels df)).

(** ** Lemmas *)

(** The bar of a category holds the sum of [order_item_id] over the
    rows of that category, and there is a bar for exactly the categories
    present in the table. *)
Theorem elem_of_sum_order_items_df df c v :
  (c, v) ∈ sum_order_items_df df ↔
  (∃ r, r ∈ df ∧ product_category_name_english r = Some c) ∧
  v = Σ[order_item_id] (group_of product_category_name_english df c).
Proof.
  unfold sum_order_items_df.
  by rewrite elem_of_sort_values, elem_of_agg_groupby, elem_of_group_keys by apply _.
Qed.

Lemma sort_values_singleton dir (kv : string * Z) : sort_values dir [kv] = [kv].
Proof. apply Permutation_singleton_r, sort_values_perm. Qed.

(** C4: no row is lost or counted twice: the bars sum to the total of
    [order_item_id] over the rows that have a category. *)
Theorem sum_order_items_conservation df :
  Σ[snd] (sum_order_items_df df) =
  Σ[order_item_id] (filter (λ r, is_Some (product_category_name_english r)) df).
Proof. unfold sum_order_items_df. by rewrite sum_sort_values, agg_sum_groupby by apply _. Qed.

(** C6: the left chart is sorted by decreasing sales, whatever the
    number of categories, and no category left out of it sells more
    than one shown. *)
Theorem best_performing_top5 df :
  Sorted (λ a b, b.2 ≤ a.2) (best_performing df) ∧
  ∀ p q, p ∈ best_performing df → q ∈ drop 5 (sum_order_items_df df) → q.2 ≤ p.2.
Proof.
  split.
  - change (Sorted (sort_rel Descending) (best_performing df)).
    apply StronglySorted_Sorted. eapply (StronglySorted_app_1_l _ _ (drop 5 (sum_order_items_df df))).
    unfold best_performing, head.
    rewrite take_drop. apply sort_values_strongly_sorted.
  - intros p q Hp Hq. exact (head_dominates Descending _ 5 p q Hp Hq).
Qed.

(** C7: the right chart is sorted by increasing sales, whatever the
    number of categories, and lists categories of
    [sum_order_items_df]; no category left out of it sells less than
    one shown. *)
Theorem asc_sum_order_bottom5 df :
  Sorted (λ a b, a.2 ≤ b.2) (asc_sum_order df) ∧
  (∀ p, p ∈ asc_sum_order df → p ∈ sum_order_items_df df) ∧
  ∀ p q, p ∈ asc_sum_order df → q ∈ drop 5 (sort_values Ascending (sum_order_items_df df)) →
         q ∈ sum_order_items_df df ∧ p.2 ≤ q.2.
Proof.
  split_and!.
  - change (Sorted (sort_rel Ascending) (asc_sum_order df)).
    apply StronglySorted_Sorted. eapply (StronglySorted_app_1_l _ _ (drop 5 (sort_values Ascending (sum_order_items_df df)))).
    unfold asc_sum_order, head.
    rewrite take_drop. apply sort_values_strongly_sorted.
  - intros p Hp. apply (elem_of_sort_values Ascending), (subseteq_take 5). exact Hp.
  - intros p q Hp Hq. split.
    + apply (elem_of_sort_values Ascending), (subseteq_drop 5). exact Hq.
    + exact (head_dominates Ascending _ 5 p q Hp Hq).
Qed.

End Ranking.

(** The items 1..n of one order, all of category [c]. *)
Definition order_items (oid c : string) (n : nat) : list order_row :=
  map (λ i, mk_order oid (Z.of_nat i) (Some c) 0 None None) (seq 1 n).

Lemma sum_item_numbers oid c n :
  2 * Σ[order_item_id] (order_items oid c n) = Z.of_nat n * (Z.of_nat n + 1).
Proof.
  unfold order_items. induction n as [|n IH]; [done|].
  rewrite seq_S, map_app, sum_by_app. simpl. lia.
Qed.

(** C8: the "Number of Sales" of a category is the sum of the item
    sequence numbers, not the number of items: one order of [n] items
    shows as n(n+1)/2 sales. *)
Theorem one_order_sales `{SortValues} oid c n :
  (1 ≤ n)%nat →
  sum_order_items_df (order_items oid c n) = [(c, Z.of_nat n * (Z.of_nat n + 1) / 2)].
Proof.
  intros Hn. unfold sum_order_items_df.
  rewrite (groupby_single_key _ _ _ c).
  - simpl. rewrite sort_values_singleton. do 2 f_equal.
    rewrite <- (sum_item_numbers oid c n), Z.mul_comm, Z.div_mul; lia.
  - unfold order_items. destruct n; [lia|done].
  - intros r. unfold order_items. rewrite list_elem_of_fmap. by intros (i & -> & _).
Qed.

Lemma one_order_sales_witness :
  (1 ≤ 3)%nat ∧ sum_order_items_df (order_items "o1" "toys" 3) = [("toys", 6)].
Proof. split; [lia|]. apply (one_order_sales "o1" "toys" 3). lia. Defined.
End Ranking.
