(* ===== verification/Daily.v ===== *)
(** The daily series: [create_daily_orders_df] (lines 59-74 of
    [src/dashboard/dashboard.py]), [plot_total_orders_and_revenue]
    (lines 76-81) and the labelling decision of [plot_daily_orders]
    (lines 83-113).

    [df.resample(rule='D', on='order_approved_at')] makes one bin per
    calendar day from the day of the first approval to the day of the
    last, rows with a NaT approval left out; a day without orders is a
    bin whose [nunique] and [sum] are 0.  The series is therefore
    contiguous and zero-filled. *)

From S2P Require Import Prelude Table.

Module Daily.
Local Open Scope Z_scope.

(** One row of [daily_orders_df] after [reset_index] and [rename]: the
    bin label (midnight of the day, column [order_approved_at]), then
    [order_count], [order_item_count] and [revenue]. *)
Record daily_row := {
  bin_approved_at : Z;
  order_count : nat;
  order_item_count : Z;
  revenue : Z
}.

(** The calendar day of a row's approval, NaT giving none. *)
Definition approved_day (r : order_row) : option Z := day_of <$> order_approved_at r.

(** The bins of the resampler: every day from the first to the last. *)
Definition day_bins (df : list order_row) : list Z :=
  match min_opt (map approved_day df), max_opt (map approved_day df) with
  | Some lo, Some hi => seqZ lo (hi - lo + 1)
  | _, _ => []
  end.

Definition rows_of_day (df : list order_row) (d : Z) : list order_row :=
  filter (λ r, approved_day r = Some d) df.

(** [agg({'order_id': 'nunique', 'order_item_id': 'sum',
    'payment_value': 'sum'})] on one bin. *)
Definition daily_agg (df : list order_row) (d : Z) : daily_row :=
  let g := rows_of_day df d in
  {| bin_approved_at := midnight d; order_count := nunique order_id g;
     order_item_count := Σ[order_item_id] g; revenue := Σ[payment_value] g |}.

Definition create_daily_orders_df (df : list order_row) : list daily_row :=
  map (daily_agg df) (day_bins df).

(** [plot_total_orders_and_revenue]: the two metrics, before the
    revenue is formatted. *)
Definition plot_total_orders_and_revenue (daily : list daily_row) : Z * Z :=
  (Σ[λ x, Z.of_nat (order_count x)] daily, Σ[revenue] daily).

(** The test of line 84:
    [min_date <= daily_orders_df['order_approved_at'].max() - 60 days].
    [min_date] is the global minimum of [all_df], not the start of the
    selected range; a NaT on either side compares false. *)
Definition long_range (daily : list daily_row) (min_date : option Z) : bool :=
  match min_date, max_opt (map (λ x, Some (bin_approved_at x)) daily) with
  | Some m, Some hi => bool_decide (m ≤ hi - 60 * seconds_per_day)
  | _, _ => false
  end.

(** [plot_daily_orders]: the plotted line, and the text labels of the
    [else] branch, one per day at height [order_count + 0.5] (kept in
    half units: [2 * order_count + 1]). *)
Definition plot_daily_orders (daily : list daily_row) (min_date : option Z)
    : list (Z * nat) * list (Z * Z * nat) :=
  let line := map (λ x, (bin_approved_at x, order_count x)) daily in
  if long_range daily min_date then (line, [])
  else (line, map (λ x, (bin_approved_at x, 2 * Z.of_nat (order_count x) + 1,
                         order_count x)) daily).

(** ** Lemmas *)

(** Every approval day lies in the bins, and the bins are distinct. *)
Lemma day_bins_cover df r d :
  r ∈ df → approved_day r = Some d → d ∈ day_bins df.
Proof.
  intros Hr Hd. unfold day_bins.
  pose proof (min_opt_spec (map approved_day df)) as Hmin.
  pose proof (max_opt_spec (map approved_day df)) as Hmax.
  assert (Some d ∈ map approved_day df) as Hin.
  { rewrite <- Hd. apply list_elem_of_fmap_2, Hr. }
  destruct (min_opt (map approved_day df)) as [lo|], (max_opt (map approved_day df)) as [hi|].
  - destruct Hmin as [_ Hlo], Hmax as [_ Hhi].
    specialize (Hlo _ Hin). specialize (Hhi _ Hin).
    apply elem_of_seqZ. lia.
  - by specialize (Hmax _ Hin).
  - by specialize (Hmin _ Hin).
  - by specialize (Hmin _ Hin).
Qed.

Lemma NoDup_day_bins df : NoDup (day_bins df).
Proof.
  unfold day_bins.
  destruct (min_opt (map approved_day df)), (max_opt (map approved_day df));
    auto using NoDup_seqZ, NoDup_nil_2.
Qed.

(** The rows that fall in some bin are exactly the approved rows. *)
Lemma filter_in_day_bins df :
  filter (in_keys approved_day (day_bins df)) df =
  filter (λ r, is_Some (order_approved_at r)) df.
Proof.
  apply filter_ext_elem. intros r Hr. unfold in_keys, approved_day.
  destruct (order_approved_at r) as [t|] eqn:Ht; simpl.
  - split; [by eexists|]. intros _. exists (day_of t). split; [done|].
    eapply day_bins_cover; [done|]. unfold approved_day. by rewrite Ht.
  - split; [naive_solver|]. by intros [? ?].
Qed.

(** A per-day sum over the series is the sum over the approved rows. *)
Lemma sum_daily (h : order_row → Z) df :
  Σ[λ d, Σ[h] (rows_of_day df d)] (day_bins df) =
  Σ[h] (filter (λ r, is_Some (order_approved_at r)) df).
Proof.
  unfold rows_of_day. rewrite sum_by_keys by apply NoDup_day_bins.
  by rewrite filter_in_day_bins.
Qed.

Lemma day_bins_range df lo hi :
  min_opt (map approved_day df) = Some lo → max_opt (map approved_day df) = Some hi →
  day_bins df = seqZ lo (hi - lo + 1).
Proof. intros Hlo Hhi. unfold day_bins. by rewrite Hlo, Hhi. Qed.

(** C11: the series loses no revenue and no item: its [revenue] and
    [order_item_count] columns sum to the totals over the rows that have
    an approval date. *)
Theorem daily_conservation df :
  Σ[revenue] (create_daily_orders_df df) =
    Σ[payment_value] (filter (λ r, is_Some (order_approved_at r)) df) ∧
  Σ[order_item_count] (create_daily_orders_df df) =
    Σ[order_item_id] (filter (λ r, is_Some (order_approved_at r)) df).
Proof. unfold create_daily_orders_df. rewrite !sum_by_map. split; apply sum_daily. Qed.

(** C12: the series is contiguous and zero-filled: one row per calendar
    day from the first approval day to the last, in order, and a day
    without approved orders is a row of zeros (the spec expects such
    days to be absent). *)
Theorem daily_contiguous_zero_filled df lo hi :
  min_opt (map approved_day df) = Some lo → max_opt (map approved_day df) = Some hi →
  map bin_approved_at (create_daily_orders_df df) = map midnight (seqZ lo (hi - lo + 1)) ∧
  ∀ d, lo ≤ d ≤ hi → rows_of_day df d = [] →
       {| bin_approved_at := midnight d; order_count := 0; order_item_count := 0;
          revenue := 0 |} ∈ create_daily_orders_df df.
Proof.
  intros Hlo Hhi. unfold create_daily_orders_df.
  rewrite (day_bins_range df lo hi Hlo Hhi). split.
  - by rewrite map_map.
  - intros d Hd Hnone. apply list_elem_of_fmap. exists d.
    split; [unfold daily_agg; by rewrite Hnone|]. apply elem_of_seqZ. lia.
Qed.

(** C13: when every order has one approval time (the merged table
    repeats it on each item row), the [#Total Orders] metric of
    [plot_total_orders_and_revenue], a sum of per-day distinct counts,
    is the number of distinct approved orders. *)
Theorem total_orders_refines_nunique df :
  (∀ r1, r1 ∈ df → ∀ r2, r2 ∈ df → order_id r1 = order_id r2 →
         order_approved_at r1 = order_approved_at r2) →
  (plot_total_orders_and_revenue (create_daily_orders_df df)).1 =
  Z.of_nat (nunique order_id (filter (λ r, is_Some (order_approved_at r)) df)).
Proof.
  intros Hfd. simpl. unfold create_daily_orders_df. rewrite sum_by_map.
  unfold daily_agg, rows_of_day. simpl.
  rewrite nunique_keys by (apply NoDup_day_bins || (intros; unfold approved_day; f_equal; auto)).
  by rewrite filter_in_day_bins.
Qed.

(** A table of two orders, on days 100 and 102, none on day 101. *)
Definition two_orders : list order_row :=
  [mk_order "a" 1 (Some "toys") 1500 (Some 5) (Some (midnight 100 + 3600));
   mk_order "a" 2 (Some "toys") 700 (Some 5) (Some (midnight 100 + 3600));
   mk_order "b" 1 (Some "auto") 9900 (Some 3) (Some (midnight 102 + 50));
   mk_order "c" 1 (Some "auto") 100 None None].

Lemma daily_contiguous_zero_filled_witness :
  min_opt (map approved_day two_orders) = Some 100 ∧
  max_opt (map approved_day two_orders) = Some 102 ∧
  map bin_approved_at (create_daily_orders_df two_orders) = map midnight (seqZ 100 3) ∧
  {| bin_approved_at := midnight 101; order_count := 0; order_item_count := 0;
     revenue := 0 |} ∈ create_daily_orders_df two_orders.
Proof.
  assert (min_opt (map approved_day two_orders) = Some 100) as Hlo by (vm_compute; reflexivity).
  assert (max_opt (map approved_day two_orders) = Some 102) as Hhi by (vm_compute; reflexivity).
  destruct (daily_contiguous_zero_filled two_orders 100 102 Hlo Hhi) as [Hdays Hzero].
  split; [exact Hlo|]. split; [exact Hhi|]. split; [exact Hdays|].
  apply (Hzero 101); [lia|vm_compute; reflexivity].
Defined.

Lemma total_orders_refines_nunique_witness :
  (∀ r1, r1 ∈ two_orders → ∀ r2, r2 ∈ two_orders → order_id r1 = order_id r2 →
         order_approved_at r1 = order_approved_at r2) ∧
  (plot_total_orders_and_revenue (create_daily_orders_df two_orders)).1 = 2.
Proof.
  assert (∀ r1, r1 ∈ two_orders → ∀ r2, r2 ∈ two_orders → order_id r1 = order_id r2 →
          order_approved_at r1 = order_approved_at r2) as Hfd
    by by_compute.
  split; [exact Hfd|]. rewrite (total_orders_refines_nunique two_orders Hfd).
  vm_compute. reflexivity.
Defined.

End Daily.
