(* ===== verification/Currency.v ===== *)
(** The revenue metrics are shown with
    [format_currency(total_revenue, 'BRL', locale='pt_BR')] (lines 30,
    49 and 78 of [src/dashboard/dashboard.py]).  Babel's pattern for
    this currency and locale is [¤ #,##0.00]: the symbol [R$], a
    no-break space, the integer part in groups of three digits separated
    by [.], a [,] and two decimals; a negative amount is prefixed with
    [-].  Amounts are exact centavos here, so no rounding happens.

    Digits are computed with fuel: the number of bits of the amount,
    which bounds its number of decimal digits ([rev_digits_value]).
    The file proves that the text reads back to the amount
    ([parse_brl]). *)

From S2P Require Import Prelude.
From Stdlib Require Import Ascii.
From Stdlib Require Strings.String.

Module Currency.
Local Open Scope N_scope.

(** The UTF-8 bytes of U+00A0, the no-break space of the pattern. *)
Definition nbsp : list ascii := [ascii_of_nat 194; ascii_of_nat 160].
Definition symbol : list ascii := ["R"%char; "$"%char] ++ nbsp.

Definition digit_char (d : N) : ascii := ascii_of_N (48 + d).
Definition digit_val (ch : ascii) : N := N_of_ascii ch - 48.

(** Decimal digits, least significant first. *)
Fixpoint rev_digits (fuel : nat) (n : N) : list N :=
  match fuel with
  | O => []
  | S f => if decide (n < 10) then [n] else n `mod` 10 :: rev_digits f (n `div` 10)
  end.

Definition digits_fuel (n : N) : nat := S (N.to_nat (N.size n)).

(** The number a list of digits, least significant first, denotes. *)
Definition value_rev (ds : list N) : N := foldr (λ d acc, d + 10 * acc) 0 ds.

(** A [.] after every third digit from the right (the digits are given
    least significant first). *)
Fixpoint group3 (ds : list ascii) : list ascii :=
  match ds with
  | a :: b :: c :: ((_ :: _) as rest) => a :: b :: c :: "."%char :: group3 rest
  | _ => ds
  end.

(** [#,##0.00] on a non-negative amount of centavos. *)
Definition format_amount (c : N) : list ascii :=
  let units := c `div` 100 in
  let cents := c `mod` 100 in
  reverse (group3 (map digit_char (rev_digits (digits_fuel units) units))) ++
  [","%char; digit_char (cents `div` 10); digit_char (cents `mod` 10)].

(** [format_currency(c, 'BRL', locale='pt_BR')], [c] in centavos. *)
Definition format_currency (c : Z) : string :=
  Stdlib.Strings.String.string_of_list_ascii
    ((if decide (c < 0)%Z then ["-"%char] else []) ++ symbol ++
     format_amount (Z.to_N (Z.abs c))).

(** ** Reading an amount back *)

Fixpoint drop_prefix (p l : list ascii) : option (list ascii) :=
  match p, l with
  | [], _ => Some l
  | x :: p', y :: l' => if decide (x = y) then drop_prefix p' l' else None
  | _ :: _, [] => None
  end.

Definition parse_amount (l : list ascii) : option N :=
  match reverse l with
  | u :: t :: comma :: rint =>
      if decide (comma = ","%char) then
        Some (100 * value_rev (map digit_val (filter (λ ch, ch ≠ "."%char) rint)) +
              10 * digit_val t + digit_val u)
      else None
  | _ => None
  end.

Definition parse_brl (s : string) : option Z :=
  let l := Stdlib.Strings.String.list_ascii_of_string s in
  match l with
  | ch :: rest =>
      if decide (ch = "-"%char) then
        a ← drop_prefix symbol rest ≫= parse_amount; Some (- Z.of_N a)%Z
      else a ← drop_prefix symbol l ≫= parse_amount; Some (Z.of_N a)
  | [] => None
  end.

(** ** Lemmas *)

Lemma rev_digits_value f n :
  n < 2 ^ N.of_nat f →
  value_rev (rev_digits (S f) n) = n ∧ Forall (λ d, d < 10) (rev_digits (S f) n).
Proof.
  revert n. induction f as [|f IH]; intros n Hn.
  - simpl in Hn. assert (n = 0) as -> by lia. simpl. split; [done|]. repeat constructor; lia.
  - cbn [rev_digits]. case_decide as H10.
    + split; [simpl; lia|]. repeat constructor; lia.
    + rewrite Nat2N.inj_succ, N.pow_succ_r' in Hn.
      destruct (IH (n `div` 10)) as [Hv Hd]; [apply N.Div0.div_lt_upper_bound; lia|].
      cbn [rev_digits] in Hv, Hd. split.
      * simpl. rewrite Hv. pose proof (N.div_mod n 10). lia.
      * constructor; [apply N.mod_lt; lia|done].
Qed.

Lemma digits_value n :
  value_rev (rev_digits (digits_fuel n) n) = n ∧
  Forall (λ d, d < 10) (rev_digits (digits_fuel n) n).
Proof. apply rev_digits_value. rewrite N2Nat.id. apply N.size_gt. Qed.

Lemma digit_val_char d : d < 10 → digit_val (digit_char d) = d.
Proof.
  intros Hd. unfold digit_val, digit_char. rewrite N_ascii_embedding by lia. lia.
Qed.

Lemma digit_char_not_dot d : d < 10 → digit_char d ≠ "."%char.
Proof.
  intros Hd Heq. apply (f_equal N_of_ascii) in Heq.
  unfold digit_char in Heq. rewrite N_ascii_embedding in Heq by lia.
  assert (N_of_ascii "."%char = 46) by reflexivity. lia.
Qed.

Lemma group3_step a b c d rest :
  group3 (a :: b :: c :: d :: rest) = a :: b :: c :: "."%char :: group3 (d :: rest).
Proof. done. Qed.

Lemma filter_group3 (ds : list ascii) :
  Forall (λ ch, ch ≠ "."%char) ds → filter (λ ch, ch ≠ "."%char) (group3 ds) = ds.
Proof.
  remember (length ds) as n eqn:Hn. revert ds Hn.
  induction (lt_wf n) as [n _ IH]. intros ds -> Hds.
  destruct ds as [|a [|b [|c [|d rest]]]];
    repeat (rewrite Forall_cons in Hds; destruct Hds as [? Hds]).
  1-4: simpl; rewrite ?filter_cons, ?filter_nil; repeat (rewrite decide_True by done); done.
  rewrite group3_step, !filter_cons, !decide_True, decide_False by (done || tauto).
  rewrite (IH (length (d :: rest))); [done|simpl; lia|done|]. by constructor.
Qed.

Lemma parse_format_amount c : parse_amount (format_amount c) = Some c.
Proof.
  unfold parse_amount, format_amount.
  destruct (digits_value (c `div` 100)) as [Hv Hd]. revert Hv Hd.
  generalize (rev_digits (digits_fuel (c `div` 100)) (c `div` 100)) as ds. intros ds Hv Hd.
  rewrite reverse_app, reverse_involutive. simpl.
  rewrite filter_group3.
  - rewrite map_map, (map_ext_in _ id), map_id, Hv.
    + rewrite !digit_val_char
        by (apply N.mod_lt; lia) || (apply N.Div0.div_lt_upper_bound; pose proof (N.mod_lt c 100); lia).
      f_equal. pose proof (N.div_mod c 100). pose proof (N.div_mod (c `mod` 100) 10).
      pose proof (N.mod_lt c 100). lia.
    + intros d Hin%list_elem_of_In. apply digit_val_char.
      rewrite Forall_forall in Hd. auto.
  - apply Forall_forall. intros ch (d & -> & Hin)%list_elem_of_fmap.
    apply digit_char_not_dot. rewrite Forall_forall in Hd. auto.
Qed.

Lemma parse_brl_format c : parse_brl (format_currency c) = Some c.
Proof.
  unfold parse_brl, format_currency.
  rewrite Stdlib.Strings.String.list_ascii_of_string_of_list_ascii.
  case_decide as Hneg; simpl; rewrite parse_format_amount; simpl;
    f_equal; rewrite Z2N.id; lia.
Qed.

(** C14: the revenue text reads back to the amount it was printed from,
    so two different amounts never print the same text. *)
Theorem format_currency_roundtrip (c : Z) :
  parse_brl (format_currency c) = Some c ∧
  ∀ c', format_currency c' = format_currency c → c' = c.
Proof.
  split; [apply parse_brl_format|]. intros c' Heq.
  apply (f_equal parse_brl) in Heq. rewrite !parse_brl_format in Heq. congruence.
Qed.

(** The printed form of a few amounts. *)
Example format_currency_examples :
  format_currency 123456789 = "R$" +:+ Stdlib.Strings.String.string_of_list_ascii nbsp +:+ "1.234.567,89" ∧
  format_currency 5 = "R$" +:+ Stdlib.Strings.String.string_of_list_ascii nbsp +:+ "0,05" ∧
  format_currency (-100000) = "-R$" +:+ Stdlib.Strings.String.string_of_list_ascii nbsp +:+ "1.000,00".
Proof. split_and!; vm_compute; reflexivity. Qed.

End Currency.
