(* ===== verification/Metrics.v ===== *)
(** The detail panel: [display_dataframe] (lines 16-57 of
    [src/dashboard/dashboard.py]).  With no category selected the three
    metrics are computed on the whole table, otherwise on the rows whose
    category is one of the selected labels ([Series.isin], in which NaN
    matches NaN: the multiselect offers [unique()] of the categories,
    NaN included, and a selected NaN selects the rows of no category).  The mean review score is
    [Series.mean()] (NaN skipped, NaN on no value) rounded by
    [.round(2)], half to even; it is kept in hundredths. *)

From S2P Require Import Prelude Table Currency.

Module Metrics.
Local Open Scope Z_scope.

(** [df['product_category_name_english'].isin(option)]; a NaN
    category matches a NaN in [option]. *)
Definition isin (option : list (option string)) (r : order_row) : bool :=
  bool_decide (product_category_name_english r ∈ option).

(** [Series.unique()]: the distinct values in order of first
    appearance, NaN counted as one value. *)
Fixpoint unique_from {A} `{EqDecision A} (seen : list A) (l : list A) : list A :=
  match l with
  | [] => []
  | x :: l' => if decide (x ∈ seen) then unique_from seen l' else x :: unique_from (x :: seen) l'
  end.
Definition unique {A} `{EqDecision A} (l : list A) : list A := unique_from [] l.

(** The options of the category multiselect (lines 438-441):
    [main_df['product_category_name_english'].unique()]. *)
Definition category_options (df : list order_row) : list (option string) :=
  unique (map product_category_name_english df).

(** The nearest integer to [num / den] ([den > 0]), ties to even. *)
Definition round_half_even (num den : Z) : Z :=
  let q := num `div` den in
  let r := num `mod` den in
  if decide (2 * r < den) then q
  else if decide (den < 2 * r) then q + 1
  else if Z.even q then q else q + 1.

(** [df.review_score.mean().round(2)], in hundredths. *)
Definition mean_review_round2 (df : list order_row) : option Z :=
  match omap review_score df with
  | [] => None
  | scores => Some (round_half_even (100 * Σ[λ s, s] scores) (Z.of_nat (length scores)))
  end.

(** The three [st.metric] values and the table passed to [st.dataframe]. *)
Record metrics := {
  total_orders : nat;
  formatted_revenue : string;
  mean_review : option Z;
  shown : list order_row
}.

Definition display_dataframe (df : list order_row) (option : list (option string)) : metrics :=
  let selected_product := filter (λ r, isin option r = true) df in
  if decide (option = []) then
    {| total_orders := nunique order_id df;
       formatted_revenue := Currency.format_currency (Σ[payment_value] df);
       mean_review := mean_review_round2 df;
       shown := df |}
  else
    {| total_orders := nunique order_id selected_product;
       formatted_revenue := Currency.format_currency (Σ[payment_value] selected_product);
       mean_review := mean_review_round2 selected_product;
       shown := selected_product |}.

(** ** Lemmas *)

Lemma display_dataframe_fields df option :
  let m := display_dataframe df option in
  total_orders m = nunique order_id (shown m) ∧
  formatted_revenue m = Currency.format_currency (Σ[payment_value] (shown m)) ∧
  mean_review m = mean_review_round2 (shown m).
Proof. unfold display_dataframe. by case_decide. Qed.

Lemma isin_true option r : isin option r = true ↔ product_category_name_english r ∈ option.
Proof. unfold isin. apply bool_decide_eq_true. Qed.

Lemma elem_of_unique_from {A} `{EqDecision A} (seen l : list A) x :
  x ∈ unique_from seen l ↔ x ∈ l ∧ x ∉ seen.
Proof.
  revert seen. induction l as [|a l IH]; intros seen; simpl; [set_solver|].
  case_decide as Ha; rewrite ?elem_of_cons, IH, ?elem_of_cons, ?elem_of_cons; split.
  - intros [Hx Hs]. auto.
  - intros [[->|Hx] Hs]; [contradiction|auto].
  - intros [->|[Hx Hn]]; [auto|]. split; [auto|]. intros Hs. apply Hn. auto.
  - intros [[->|Hx] Hs]; [auto|]. destruct (decide (x = a)) as [->|Hxa]; [auto|].
    right. split; [done|]. intros [?|?]; contradiction.
Qed.

Lemma NoDup_unique_from {A} `{EqDecision A} (seen l : list A) : NoDup (unique_from seen l).
Proof.
  revert seen. induction l as [|a l IH]; intros seen; simpl; [constructor|].
  case_decide; [done|]. constructor; [|done]. rewrite elem_of_unique_from. set_solver.
Qed.

Lemma unique_from_sublist {A} `{EqDecision A} (seen l : list A) : unique_from seen l `sublist_of` l.
Proof.
  revert seen. induction l as [|a l IH]; intros seen; simpl; [constructor|].
  case_decide; [apply sublist_cons|apply sublist_skip]; apply IH.
Qed.

Lemma round_half_even_spec num den :
  0 < den → 2 * Z.abs (den * round_half_even num den - num) ≤ den.
Proof.
  intros Hden. unfold round_half_even.
  pose proof (Z.div_mod num den ltac:(lia)). pose proof (Z.mod_pos_bound num den Hden).
  set (q := num `div` den) in *. set (r := num `mod` den) in *.
  repeat case_decide; try destruct (Z.even q); lia.
Qed.

Lemma sum_scores_bounds (scores : list Z) :
  Forall (λ s, 1 ≤ s ≤ 5) scores →
  Z.of_nat (length scores) ≤ Σ[λ s, s] scores ≤ 5 * Z.of_nat (length scores).
Proof. induction 1; simpl; lia. Qed.

(** C15: the table the panel shows is the whole table when no category
    is selected, and otherwise exactly the rows whose category equals
    one of the selected labels, NaN matching NaN; the metrics are
    computed on that table. *)
Theorem display_dataframe_shown df option r :
  r ∈ shown (display_dataframe df option) ↔
  r ∈ df ∧ (option = [] ∨ product_category_name_english r ∈ option).
Proof.
  unfold display_dataframe. case_decide as Hopt; simpl.
  - naive_solver.
  - rewrite list_elem_of_filter, isin_true. naive_solver.
Qed.

(** On an empty selection the order count is 0, the revenue prints
    as zero, and the mean review is undefined (not 0). *)
Theorem display_dataframe_empty df option :
  shown (display_dataframe df option) = [] →
  total_orders (display_dataframe df option) = 0%nat ∧
  formatted_revenue (display_dataframe df option) = Currency.format_currency 0 ∧
  mean_review (display_dataframe df option) = None.
Proof.
  intros Hnil. destruct (display_dataframe_fields df option) as (-> & -> & ->).
  by rewrite Hnil.
Qed.

(** C17: with review scores between 1 and 5 the mean shown lies between
    1.00 and 5.00, and it is the exact mean rounded to the nearest
    hundredth (within half a hundredth). *)
Theorem mean_review_bounds df m :
  (∀ r, r ∈ df → ∀ s, review_score r = Some s → 1 ≤ s ≤ 5) →
  mean_review_round2 df = Some m →
  100 ≤ m ≤ 500 ∧
  2 * Z.abs (Z.of_nat (length (omap review_score df)) * m -
             100 * Σ[λ s, s] (omap review_score df)) ≤ Z.of_nat (length (omap review_score df)).
Proof.
  intros Hrange. unfold mean_review_round2.
  assert (Forall (λ s, 1 ≤ s ≤ 5) (omap review_score df)) as Hall.
  { apply Forall_forall. intros s (r & Hr & Hs)%list_elem_of_omap. eauto. }
  destruct (omap review_score df) as [|s0 rest] eqn:Hsc; [done|]. intros [= <-].
  pose proof (sum_scores_bounds _ Hall) as Hb.
  set (n := Z.of_nat (length (s0 :: rest))) in *. set (S := Σ[λ s, s] (s0 :: rest)) in *.
  assert (0 < n) by (subst n; simpl; lia).
  pose proof (round_half_even_spec (100 * S) n ltac:(lia)) as Hr.
  set (m := round_half_even (100 * S) n) in *.
  split; [|done].
  assert (n * 99 < n * m ∧ n * m < n * 501) as [Hlo Hhi].
  { destruct (Z.abs_spec (n * m - 100 * S)) as [[_ E]|[_ E]]; rewrite E in Hr; lia. }
  rewrite <- !Z.mul_lt_mono_pos_l in Hlo, Hhi by lia. change (100 ≤ m ≤ 500). lia.
Qed.

(** C36: the category multiselect (lines 438-441) offers each
    category of [main_df] once, NaN included, in the order of the
    table, and nothing else; a non-empty selection of offered categories
    shows the rows of those categories, never an empty table. *)
Theorem category_options_spec df :
  NoDup (category_options df) ∧ category_options df `sublist_of` map product_category_name_english df ∧
  (∀ o, o ∈ category_options df ↔ ∃ r, r ∈ df ∧ product_category_name_english r = o) ∧
  (∀ option, option ≠ [] → option ⊆ category_options df → shown (display_dataframe df option) ≠ []).
Proof.
  unfold category_options, unique.
  assert (∀ o, o ∈ unique_from [] (map product_category_name_english df) ↔
               ∃ r, r ∈ df ∧ product_category_name_english r = o) as Hin.
  { intros o. rewrite elem_of_unique_from, list_elem_of_fmap. set_solver. }
  split_and!; [apply NoDup_unique_from|apply unique_from_sublist|done|].
  intros option Hne Hsub. destruct option as [|o os]; [done|].
  destruct (proj1 (Hin o) (Hsub o ltac:(left))) as (r & Hr & Ho).
  assert (r ∈ shown (display_dataframe df (o :: os))) as Hshown.
  { unfold display_dataframe. rewrite decide_False by done. simpl.
    apply list_elem_of_filter. rewrite isin_true, Ho. split; [left|done]. }
  intros Hnil. rewrite Hnil in Hshown. by apply elem_of_nil in Hshown.
Qed.

(** The table of the spec's example. *)
Definition spec_table : list order_row :=
  [mk_order "o1" 1 (Some "A") 1000 (Some 5) (Some 0);
   mk_order "o2" 1 (Some "A") 2000 (Some 3) (Some 0);
   mk_order "o3" 1 (Some "B") 500 (Some 4) (Some 0)].

(** The spec's example: selecting category [A] gives 2 orders, a
    revenue of R$ 30,00 and a mean review of 4.00. *)
Theorem display_dataframe_spec_example :
  display_dataframe spec_table [Some "A"] =
  {| total_orders := 2; formatted_revenue := Currency.format_currency 3000;
     mean_review := Some 400; shown := take 2 spec_table |}.
Proof. vm_compute. reflexivity. Qed.

Lemma display_dataframe_empty_witness :
  shown (display_dataframe spec_table [Some "C"]) = [] ∧
  total_orders (display_dataframe spec_table [Some "C"]) = 0%nat ∧
  formatted_revenue (display_dataframe spec_table [Some "C"]) = Currency.format_currency 0 ∧
  mean_review (display_dataframe spec_table [Some "C"]) = None.
Proof.
  assert (shown (display_dataframe spec_table [Some "C"]) = []) as H0 by (vm_compute; reflexivity).
  split; [exact H0|]. exact (display_dataframe_empty spec_table [Some "C"] H0).
Defined.

Lemma mean_review_bounds_witness :
  (∀ r, r ∈ spec_table → ∀ s, review_score r = Some s → 1 ≤ s ≤ 5) ∧
  mean_review_round2 spec_table = Some 400 ∧ 100 ≤ 400 ≤ 500.
Proof.
  assert (∀ r, r ∈ spec_table → ∀ s, review_score r = Some s → 1 ≤ s ≤ 5) as Hr.
  { intros r Hr s Hs. repeat (apply elem_of_cons in Hr as [->|Hr]);
      [..|by apply elem_of_nil in Hr]; simpl in Hs; simplify_eq; lia. }
  assert (mean_review_round2 spec_table = Some 400) as Hm by (vm_compute; reflexivity).
  split; [exact Hr|]. split; [exact Hm|].
  exact (proj1 (mean_review_bounds spec_table 400 Hr Hm)).
Defined.

End Metrics.
