(* ===== verification/Stats.v ===== *)
(** Exact statistics in [Q] for the panels that compute with floats:
    [Qsum] (a [Series.sum] of rationals) and the one-pass mean and
    co-moment update pandas' [nancorr] runs for [DataFrame.corr()]
    (Welford's method, [pandas/_libs/algos.pyx]).  [welford_two_pass]
    proves the update computes the two-pass definitions (mean, sum of
    squared deviations, sum of cross deviations); [codev_sq_le] is the
    Cauchy-Schwarz inequality on them, proved over [R] and transported
    to [Q] through [Q2R]. *)

From S2P Require Import Prelude.
From Stdlib Require Import QArith Qfield Qreals Reals Psatz.

Local Open Scope Q_scope.

#[export] Instance Qlt_dec : RelDecision Qlt := λ x y,
  match Qlt_le_dec x y with left H => left H | right H => right (Qle_not_lt y x H) end.

#[export] Instance Qle_dec : RelDecision Qle := λ x y,
  match Qlt_le_dec y x with left H => right (Qlt_not_le y x H) | right H => left H end.

Definition Qsum (l : list Q) : Q := foldr Qplus 0 l.

(** [n] as a rational, the [nobs] of the loop. *)
Definition Qnat (n : nat) : Q := inject_Z (Z.of_nat n).

(** The accumulators of [nancorr]'s inner loop over rows. *)
Record welford := {
  nobs : nat;
  meanx : Q;
  meany : Q;
  ssqdmx : Q;
  ssqdmy : Q;
  covxy : Q
}.

Definition welford0 : welford :=
  {| nobs := 0; meanx := 0; meany := 0; ssqdmx := 0; ssqdmy := 0; covxy := 0 |}.

(** One row where both values are present:
    [nobs += 1; dx = vx - meanx; dy = vy - meany;
     meanx += 1 / nobs * dx; meany += 1 / nobs * dy;
     ssqdmx += (vx - meanx) * dx; ssqdmy += (vy - meany) * dy;
     covxy += (vx - meanx) * dy]. *)
Definition welford_step (w : welford) (vx vy : Q) : welford :=
  let n := S (nobs w) in
  let dx := vx - meanx w in
  let dy := vy - meany w in
  let mx := meanx w + 1 / Qnat n * dx in
  let my := meany w + 1 / Qnat n * dy in
  {| nobs := n; meanx := mx; meany := my;
     ssqdmx := ssqdmx w + (vx - mx) * dx;
     ssqdmy := ssqdmy w + (vy - my) * dy;
     covxy := covxy w + (vx - mx) * dy |}.

Definition welford_run (ps : list (Q * Q)) : welford :=
  foldl (λ w p, welford_step w p.1 p.2) welford0 ps.

(** The two-pass reference definitions. *)
Definition mean (xs : list Q) : Q := Qsum xs / Qnat (length xs).

Definition codev (ps : list (Q * Q)) : Q :=
  let mx := mean (map fst ps) in
  let my := mean (map snd ps) in
  Qsum (map (λ p, (p.1 - mx) * (p.2 - my)) ps).

Definition diag (xs : list Q) : list (Q * Q) := map (λ x, (x, x)) xs.

(** ** Sums *)

Lemma Qsum_app l1 l2 : Qsum (l1 ++ l2) == Qsum l1 + Qsum l2.
Proof. induction l1 as [|x l IH]; simpl; [ring|]. rewrite IH. ring. Qed.

Lemma Qsum_snoc l x : Qsum (l ++ [x]) == Qsum l + x.
Proof. rewrite Qsum_app. simpl. ring. Qed.

Lemma Qnat_S n : Qnat (S n) == Qnat n + 1.
Proof. unfold Qnat. rewrite Nat2Z.inj_succ, <- Z.add_1_r, inject_Z_plus. reflexivity. Qed.

Lemma Qnat_pos n : 0 < Qnat (S n).
Proof. unfold Qnat, Qlt. simpl. lia. Qed.

Lemma Qnat_nonneg n : 0 <= Qnat n.
Proof. unfold Qnat, Qle. simpl. lia. Qed.

(** Sum of cross deviations from any two centres, expanded. *)
Lemma Qsum_cross (a b : Q) ps :
  Qsum (map (λ p, (p.1 - a) * (p.2 - b)) ps) ==
  Qsum (map (λ p, p.1 * p.2) ps) - a * Qsum (map snd ps) - b * Qsum (map fst ps) +
  Qnat (length ps) * a * b.
Proof.
  induction ps as [|p ps IH]; simpl; [unfold Qnat; simpl; ring|].
  rewrite IH, Qnat_S. ring.
Qed.

Lemma mean_mul xs : xs ≠ [] → mean xs * Qnat (length xs) == Qsum xs.
Proof.
  intros Hne. unfold mean. destruct xs as [|x xs]; [done|].
  field. apply Qnot_eq_sym, Qlt_not_eq, Qnat_pos.
Qed.

(** [codev] is the co-moment [Σ xy - mean x * Σ y]. *)
Lemma codev_alt ps :
  ps ≠ [] →
  codev ps == Qsum (map (λ p, p.1 * p.2) ps) - mean (map fst ps) * Qsum (map snd ps).
Proof.
  intros Hne. unfold codev. rewrite Qsum_cross.
  assert (map fst ps ≠ []) as Hx by (destruct ps; done).
  assert (map snd ps ≠ []) as Hy by (destruct ps; done).
  pose proof (mean_mul _ Hx) as Hmx. pose proof (mean_mul _ Hy) as Hmy.
  rewrite length_map in Hmx, Hmy.
  rewrite <- Hmx, <- Hmy. ring.
Qed.

(** The sum of squared deviations. *)
Lemma codev_diag xs :
  xs ≠ [] → codev (diag xs) == Qsum (map (λ x, x * x) xs) - mean xs * Qsum xs.
Proof.
  intros Hne. rewrite codev_alt by (destruct xs; done).
  unfold diag. rewrite !map_map. cbn [fst snd]. rewrite map_id. reflexivity.
Qed.

(** ** The one-pass update *)

Lemma welford_run_snoc ps p :
  welford_run (ps ++ [p]) = welford_step (welford_run ps) p.1 p.2.
Proof. unfold welford_run. by rewrite foldl_app. Qed.

(** The loop invariant: the means times the count are the sums, and the
    accumulators are the raw moments minus the mean times the sum. *)
Lemma welford_inv ps :
  let w := welford_run ps in
  nobs w = length ps ∧
  meanx w * Qnat (length ps) == Qsum (map fst ps) ∧
  meany w * Qnat (length ps) == Qsum (map snd ps) ∧
  ssqdmx w == Qsum (map (λ p, p.1 * p.1) ps) - meanx w * Qsum (map fst ps) ∧
  ssqdmy w == Qsum (map (λ p, p.2 * p.2) ps) - meany w * Qsum (map snd ps) ∧
  covxy w == Qsum (map (λ p, p.1 * p.2) ps) - meanx w * Qsum (map snd ps).
Proof.
  induction ps as [|p ps IH] using rev_ind.
  { cbn. unfold Qnat. split_and!; [done|cbn; ring..]. }
  cbv zeta in IH |- *. rewrite welford_run_snoc.
  destruct (welford_run ps) as [n mx my sx sy cxy].
  cbn [nobs meanx meany ssqdmx ssqdmy covxy welford_step] in *.
  destruct IH as (-> & Hmx & Hmy & Hsx & Hsy & Hc).
  rewrite !map_app. cbn [map]. rewrite !Qsum_snoc, length_app, Nat.add_1_r. cbn [fst snd].
  rewrite Hsx, Hsy, Hc, <- Hmx, <- Hmy.
  pose proof (Qnat_pos (length ps)) as Hpos. rewrite Qnat_S in Hpos |- *.
  assert (¬ Qnat (length ps) + 1 == 0) as Hnz by (apply Qnot_eq_sym, Qlt_not_eq, Hpos).
  split_and!; [done|field; exact Hnz..].
Qed.

(** Welford's loop computes the two-pass mean and co-moments: on the
    pairs of rows where both values are present, [meanx]/[meany] are
    the means, [ssqdmx]/[ssqdmy] the sums of squared deviations and
    [covxy] the sum of cross deviations. *)
Lemma welford_run_spec ps :
  ps ≠ [] →
  nobs (welford_run ps) = length ps ∧
  meanx (welford_run ps) == mean (map fst ps) ∧
  meany (welford_run ps) == mean (map snd ps) ∧
  ssqdmx (welford_run ps) == codev (diag (map fst ps)) ∧
  ssqdmy (welford_run ps) == codev (diag (map snd ps)) ∧
  covxy (welford_run ps) == codev ps.
Proof.
  intros Hne. destruct (welford_inv ps) as (Hn & Hmx & Hmy & Hsx & Hsy & Hc).
  assert (¬ Qnat (length ps) == 0) as Hnz.
  { destruct ps; [done|]. apply Qnot_eq_sym, Qlt_not_eq, Qnat_pos. }
  assert (meanx (welford_run ps) == mean (map fst ps)) as Ex.
  { unfold mean. rewrite length_map, <- Hmx. field. exact Hnz. }
  assert (meany (welford_run ps) == mean (map snd ps)) as Ey.
  { unfold mean. rewrite length_map, <- Hmy. field. exact Hnz. }
  split_and!; try done.
  - rewrite codev_diag by (destruct ps; done). rewrite Hsx, Ex, map_map. reflexivity.
  - rewrite codev_diag by (destruct ps; done). rewrite Hsy, Ey, map_map. reflexivity.
  - rewrite codev_alt by done. rewrite Hc, Ex. reflexivity.
Qed.

(** ** Cauchy-Schwarz *)

Lemma cs_cross_R (A B C a b : R) :
  (0 <= A → 0 <= B → C * C <= A * B → 2 * (a * b * C) <= A * (b * b) + (a * a) * B)%R.
Proof.
  intros HA HB HC. destruct (Rle_lt_or_eq_dec 0 A HA) as [Hp|H0].
  - assert (A * (A * (b * b) + (a * a) * B - 2 * (a * b * C)) =
            (A * b - a * C) * (A * b - a * C) + (a * a) * (A * B - C * C))%R as E by ring.
    assert (0 <= (a * a) * (A * B - C * C))%R by (apply Rmult_le_pos; [apply Rle_0_sqr|lra]).
    pose proof (Rle_0_sqr (A * b - a * C)). unfold Rsqr in *.
    assert (0 <= A * (b * b) + (a * a) * B - 2 * (a * b * C))%R; [|lra].
    apply (Rmult_le_reg_l A); [exact Hp|]. lra.
  - subst A. assert (C = 0)%R by nra. subst. nra.
Qed.

(** One more term keeps [C² ≤ A B]. *)
Lemma cs_step (A B C a b : Q) :
  0 <= A → 0 <= B → C * C <= A * B →
  (C + a * b) * (C + a * b) <= (A + a * a) * (B + b * b).
Proof.
  intros HA%Qle_Rle HB%Qle_Rle HC%Qle_Rle. apply Rle_Qle.
  rewrite !Q2R_mult, !Q2R_plus, !Q2R_mult in *.
  assert (Q2R 0 = 0)%R as E0 by (unfold Q2R; simpl; lra). rewrite E0 in HA, HB.
  pose proof (cs_cross_R (Q2R A) (Q2R B) (Q2R C) (Q2R a) (Q2R b) HA HB HC). nra.
Qed.

Lemma Qsquare_nonneg (q : Q) : 0 <= q * q.
Proof. unfold Qle, Qmult. cbn [Qnum Qden]. nia. Qed.

Lemma Qsum_sq_nonneg {A} (f : A → Q) ps : 0 <= Qsum (map (λ p, f p * f p) ps).
Proof.
  induction ps as [|p ps IH]; cbn [map foldr Qsum]; [apply Qle_refl|].
  apply (Qle_trans _ (0 + 0)); [apply Qle_refl|].
  apply Qplus_le_compat; [apply Qsquare_nonneg|exact IH].
Qed.

Lemma Qsum_cauchy_schwarz (ps : list (Q * Q)) :
  Qsum (map (λ p, p.1 * p.2) ps) * Qsum (map (λ p, p.1 * p.2) ps) <=
  Qsum (map (λ p, p.1 * p.1) ps) * Qsum (map (λ p, p.2 * p.2) ps).
Proof.
  induction ps as [|p ps IH]; cbn [map foldr Qsum]; [discriminate|].
  rewrite !(Qplus_comm (_ * _) (foldr _ _ _)).
  apply cs_step; [apply (Qsum_sq_nonneg fst)|apply (Qsum_sq_nonneg snd)|exact IH].
Qed.

(** [codev (diag xs)] is the sum of squared deviations from the mean. *)
Lemma codev_diag_sq xs :
  codev (diag xs) = Qsum (map (λ x, (x - mean xs) * (x - mean xs)) xs).
Proof.
  unfold codev, diag. rewrite !map_map. cbn [fst snd]. rewrite map_id. done.
Qed.

Lemma codev_diag_nonneg xs : 0 <= codev (diag xs).
Proof.
  rewrite codev_diag_sq.
  pose proof (Qsum_sq_nonneg (λ p, p.1 - mean xs) (map (λ x, (x, x)) xs)) as H.
  by rewrite map_map in H.
Qed.

(** The cross co-moment is bounded by the two squared ones. *)
Lemma codev_sq_le ps :
  codev ps * codev ps <= codev (diag (map fst ps)) * codev (diag (map snd ps)).
Proof.
  rewrite !codev_diag_sq. unfold codev.
  pose proof (Qsum_cauchy_schwarz
    (map (λ p, (p.1 - mean (map fst ps), p.2 - mean (map snd ps))) ps)) as H.
  rewrite !map_map in H. cbn [fst snd] in H. rewrite !map_map. exact H.
Qed.

(** ** Constant columns *)

Lemma Qsum_sq_zero {A} (f : A → Q) xs :
  Qsum (map (λ x, f x * f x) xs) == 0 → ∀ x, x ∈ xs → f x == 0.
Proof.
  induction xs as [|y xs IH]; cbn [map foldr Qsum].
  { intros _ x Hx. by apply elem_of_nil in Hx. }
  intros Hs. pose proof (Qsquare_nonneg (f y)) as Hy. pose proof (Qsum_sq_nonneg f xs) as Hr.
  unfold Qsum in Hr, IH. set (u := f y * f y) in *. set (v := foldr _ _ _) in *.
  assert (u == 0) as Hu by lra. assert (v == 0) as Hv by lra.
  intros x [->|Hx]%elem_of_cons; [|by apply IH].
  destruct (Qmult_integral _ _ Hu); done.
Qed.

Lemma Qsum_zero {A} (f : A → Q) xs : (∀ x, x ∈ xs → f x == 0) → Qsum (map f xs) == 0.
Proof.
  induction xs as [|y xs IH]; intros Hz; cbn [map foldr Qsum]; [reflexivity|].
  unfold Qsum in IH. rewrite IH by set_solver. rewrite Hz by set_solver. reflexivity.
Qed.

Lemma Qsum_const xs a : (∀ x, x ∈ xs → x == a) → Qsum xs == Qnat (length xs) * a.
Proof.
  induction xs as [|y xs IH]; intros Ha; cbn [foldr Qsum length].
  { unfold Qnat. simpl. ring. }
  unfold Qsum in IH. rewrite IH, (Ha y), Qnat_S by set_solver. ring.
Qed.

(** The squared deviations vanish exactly on a constant list. *)
Lemma codev_diag_zero_iff xs :
  codev (diag xs) == 0 ↔ ∀ a b, a ∈ xs → b ∈ xs → a == b.
Proof.
  rewrite codev_diag_sq. split.
  - intros Hz a b Ha Hb.
    pose proof (Qsum_sq_zero (λ x, x - mean xs) xs Hz) as H0. cbv beta in H0.
    apply H0 in Ha, Hb. lra.
  - intros Hall. destruct xs as [|x0 xs']; [reflexivity|].
    assert (mean (x0 :: xs') == x0) as Hm.
    { unfold mean. rewrite (Qsum_const _ x0) by (intros y Hy; apply Hall; set_solver).
      field. apply Qnot_eq_sym, Qlt_not_eq, Qnat_pos. }
    apply Qsum_zero. intros y Hy. rewrite Hm, (Hall y x0) by set_solver. ring.
Qed.
