(* ===== verification/Correlation.v ===== *)
(** The correlation panel: [plot_correlation_matrix] (lines 335-360 of
    [src/dashboard/dashboard.py]).  [df.select_dtypes(include=[np.number])]
    keeps the numeric columns, [DataFrame.corr()] computes pandas'
    [nancorr] with [minp = 1] for every pair of columns (Welford's
    one-pass loop over the rows where both values are present, [NaN]
    when no row is or when [sqrt(ssqdmx * ssqdmy)] is 0), and the
    heatmap hides the cells where [correlation_matrix.abs() < threshold].
    With the checkbox ticked the panel shows [correlation_matrix['price']].

    A cell keeps the three accumulators [covxy], [ssqdmx] and [ssqdmy]
    exactly; its value [covxy / sqrt (ssqdmx * ssqdmy)] is a real number
    ([cell_value]).  The mask is computed in [Q] ([abs_lt]) and proved
    to be the comparison of that real value with the threshold. *)

From S2P Require Import Prelude Table Stats.
From Stdlib Require Import QArith Qfield Qreals Reals Psatz.

Module Correlation.
Local Open Scope Q_scope.

(** A cell of the correlation [DataFrame]: [NaN], or the value
    [cov / sqrt (ssx * ssy)]. *)
Inductive cell :=
  | NaN
  | Pearson (cov ssx ssy : Q).

Definition cell_value (c : cell) : option R :=
  match c with
  | NaN => None
  | Pearson cov ssx ssy => Some (Q2R cov / sqrt (Q2R (ssx * ssy)))%R
  end.

(** The row loop of [nancorr] for one pair of columns: a row where
    either value is NaN is skipped. *)
Definition nancorr_row (w : welford) (vx vy : option Q) : welford :=
  match vx, vy with
  | Some a, Some b => welford_step w a b
  | _, _ => w
  end.

(** [nancorr] on columns [x] and [y]: [NaN] below [minp] rows, [NaN]
    when the divisor [sqrt(ssqdmx * ssqdmy)] is 0. *)
Definition nancorr_pair (minp : nat) (x y : list (option Q)) : cell :=
  let w := foldl (λ w p, nancorr_row w p.1 p.2) welford0 (zip x y) in
  if decide (nobs w < minp)%nat then NaN
  else if Qeq_bool (ssqdmx w * ssqdmy w) 0 then NaN
  else Pearson (covxy w) (ssqdmx w) (ssqdmy w).

(** A labelled column, and a labelled square matrix of cells. *)
Abbreviation column := (string * list (option Q))%type.
Abbreviation matrix := (list (string * list (string * cell))).

(** [numeric_columns.corr()]: the loop runs over [xi] and [yi <= xi]
    with column [xi] as [x], and writes the cell and its mirror. *)
Definition corr (cols : list column) : matrix :=
  imap (λ i ci, (ci.1, imap (λ j cj, (cj.1,
          if decide (j ≤ i)%nat then nancorr_pair 1 ci.2 cj.2
          else nancorr_pair 1 cj.2 ci.2)) cols)) cols.

(** [abs(c) < threshold] on a cell; a NaN compares false. *)
Definition abs_lt (t : Q) (c : cell) : bool :=
  match c with
  | NaN => false
  | Pearson cov ssx ssy => bool_decide (0 < t) && bool_decide (cov * cov < t * t * (ssx * ssy))
  end.

(** [mask=correlation_matrix.abs() < threshold]. *)
Definition mask_matrix (t : Q) (m : matrix) : list (string * list (string * bool)) :=
  map (λ row, (row.1, map (λ c, (c.1, abs_lt t c.2)) row.2)) m.

(** [correlation_matrix['price']]: the column of that label, indexed by
    the row labels; [KeyError] when there is no such column. *)
Definition get_column (m : matrix) (label : string) : result (list (string * cell)) :=
  if decide (label ∈ map fst m) then
    Ok (map (λ row, (row.1, default NaN (snd <$> (list_find (λ c, c.1 = label) row.2 ≫= λ p, Some p.2)))) m)
  else raise (ColumnKeyError label).

(** Money columns are float reais in the table, centavos here. *)
Definition reais (c : Z) : Q := inject_Z c / 100.

(** [df.select_dtypes(include=[np.number])] on the modelled columns, in
    the order of the table: identifiers, strings and datetimes are not
    numeric. *)
Definition numeric_columns (df : list order_row) : list column :=
  [("order_item_id", map (λ r, Some (inject_Z (order_item_id r))) df);
   ("payment_value", map (λ r, Some (reais (payment_value r))) df);
   ("price", map (λ r, reais <$> price r) df);
   ("review_score", map (λ r, inject_Z <$> review_score r) df);
   ("order_delivery_time", map (λ r, inject_Z <$> order_delivery_time r) df)].

(** The panel: the matrix, the heatmap's mask, and the price column
    when the checkbox is ticked. *)
Definition plot_correlation_matrix (df : list order_row) (threshold : Q) (price_checkbox : bool)
    : result (matrix * list (string * list (string * bool)) * option (list (string * cell))) :=
  let m := corr (numeric_columns df) in
  let msk := mask_matrix threshold m in
  if price_checkbox then p ← get_column m "price"; mret (m, msk, Some p)
  else mret (m, msk, None).

(** ** The two-pass reference *)

(** The rows where both values are present. *)
Definition complete_pairs (x y : list (option Q)) : list (Q * Q) :=
  omap (λ p : option Q * option Q, match p with (Some a, Some b) => Some (a, b) | _ => None end)
       (zip x y).

(** Pearson's coefficient from its definition: two passes over the
    complete rows. *)
Definition pearson_ref (x y : list (option Q)) : cell :=
  let ps := complete_pairs x y in
  let sxx := codev (diag (map fst ps)) in
  let syy := codev (diag (map snd ps)) in
  if decide (ps = []) then NaN
  else if Qeq_bool (sxx * syy) 0 then NaN
  else Pearson (codev ps) sxx syy.

(** Cells are equal up to [Qeq] of their accumulators. *)
#[export] Instance cell_equiv : Equiv cell := λ c d,
  match c, d with
  | NaN, NaN => True
  | Pearson a b e, Pearson a' b' e' => a == a' ∧ b == b' ∧ e == e'
  | _, _ => False
  end.

(** ** Lemmas *)

#[export] Instance cell_equivalence : Equivalence (≡@{cell}).
Proof.
  split.
  - intros [|a b e]; simpl; [done|]. split_and!; reflexivity.
  - intros [|a b e] [|a' b' e']; simpl; try done. intros (?&?&?). split_and!; by symmetry.
  - intros [|a b e] [|a' b' e'] [|a'' b'' e'']; simpl; try done.
    intros (?&?&?) (?&?&?). split_and!; etransitivity; eauto.
Qed.

#[export] Instance cell_value_proper : Proper ((≡) ==> (=)) cell_value.
Proof.
  intros [|a b e] [|a' b' e']; simpl; try done. intros (Ha & Hb & He).
  by rewrite (Qeq_eqR _ _ Ha), (Qeq_eqR _ _ (Qmult_comp _ _ Hb _ _ He)).
Qed.

Lemma Qeq_bool_0_compat a a' : a == a' → Qeq_bool a 0 = Qeq_bool a' 0.
Proof.
  intros Ha. apply eq_bool_prop_intro. rewrite !Is_true_true, !Qeq_bool_iff.
  split; intros H; [rewrite <- Ha|rewrite Ha]; exact H.
Qed.

(** The row loop is Welford's loop on the complete rows. *)
Lemma nancorr_loop (x y : list (option Q)) :
  foldl (λ w p, nancorr_row w p.1 p.2) welford0 (zip x y) = welford_run (complete_pairs x y).
Proof.
  unfold welford_run, complete_pairs. generalize welford0.
  induction (zip x y) as [|[[a|] [b|]] l IH]; intros w; simpl; auto.
Qed.

(** The loop computes the two-pass coefficient. *)
Lemma nancorr_pair_ref x y : nancorr_pair 1 x y ≡ pearson_ref x y.
Proof.
  unfold nancorr_pair, pearson_ref. rewrite nancorr_loop.
  destruct (decide (complete_pairs x y = [])) as [Hnil|Hne].
  { by rewrite Hnil. }
  destruct (welford_run_spec _ Hne) as (Hn & _ & _ & Hsx & Hsy & Hc).
  rewrite Hn, decide_False by (destruct (complete_pairs x y); simpl; [done|lia]).
  rewrite (Qeq_bool_0_compat _ _ (Qmult_comp _ _ Hsx _ _ Hsy)).
  destruct (Qeq_bool _ 0); [done|]. by split_and!.
Qed.

(** What a computed cell satisfies: a positive divisor, and the
    Cauchy-Schwarz bound. *)
Definition cell_wf (c : cell) : Prop :=
  match c with
  | NaN => True
  | Pearson cov ssx ssy => 0 < ssx * ssy ∧ cov * cov <= ssx * ssy
  end.

#[export] Instance cell_wf_proper : Proper ((≡) ==> iff) cell_wf.
Proof.
  intros [|a b e] [|a' b' e']; simpl; try done. intros (Ha & Hb & He).
  by rewrite Ha, Hb, He.
Qed.

Lemma Qpos_of_nonneg_nz (a : Q) : 0 <= a → Qeq_bool a 0 = false → 0 < a.
Proof.
  intros Ha Hnz. destruct (Qle_lt_or_eq _ _ Ha) as [|Heq]; [done|].
  symmetry in Heq. apply Qeq_bool_iff in Heq. congruence.
Qed.

Lemma pearson_ref_wf x y : cell_wf (pearson_ref x y).
Proof.
  unfold pearson_ref. case_decide; [done|].
  destruct (Qeq_bool _ 0) eqn:Hz; [done|]. split.
  - apply Qpos_of_nonneg_nz; [|done].
    apply Qmult_le_0_compat; apply codev_diag_nonneg.
  - apply codev_sq_le.
Qed.

Lemma nancorr_pair_wf x y : cell_wf (nancorr_pair 1 x y).
Proof. rewrite nancorr_pair_ref. apply pearson_ref_wf. Qed.

(** A well-formed cell read in [R]. *)
Lemma cell_wf_R a b e :
  cell_wf (Pearson a b e) → (0 < Q2R (b * e) ∧ Q2R a * Q2R a <= Q2R (b * e))%R.
Proof.
  intros [Hpos Hcs]. split.
  - apply Qlt_Rlt in Hpos. by rewrite RMicromega.Q2R_0 in Hpos.
  - rewrite <- Q2R_mult. by apply Qle_Rle.
Qed.

Lemma ratio_abs_le (cv d : R) : (0 < d → cv * cv <= d → Rabs (cv / sqrt d) <= 1)%R.
Proof.
  intros Hd Hc. pose proof (sqrt_lt_R0 d Hd) as Hs. pose proof (sqrt_sqrt d (Rlt_le _ _ Hd)).
  unfold Rdiv. rewrite Rabs_mult, Rabs_inv, (Rabs_right (sqrt d)) by lra.
  apply (Rmult_le_reg_r (sqrt d)); [done|]. rewrite Rmult_assoc, Rinv_l by lra.
  rewrite Rmult_1_r, Rmult_1_l. rewrite <- sqrt_Rsqr_abs. apply sqrt_le_1_alt.
  unfold Rsqr. lra.
Qed.

Lemma ratio_abs_lt (cv d t : R) :
  (0 < d → Rabs (cv / sqrt d) < t ↔ 0 < t ∧ cv * cv < t * t * d)%R.
Proof.
  intros Hd. pose proof (sqrt_lt_R0 d Hd) as Hs. pose proof (sqrt_sqrt d (Rlt_le _ _ Hd)) as Hsq.
  unfold Rdiv. rewrite Rabs_mult, Rabs_inv, (Rabs_right (sqrt d)) by lra.
  assert (Rabs cv * / sqrt d < t ↔ Rabs cv < t * sqrt d)%R as ->.
  { split; intros H.
    - apply (Rmult_lt_compat_r (sqrt d)) in H; [|done].
      rewrite Rmult_assoc, Rinv_l, Rmult_1_r in H by lra. exact H.
    - apply (Rmult_lt_reg_r (sqrt d)); [done|].
      rewrite Rmult_assoc, Rinv_l, Rmult_1_r by lra. exact H. }
  pose proof (Rabs_pos cv) as Hcv. assert (Rabs cv * Rabs cv = cv * cv)%R as Hsqr
    by (rewrite <- Rabs_mult; apply Rabs_right; nra).
  split.
  - intros H. assert (0 < t)%R by nra. split; [done|].
    rewrite <- Hsqr, <- Hsq. nra.
  - intros [Ht H]. rewrite <- Hsqr, <- Hsq in H.
    assert (0 < t * sqrt d)%R by (apply Rmult_lt_0_compat; done).
    destruct (Rlt_or_le (Rabs cv) (t * sqrt d)) as [|Hge]; [done|exfalso].
    assert (t * sqrt d * (t * sqrt d) <= Rabs cv * Rabs cv)%R by (apply Rmult_le_compat; lra).
    lra.
Qed.

(** [abs_lt] compares the real value of the cell with the threshold. *)
Lemma abs_lt_spec t c :
  cell_wf c → abs_lt t c = true ↔ ∃ r, cell_value c = Some r ∧ (Rabs r < Q2R t)%R.
Proof.
  destruct c as [|a b e]; simpl.
  { intros _. split; [done|]. by intros (r & ? & _). }
  intros [Hd Hcs]%cell_wf_R. rewrite andb_true_iff, !bool_decide_eq_true.
  split.
  - intros [Ht Hlt]. eexists; split; [done|]. apply ratio_abs_lt; [done|].
    split; [apply Qlt_Rlt in Ht; by rewrite RMicromega.Q2R_0 in Ht|].
    apply Qlt_Rlt in Hlt. rewrite !Q2R_mult in Hlt. rewrite Q2R_mult in Hd |- *. lra.
  - intros (r & [= <-] & Hr). apply ratio_abs_lt in Hr as [Ht Hlt]; [|done].
    split; [apply Rlt_Qlt; by rewrite RMicromega.Q2R_0|].
    apply Rlt_Qlt. rewrite Q2R_mult in Hlt, Hd. rewrite !Q2R_mult. lra.
Qed.

(** The values of a column that are not NaN. *)
Definition present (x : list (option Q)) : list Q := omap (λ v, v) x.

(** A column against itself. *)
Lemma complete_pairs_diag x : complete_pairs x x = diag (present x).
Proof.
  unfold complete_pairs, present, diag.
  induction x as [|[a|] x IH]; simpl; [done|f_equal; exact IH|exact IH].
Qed.

Lemma diag_fst xs : map fst (diag xs) = xs.
Proof. unfold diag. rewrite map_map. apply map_id. Qed.

Lemma diag_snd xs : map snd (diag xs) = xs.
Proof. unfold diag. rewrite map_map. apply map_id. Qed.

Lemma elem_of_present (x : list (option Q)) a : a ∈ present x ↔ Some a ∈ x.
Proof.
  unfold present. rewrite list_elem_of_omap. split.
  - intros (y & Hy & Heq). cbv beta in Heq. by subst.
  - intros H. by exists (Some a).
Qed.

(** The diagonal: [NaN] on a constant column (or one without values),
    otherwise the value 1. *)
Lemma pearson_ref_diag x :
  (pearson_ref x x = NaN ↔ ∀ a b, Some a ∈ x → Some b ∈ x → a == b) ∧
  (pearson_ref x x ≠ NaN → cell_value (pearson_ref x x) = Some 1%R).
Proof.
  unfold pearson_ref. rewrite complete_pairs_diag, diag_fst, diag_snd.
  setoid_rewrite <- elem_of_present.
  destruct (present x) as [|x0 xs] eqn:Hxs.
  { rewrite decide_True by done. split; [|done].
    split; [|done]. intros _ a b Ha. by apply elem_of_nil in Ha. }
  rewrite decide_False by done.
  set (s := codev (diag (x0 :: xs))).
  assert (0 <= s) as Hs by apply codev_diag_nonneg.
  destruct (Qeq_bool (s * s) 0) eqn:Hz; split.
  - split; [intros _|done]. apply codev_diag_zero_iff.
    apply Qeq_bool_iff in Hz. destruct (Qmult_integral _ _ Hz); done.
  - done.
  - split; [done|]. intros Hall%codev_diag_zero_iff. fold s in Hall.
    assert (s * s == 0) as Hss by (rewrite Hall; ring).
    apply Qeq_bool_iff in Hss. congruence.
  - intros _. simpl. f_equal.
    pose proof (Qpos_of_nonneg_nz _ (Qmult_le_0_compat _ _ Hs Hs) Hz) as Hpos.
    assert (0 < Q2R s)%R as HsR.
    { apply Qle_Rle in Hs. rewrite RMicromega.Q2R_0 in Hs. destruct (Rle_lt_or_eq_dec _ _ Hs); [done|].
      exfalso. apply Qlt_Rlt in Hpos. rewrite Q2R_mult, RMicromega.Q2R_0, <- e in Hpos. lra. }
    rewrite Q2R_mult, sqrt_square by lra. field. lra.
Qed.

(** ** The matrix *)

Lemma corr_lookup cols i j ci cj :
  cols !! i = Some ci → cols !! j = Some cj →
  ∃ row, corr cols !! i = Some (ci.1, row) ∧
    row !! j = Some (cj.1, if decide (j ≤ i)%nat then nancorr_pair 1 ci.2 cj.2
                           else nancorr_pair 1 cj.2 ci.2).
Proof.
  intros Hi Hj. unfold corr. rewrite list_lookup_imap, Hi.
  exists (imap (λ j cj, (cj.1, if decide (j ≤ i)%nat then nancorr_pair 1 ci.2 cj.2
                               else nancorr_pair 1 cj.2 ci.2)) cols).
  split; [reflexivity|]. rewrite list_lookup_imap, Hj. reflexivity.
Qed.

(** Every cell of the matrix is [nancorr] on some pair of columns. *)
Lemma elem_of_corr_cell cols row c :
  row ∈ corr cols → c ∈ row.2 → ∃ x y, c.2 = nancorr_pair 1 x y.
Proof.
  unfold corr. intros (i & ci & -> & _)%elem_of_lookup_imap.
  intros (j & cj & -> & _)%elem_of_lookup_imap. simpl.
  case_decide; eauto.
Qed.

Lemma corr_cell_wf cols row c : row ∈ corr cols → c ∈ row.2 → cell_wf c.2.
Proof.
  intros Hrow Hc. destruct (elem_of_corr_cell cols row c Hrow Hc) as (x & y & ->).
  apply nancorr_pair_wf.
Qed.

Lemma equiv_NaN c : c ≡ NaN ↔ c = NaN.
Proof. destruct c; simpl; split; done. Qed.

(** A column against itself, as [nancorr] computes it. *)
Lemma nancorr_pair_diag x :
  (nancorr_pair 1 x x = NaN ↔ ∀ a b, Some a ∈ x → Some b ∈ x → a == b) ∧
  (nancorr_pair 1 x x ≠ NaN → cell_value (nancorr_pair 1 x x) = Some 1%R).
Proof.
  split.
  - rewrite <- equiv_NaN, nancorr_pair_ref, equiv_NaN. apply pearson_ref_diag.
  - intros Hne. rewrite (cell_value_proper _ _ (nancorr_pair_ref x x)).
    apply pearson_ref_diag. intros Heq. apply Hne, equiv_NaN.
    rewrite nancorr_pair_ref, Heq. reflexivity.
Qed.

(** No threshold of the slider hides a diagonal cell. *)
Lemma diag_not_masked t x : t <= 1 → abs_lt t (nancorr_pair 1 x x) = false.
Proof.
  intros Ht. apply not_true_iff_false. rewrite abs_lt_spec by apply nancorr_pair_wf.
  intros (r & Hr & Hlt). pose proof (proj2 (nancorr_pair_diag x)) as Hd.
  destruct (nancorr_pair 1 x x) as [|a b e]; [done|].
  rewrite Hd in Hr by done. injection Hr as <-.
  rewrite Rabs_R1 in Hlt. apply Qle_Rle in Ht. rewrite RMicromega.Q2R_1 in Ht. lra.
Qed.

Lemma mask_matrix_entry t m row e :
  row ∈ mask_matrix t m → e ∈ row.2 →
  ∃ row' c, row' ∈ m ∧ c ∈ row'.2 ∧ e = (c.1, abs_lt t c.2).
Proof.
  unfold mask_matrix. intros ([l cs] & -> & Hrow)%list_elem_of_fmap.
  simpl. intros ([k c] & -> & Hc)%list_elem_of_fmap. eexists _, _. split_and!; [done|done|done].
Qed.

(** C31: every cell of [numeric_columns.corr()] is Pearson's coefficient
    of its two columns computed by its definition, with two passes over
    the rows where both values are present: the one-pass Welford loop of
    [nancorr] computes the same means, squared deviations and cross
    deviations. *)
Theorem corr_two_pass cols i j ci cj :
  cols !! i = Some ci → cols !! j = Some cj →
  ∃ row c, corr cols !! i = Some (ci.1, row) ∧ row !! j = Some (cj.1, c) ∧
    c ≡ (if decide (j ≤ i)%nat then pearson_ref ci.2 cj.2 else pearson_ref cj.2 ci.2).
Proof.
  intros Hi Hj. destruct (corr_lookup cols i j ci cj Hi Hj) as (row & Hrow & Hc).
  eexists _, _. split_and!; [exact Hrow|exact Hc|].
  case_decide; apply nancorr_pair_ref.
Qed.

(** C32: every correlation the heatmap draws lies between -1 and 1. *)
Theorem corr_bounds cols row c r :
  row ∈ corr cols → c ∈ row.2 → cell_value c.2 = Some r → (Rabs r <= 1)%R.
Proof.
  intros Hrow Hc. pose proof (corr_cell_wf cols row c Hrow Hc) as Hwf.
  destruct c as [l [|a b e]]; [done|]. simpl. intros [= <-].
  apply cell_wf_R in Hwf as [Hd Hcs]. by apply ratio_abs_le.
Qed.

(** C33: the mask [correlation_matrix.abs() < threshold], computed
    exactly on the accumulators, hides a cell exactly when its real
    correlation has absolute value below the threshold; a NaN cell is
    never hidden. *)
Theorem mask_refines_abs_lt cols t row c :
  row ∈ corr cols → c ∈ row.2 →
  abs_lt t c.2 = true ↔ ∃ r, cell_value c.2 = Some r ∧ (Rabs r < Q2R t)%R.
Proof. intros Hrow Hc. apply abs_lt_spec, (corr_cell_wf cols row c Hrow Hc). Qed.

(** C34: the diagonal of the matrix is [NaN] exactly for a column whose
    present values are all equal (or absent), and 1 otherwise. *)
Theorem corr_diagonal cols i ci :
  cols !! i = Some ci →
  ∃ row c, corr cols !! i = Some (ci.1, row) ∧ row !! i = Some (ci.1, c) ∧
    (c = NaN ↔ ∀ a b, Some a ∈ ci.2 → Some b ∈ ci.2 → a == b) ∧
    (c ≠ NaN → cell_value c = Some 1%R).
Proof.
  intros Hi. destruct (corr_lookup cols i i ci ci Hi Hi) as (row & Hrow & Hc).
  rewrite decide_True in Hc by lia.
  eexists _, _. split_and!; [exact Hrow|exact Hc|apply nancorr_pair_diag..].
Qed.

(** C35: the heatmap never hides a diagonal cell, whatever threshold
    the slider (from -1 to 1) selects, and at the slider's initial value
    0 and below it hides nothing. *)
Theorem mask_safety cols t :
  (t <= 0 → ∀ row e, row ∈ mask_matrix t (corr cols) → e ∈ row.2 → e.2 = false) ∧
  (t <= 1 → ∀ i row e, mask_matrix t (corr cols) !! i = Some row → row.2 !! i = Some e →
            e.2 = false).
Proof.
  split.
  - intros Ht row e Hrow He. destruct (mask_matrix_entry _ _ _ _ Hrow He) as (row' & c & _ & _ & ->).
    simpl. destruct (c.2); [done|]. simpl. rewrite bool_decide_eq_false_2; [done|]. lra.
  - intros Ht i row e. unfold mask_matrix. rewrite list_lookup_fmap.
    destruct (corr cols !! i) as [r0|] eqn:Hr0; [|done]. intros [= <-].
    unfold corr in Hr0. rewrite list_lookup_imap in Hr0.
    destruct (cols !! i) as [ci|] eqn:Hi; [|done].
    destruct (corr_lookup cols i i ci ci Hi Hi) as (rowc & Hrowc & Hc).
    unfold corr in Hrowc. rewrite list_lookup_imap, Hi in Hrowc. rewrite Hrowc in Hr0.
    injection Hr0 as <-. simpl. rewrite list_lookup_fmap, Hc. intros [= <-]. simpl.
    rewrite decide_True by lia. by apply diag_not_masked.
Qed.

Lemma plot_correlation_matrix_is_ok df t b : is_ok (plot_correlation_matrix df t b) = true.
Proof. unfold plot_correlation_matrix, get_column. rewrite decide_True by (simpl; set_solver). by destruct b. Qed.

(** A three-row table with prices, scores and delivery times. *)
Definition priced (oid : string) (item pay pr score days : Z) : order_row :=
  {| order_id := oid; order_item_id := item; product_category_name_english := Some "toys";
     payment_value := pay; price := Some pr; review_score := Some score;
     order_approved_at := None; order_delivery_time := Some days;
     customer_state := "SP"; customer_city := "sao paulo"; payment_type := "boleto" |}.

Definition corr_sample : list order_row :=
  [priced "a" 1 1000 900 5 3; priced "b" 2 2500 2000 4 10; priced "c" 1 4000 3900 1 25].

Definition sample_cols : list column := numeric_columns corr_sample.

(** The cell of [price] against [payment_value] is a number. *)
Lemma sample_cell :
  ∃ row a b e, ("price", row) ∈ corr sample_cols ∧ ("payment_value", Pearson a b e) ∈ row.
Proof.
  destruct (corr_lookup sample_cols 2 1 _ _ eq_refl eq_refl) as (row & Hrow & Hc).
  rewrite decide_True in Hc by lia. revert Hc.
  destruct (nancorr_pair 1 _ _) as [|a b e] eqn:Hce; [vm_compute in Hce; discriminate|].
  intros Hc. exists row, a, b, e. split.
  - apply list_elem_of_lookup_2 with 2%nat. exact Hrow.
  - apply list_elem_of_lookup_2 with 1%nat. exact Hc.
Defined.

Lemma corr_two_pass_witness :
  sample_cols !! 2%nat = Some ("price", map (λ r, reais <$> price r) corr_sample) ∧
  sample_cols !! 1%nat = Some ("payment_value", map (λ r, Some (reais (payment_value r))) corr_sample) ∧
  ∃ row c, corr sample_cols !! 2%nat = Some ("price", row) ∧ row !! 1%nat = Some ("payment_value", c) ∧
    c ≡ pearson_ref (map (λ r, reais <$> price r) corr_sample)
                    (map (λ r, Some (reais (payment_value r))) corr_sample).
Proof.
  split; [reflexivity|]. split; [reflexivity|].
  exact (corr_two_pass sample_cols 2 1 _ _ eq_refl eq_refl).
Defined.

Lemma corr_bounds_witness :
  ∃ row c r, row ∈ corr sample_cols ∧ c ∈ row.2 ∧ cell_value c.2 = Some r ∧ (Rabs r <= 1)%R.
Proof.
  destruct sample_cell as (row & a & b & e & Hrow & Hc).
  eexists _, _, _. split_and!; [exact Hrow|exact Hc|reflexivity|].
  exact (corr_bounds sample_cols _ _ _ Hrow Hc eq_refl).
Defined.

Lemma mask_refines_abs_lt_witness :
  ∃ row c, row ∈ corr sample_cols ∧ c ∈ row.2 ∧
    (abs_lt (1 # 2) c.2 = true ↔ ∃ r, cell_value c.2 = Some r ∧ (Rabs r < Q2R (1 # 2))%R).
Proof.
  destruct sample_cell as (row & a & b & e & Hrow & Hc).
  eexists _, _. split_and!; [exact Hrow|exact Hc|].
  exact (mask_refines_abs_lt sample_cols (1 # 2) _ _ Hrow Hc).
Defined.

Lemma corr_diagonal_witness :
  sample_cols !! 0%nat = Some ("order_item_id", map (λ r, Some (inject_Z (order_item_id r))) corr_sample) ∧
  ∃ row c, corr sample_cols !! 0%nat = Some ("order_item_id", row) ∧ row !! 0%nat = Some ("order_item_id", c) ∧
    (c = NaN ↔ ∀ a b, Some a ∈ map (λ r, Some (inject_Z (order_item_id r))) corr_sample →
                      Some b ∈ map (λ r, Some (inject_Z (order_item_id r))) corr_sample → a == b) ∧
    (c ≠ NaN → cell_value c = Some 1%R).
Proof.
  split; [reflexivity|]. exact (corr_diagonal sample_cols 0 _ eq_refl).
Defined.

Lemma mask_safety_witness :
  0 <= 0 ∧ (1 # 2) <= 1 ∧
  (∀ row e, row ∈ mask_matrix 0 (corr sample_cols) → e ∈ row.2 → e.2 = false) ∧
  (∀ i row e, mask_matrix (1 # 2) (corr sample_cols) !! i = Some row → row.2 !! i = Some e →
              e.2 = false).
Proof.
  assert (0 <= 0) as H0 by discriminate. assert ((1 # 2) <= 1) as H1 by discriminate.
  split_and!; [exact H0|exact H1|exact (proj1 (mask_safety sample_cols 0) H0)|].
  exact (proj2 (mask_safety sample_cols (1 # 2)) H1).
Defined.

End Correlation.
