(* ===== verification/Histogram.v ===== *)
(** The delivery-time panel: [plot_delivery_times_distribution] (lines
    243-254 of [src/dashboard/dashboard.py]), a
    [sns.histplot(x='order_delivery_time', bins=20)] on the rows whose
    delivery time is not NaN.  Seaborn computes the edges with
    [np.histogram_bin_edges(x, 20)] (21 evenly spaced edges from the
    minimum to the maximum, widened by 0.5 on both sides when they are
    equal) and the heights with [np.histogram(x, edges)], whose counts
    are the differences of [searchsorted] positions: every bin is
    half-open but the last, which is closed.

    [uniform_counts] is numpy's other path, taken when [bins] is an
    integer: each value's bin is [floor((x - first) * n / (last -
    first))], the value [last] moved to the last bin.  The two agree
    ([histogram_uniform_equiv]).  The kernel density curve ([kde=True])
    is not modelled. *)

From S2P Require Import Prelude Table Stats.
From Stdlib Require Import QArith Qfield Qround Lqa.

Module Histogram.
Local Open Scope Q_scope.

(** The [bins=20] argument. *)
Definition bins : nat := 20.

(** [_get_outer_edges(a, None)]: the minimum and maximum of the values
    (NaN skipped by seaborn), [(0, 1)] when there is none, and
    [first - 0.5, last + 0.5] when they are equal. *)
Definition outer_edges (days : list (option Z)) : Q * Q :=
  match min_opt days, max_opt days with
  | Some lo, Some hi =>
      if decide (lo = hi) then (inject_Z lo - (1 # 2), inject_Z hi + (1 # 2))
      else (inject_Z lo, inject_Z hi)
  | _, _ => (0, 1)
  end.

(** [np.linspace(start, stop, num)]: [arange(0, num) * step + start]
    with [step = (stop - start) / (num - 1)], the last point set to
    [stop]. *)
Definition linspace (start stop : Q) (num : nat) : list Q :=
  let step := (stop - start) / Qnat (num - 1) in
  map (λ i, Qnat i * step + start) (seq 0 (num - 1)) ++ [stop].

(** [a.searchsorted(v, side)] on the sorted values: the number of
    values below [v] ([left]) or at most [v] ([right]). *)
Definition searchsorted_left (a : list Q) (v : Q) : nat := length (filter (λ x, x < v) a).
Definition searchsorted_right (a : list Q) (v : Q) : nat := length (filter (λ x, x <= v) a).

(** [_search_sorted_inclusive(a, v)]: [left] on every edge but the
    last, [right] on the last. *)
Definition search_sorted_inclusive (a : list Q) (edges : list Q) : list nat :=
  map (searchsorted_left a) (removelast edges) ++
  match last edges with Some e => [searchsorted_right a e] | None => [] end.

(** [np.diff]. *)
Definition diff (l : list nat) : list Z :=
  zip_with (λ a b, Z.of_nat b - Z.of_nat a)%Z l (tail l).

(** [np.histogram(a, bins=edges)] when [edges] is an array: the
    differences of the cumulative counts. *)
Definition np_histogram (a : list Q) (edges : list Q) : list Z :=
  diff (search_sorted_inclusive a edges).

(** The delivery times that are not NaN. *)
Definition delivery_days (df : list order_row) : list Q :=
  map inject_Z (omap order_delivery_time df).

(** The panel: the 21 edges and the 20 bar heights. *)
Definition plot_delivery_times_distribution (df : list order_row) : list Q * list Z :=
  let '(first, last) := outer_edges (map order_delivery_time df) in
  let edges := linspace first last (S bins) in
  (edges, np_histogram (delivery_days df) edges).

(** numpy's path for an integer [bins]: values outside [first, last]
    are dropped, the bin of [x] is [floor((x - first) * norm)] with
    [norm = n / (last - first)], and an index equal to [n] (the value
    [last]) is moved down by one. *)
Definition uniform_bin (first last : Q) (n : nat) (x : Q) : Z :=
  let k := Qfloor ((x - first) * (Qnat n / (last - first))) in
  if decide (k = Z.of_nat n) then (k - 1)%Z else k.

Definition uniform_counts (first last : Q) (n : nat) (a : list Q) : list Z :=
  map (λ i, Z.of_nat (length (filter (λ x, first <= x ∧ x <= last ∧
                                          uniform_bin first last n x = Z.of_nat i) a)))
      (seq 0 n).

(** ** The cumulative counts *)

Lemma linspace_S start stop n :
  linspace start stop (S n) =
  map (λ i, Qnat i * ((stop - start) / Qnat n) + start) (seq 0 n) ++ [stop].
Proof. unfold linspace. by rewrite Nat.sub_1_r. Qed.

Lemma search_sorted_inclusive_snoc a l e :
  search_sorted_inclusive a (l ++ [e]) = map (searchsorted_left a) l ++ [searchsorted_right a e].
Proof. unfold search_sorted_inclusive. by rewrite removelast_last, last_snoc. Qed.

Lemma diff_cons2 x y l : diff (x :: y :: l) = (Z.of_nat y - Z.of_nat x)%Z :: diff (y :: l).
Proof. done. Qed.

(** The differences of [g 0 .. g m]. *)
Lemma diff_map_seq (g : nat → nat) k m :
  diff (map g (seq k (S m))) = map (λ i, Z.of_nat (g (S i)) - Z.of_nat (g i))%Z (seq k m).
Proof.
  revert k. induction m as [|m IH]; intros k; [done|].
  change (seq k (S (S m))) with (k :: seq (S k) (S m)).
  rewrite map_cons. cbn [seq map]. rewrite diff_cons2.
  change (g (S k) :: map g (seq (S (S k)) m)) with (map g (seq (S k) (S m))).
  by rewrite IH.
Qed.

Lemma length_filter_split {A} (P R : A → Prop) `{∀ x, Decision (P x), ∀ x, Decision (R x)} l :
  length (filter P l) = (length (filter (λ x, P x ∧ R x) l) + length (filter (λ x, P x ∧ ¬ R x) l))%nat.
Proof.
  induction l as [|x l IH]; [done|]. rewrite !filter_cons.
  repeat case_decide; simpl; try lia; tauto.
Qed.

Lemma not_lt_iff (P : Prop) (x u : Q) : P ∧ ¬ x < u ↔ u <= x ∧ P.
Proof.
  split.
  - intros [HP Hu]. split; [apply Qnot_lt_le, Hu|exact HP].
  - intros [Hu HP]. split; [exact HP|apply Qle_not_lt, Hu].
Qed.

(** The values counted between two positions. *)
Lemma left_diff a (u v : Q) :
  u <= v →
  (Z.of_nat (searchsorted_left a v) - Z.of_nat (searchsorted_left a u))%Z =
  Z.of_nat (length (filter (λ x, u <= x ∧ x < v) a)).
Proof.
  intros Huv. unfold searchsorted_left.
  rewrite (length_filter_split (λ x, x < v) (λ x, x < u)).
  assert (filter (λ x, x < v ∧ x < u) a = filter (λ x, x < u) a) as ->.
  { apply filter_ext_elem. intros x _. split; [tauto|].
    intros Hx. split; [|done]. eapply Qlt_le_trans; [exact Hx|exact Huv]. }
  assert (filter (λ x, x < v ∧ ¬ x < u) a = filter (λ x, u <= x ∧ x < v) a) as ->.
  { apply filter_ext_elem. intros x _. apply not_lt_iff. }
  lia.
Qed.

Lemma right_left_diff a (u v : Q) :
  u <= v →
  (Z.of_nat (searchsorted_right a v) - Z.of_nat (searchsorted_left a u))%Z =
  Z.of_nat (length (filter (λ x, u <= x ∧ x <= v) a)).
Proof.
  intros Huv. unfold searchsorted_left, searchsorted_right.
  rewrite (length_filter_split (λ x, x <= v) (λ x, x < u)).
  assert (filter (λ x, x <= v ∧ x < u) a = filter (λ x, x < u) a) as ->.
  { apply filter_ext_elem. intros x _. split; [tauto|].
    intros Hx. split; [|done]. apply Qlt_le_weak. eapply Qlt_le_trans; [exact Hx|exact Huv]. }
  assert (filter (λ x, x <= v ∧ ¬ x < u) a = filter (λ x, u <= x ∧ x <= v) a) as ->.
  { apply filter_ext_elem. intros x _. apply not_lt_iff. }
  lia.
Qed.

(** ** Bins *)

(** [Qfloor] brackets its argument. *)
Lemma Qfloor_iff (q : Q) (k : Z) : Qfloor q = k ↔ inject_Z k <= q ∧ q < inject_Z (k + 1).
Proof.
  split.
  - intros <-. split; [apply Qfloor_le|apply Qlt_floor].
  - intros [Hl Hu]. apply Qfloor_resp_le in Hl. rewrite Qfloor_Z in Hl.
    assert (Qfloor q < k + 1)%Z; [|lia].
    rewrite Zlt_Qlt. eapply Qle_lt_trans; [apply Qfloor_le|exact Hu].
Qed.

Lemma Qnat_le (i j : nat) : (i ≤ j)%nat ↔ Qnat i <= Qnat j.
Proof. unfold Qnat. rewrite <- Zle_Qle. lia. Qed.

Lemma Qnat_inj (i : nat) : Qnat i = inject_Z (Z.of_nat i).
Proof. done. Qed.

(** The bin of [u] (a position in units of bin width) by the rule of
    numpy's uniform path. *)
Definition ubin (u : Q) (n : nat) : Z :=
  let k := Qfloor u in if decide (k = Z.of_nat n) then (k - 1)%Z else k.

(** A bin other than the last is half-open. *)
Lemma ubin_mid (u : Q) (n i : nat) :
  (S i < n)%nat →
  (Qnat i <= u ∧ u < Qnat (S i)) ↔ (0 <= u ∧ u <= Qnat n ∧ ubin u n = Z.of_nat i).
Proof.
  intros Hi. unfold ubin, Qnat. rewrite Nat2Z.inj_succ, <- Z.add_1_r, <- Qfloor_iff. split.
  - intros Hf. rewrite Hf, decide_False by lia. split_and!; [|apply Qlt_le_weak|done].
    + eapply Qle_trans; [|apply (Qfloor_le u)]. rewrite Hf. apply Qnat_nonneg.
    + eapply Qlt_le_trans; [apply Qlt_floor|]. rewrite Hf, <- Zle_Qle. lia.
  - intros (_ & _ & Hb). case_decide; lia.
Qed.

(** The last bin is closed. *)
Lemma ubin_last (u : Q) (n : nat) :
  (1 ≤ n)%nat →
  (Qnat (n - 1) <= u ∧ u <= Qnat n) ↔ (0 <= u ∧ u <= Qnat n ∧ ubin u n = Z.of_nat (n - 1)).
Proof.
  intros Hn. unfold ubin. split.
  - intros [Hl Hu]. split_and!; [|done|].
    + eapply Qle_trans; [|exact Hl]. apply Qnat_nonneg.
    + apply Qfloor_resp_le in Hl, Hu. unfold Qnat in Hl, Hu. rewrite Qfloor_Z in Hl, Hu.
      case_decide; lia.
  - intros (H0 & Hu & Hb). split; [|done].
    eapply Qle_trans; [|apply (Qfloor_le u)]. unfold Qnat. rewrite <- Zle_Qle.
    case_decide; lia.
Qed.

(** Edges and positions: [p * w + first <= x] exactly when [p] is at
    most the position of [x], [w = L / N] the bin width. *)
Lemma edge_le_iff (L N p x f : Q) :
  0 < L → 0 < N → p * (L / N) + f <= x ↔ p <= (x - f) * (N / L).
Proof.
  intros HL HN.
  assert (0 < L / N) as Hc.
  { apply Qlt_shift_div_l; [done|]. by rewrite Qmult_0_l. }
  rewrite <- (Qmult_le_r p ((x - f) * (N / L)) (L / N) Hc).
  assert ((x - f) * (N / L) * (L / N) == x - f) as Hxf.
  { field. split; apply Qnot_eq_sym, Qlt_not_eq; done. }
  rewrite Hxf. set (y := p * (L / N)). split; intros; lra.
Qed.

Lemma edge_lt_iff (L N p x f : Q) :
  0 < L → 0 < N → x < p * (L / N) + f ↔ (x - f) * (N / L) < p.
Proof.
  intros HL HN. split; intros H.
  - apply Qnot_le_lt. intros Hle. apply (edge_le_iff L N p x f HL HN) in Hle.
    apply (Qlt_not_le _ _ H Hle).
  - apply Qnot_le_lt. intros Hle. apply (edge_le_iff L N p x f HL HN) in Hle.
    apply (Qlt_not_le _ _ H Hle).
Qed.

Lemma edge_ge_iff (L N p x f : Q) :
  0 < L → 0 < N → x <= p * (L / N) + f ↔ (x - f) * (N / L) <= p.
Proof.
  intros HL HN.
  assert (0 < L / N) as Hc.
  { apply Qlt_shift_div_l; [done|]. by rewrite Qmult_0_l. }
  rewrite <- (Qmult_le_r ((x - f) * (N / L)) p (L / N) Hc).
  assert ((x - f) * (N / L) * (L / N) == x - f) as Hxf.
  { field. split; apply Qnot_eq_sym, Qlt_not_eq; done. }
  rewrite Hxf. set (y := p * (L / N)). split; intros; lra.
Qed.

(** Edge [i] of [linspace first last (n + 1)], for [i < n]. *)
Definition edge (first last : Q) (n i : nat) : Q := Qnat i * ((last - first) / Qnat n) + first.

Section Uniform.
Context (first last : Q) (n : nat).
Hypothesis Hfl : first < last.
Hypothesis Hn : (1 ≤ n)%nat.

(** The position of [x] in units of bin width. *)
Definition pos (x : Q) : Q := (x - first) * (Qnat n / (last - first)).

Lemma width_pos : 0 < last - first.
Proof. lra. Qed.

Lemma n_pos : 0 < Qnat n.
Proof. destruct n as [|n']; [lia|]. apply Qnat_pos. Qed.

Lemma edge_le_pos x i : edge first last n i <= x ↔ Qnat i <= pos x.
Proof. apply edge_le_iff; [apply width_pos|apply n_pos]. Qed.

Lemma edge_lt_pos x i : x < edge first last n i ↔ pos x < Qnat i.
Proof. apply edge_lt_iff; [apply width_pos|apply n_pos]. Qed.

Lemma first_le_pos x : first <= x ↔ 0 <= pos x.
Proof.
  transitivity (edge first last n 0 <= x); [|apply edge_le_pos].
  unfold edge, Qnat. simpl. rewrite Qmult_0_l, Qplus_0_l. reflexivity.
Qed.

Lemma le_last_pos x : x <= last ↔ pos x <= Qnat n.
Proof.
  assert (last == Qnat n * ((last - first) / Qnat n) + first) as Hl.
  { field. apply Qnot_eq_sym, Qlt_not_eq, n_pos. }
  rewrite Hl at 1. apply edge_ge_iff; [apply width_pos|apply n_pos].
Qed.

Lemma edge_mono i j : (i ≤ j)%nat → edge first last n i <= edge first last n j.
Proof.
  intros Hij. unfold edge. apply Qplus_le_compat; [|apply Qle_refl].
  apply Qmult_le_compat_r; [by apply Qnat_le|].
  apply Qlt_le_weak, Qlt_shift_div_l; [apply n_pos|]. rewrite Qmult_0_l. apply width_pos.
Qed.

Lemma edge_le_last i : (i ≤ n)%nat → edge first last n i <= last.
Proof.
  intros Hi. apply le_last_pos. apply (Qle_trans _ (Qnat i)); [|by apply Qnat_le].
  apply (proj1 (edge_ge_iff (last - first) (Qnat n) (Qnat i) (edge first last n i) first
                 width_pos n_pos)).
  apply Qle_refl.
Qed.

Lemma bin_mid x i :
  (S i < n)%nat →
  (edge first last n i <= x ∧ x < edge first last n (S i)) ↔
  (first <= x ∧ x <= last ∧ uniform_bin first last n x = Z.of_nat i).
Proof.
  intros Hi. rewrite edge_le_pos, edge_lt_pos, first_le_pos, le_last_pos.
  by apply ubin_mid.
Qed.

Lemma bin_last x :
  (edge first last n (n - 1) <= x ∧ x <= last) ↔
  (first <= x ∧ x <= last ∧ uniform_bin first last n x = Z.of_nat (n - 1)).
Proof.
  rewrite edge_le_pos, first_le_pos, le_last_pos. by apply ubin_last.
Qed.

End Uniform.

(** The cumulative count at edge [i] of [linspace first last (n+1)]. *)
Definition cum_count (xs : list Q) (first last : Q) (n i : nat) : nat :=
  if decide (i < n)%nat then searchsorted_left xs (edge first last n i)
  else searchsorted_right xs last.

Lemma search_sorted_linspace first last n xs :
  search_sorted_inclusive xs (linspace first last (S n)) =
  map (cum_count xs first last n) (seq 0 (S n)).
Proof.
  rewrite linspace_S, search_sorted_inclusive_snoc, map_map, seq_S, map_app.
  f_equal; [|simpl; unfold cum_count; by rewrite decide_False by lia].
  apply map_ext_in. intros i Hi%list_elem_of_In%elem_of_seq.
  unfold cum_count. by rewrite decide_True by lia.
Qed.

(** The two paths of [np.histogram] agree for [n >= 1] bins over
    [first < last]. *)
Lemma np_histogram_uniform first last n xs :
  first < last → (1 ≤ n)%nat →
  np_histogram xs (linspace first last (S n)) = uniform_counts first last n xs.
Proof.
  intros Hfl Hn. unfold np_histogram, uniform_counts.
  rewrite search_sorted_linspace, diff_map_seq. apply map_ext_in.
  intros i Hi%list_elem_of_In%elem_of_seq. unfold cum_count.
  rewrite (decide_True _ _ (proj2 Hi : i < n)%nat).
  destruct (decide (S i < n)%nat) as [Hs|Hs].
  - rewrite left_diff by (apply edge_mono; [exact Hfl|exact Hn|lia]). do 2 f_equal.
    apply filter_ext_elem. intros x _. by apply bin_mid.
  - rewrite right_left_diff by (apply edge_le_last; [exact Hfl|exact Hn|lia]). do 2 f_equal.
    apply filter_ext_elem. intros x _. replace i with (n - 1)%nat by lia. by apply bin_last.
Qed.

(** ** The panel *)

Lemma sum_telescope (g : nat → nat) k m :
  Σ[λ h, h] (map (λ i, Z.of_nat (g (S i)) - Z.of_nat (g i))%Z (seq k m)) =
  (Z.of_nat (g (k + m)%nat) - Z.of_nat (g k))%Z.
Proof.
  revert k. induction m as [|m IH]; intros k; simpl; [rewrite Nat.add_0_r; lia|].
  rewrite IH. replace (S k + m)%nat with (k + S m)%nat by lia. lia.
Qed.

Lemma length_filter_all {A} (P : A → Prop) `{∀ x, Decision (P x)} l :
  (∀ x, x ∈ l → P x) → length (filter P l) = length l.
Proof.
  induction l as [|x l IH]; intros Hall; [done|]. rewrite filter_cons.
  rewrite decide_True by set_solver. simpl. rewrite IH by set_solver. done.
Qed.

Lemma length_filter_none {A} (P : A → Prop) `{∀ x, Decision (P x)} l :
  (∀ x, x ∈ l → ¬ P x) → length (filter P l) = 0%nat.
Proof.
  induction l as [|x l IH]; intros Hn; [done|]. rewrite filter_cons.
  rewrite decide_False by set_solver. apply IH. set_solver.
Qed.

Lemma length_omap_is_Some {A B} (f : A → option B) l :
  length (omap f l) = length (filter (λ x, is_Some (f x)) l).
Proof.
  induction l as [|x l IH]; [done|]. rewrite filter_cons.
  change (omap f (x :: l)) with (match f x with Some y => y :: omap f l | None => omap f l end).
  destruct (f x) eqn:Hf.
  - rewrite decide_True by by eexists. simpl. by rewrite IH.
  - by rewrite decide_False by (intros [? ?]; congruence).
Qed.

(** The outer edges enclose every value and are in order. *)
Lemma outer_edges_lt days : (outer_edges days).1 < (outer_edges days).2.
Proof.
  unfold outer_edges.
  pose proof (min_opt_spec days) as Hmin. pose proof (max_opt_spec days) as Hmax.
  destruct (min_opt days) as [lo|], (max_opt days) as [hi|]; simpl; try reflexivity.
  destruct Hmin as [Hlo _], Hmax as [_ Hhi]. specialize (Hhi lo Hlo).
  case_decide; simpl.
  - subst. lra.
  - rewrite <- Zlt_Qlt. lia.
Qed.

Lemma outer_edges_range days d :
  Some d ∈ days → (outer_edges days).1 <= inject_Z d ∧ inject_Z d <= (outer_edges days).2.
Proof.
  intros Hd. unfold outer_edges.
  pose proof (min_opt_spec days) as Hmin. pose proof (max_opt_spec days) as Hmax.
  destruct (min_opt days) as [lo|], (max_opt days) as [hi|];
    [|by specialize (Hmax _ Hd)|by specialize (Hmin _ Hd)|by specialize (Hmin _ Hd)].
  destruct Hmin as [_ Hlo], Hmax as [_ Hhi]. specialize (Hlo d Hd). specialize (Hhi d Hd).
  rewrite Zle_Qle in Hlo, Hhi. case_decide; simpl; split; lra.
Qed.

Lemma delivery_days_range df x :
  x ∈ delivery_days df →
  (outer_edges (map order_delivery_time df)).1 <= x ∧ x <= (outer_edges (map order_delivery_time df)).2.
Proof.
  unfold delivery_days. intros (d & -> & Hd)%list_elem_of_fmap.
  apply outer_edges_range. apply list_elem_of_omap in Hd as (r & Hr & Hdr).
  rewrite <- Hdr. by apply list_elem_of_fmap_2.
Qed.

(** C37: the bar heights of the panel (the differences of
    [searchsorted] positions over the 21 edges, the path seaborn takes)
    are the counts of numpy's arithmetic binning of the delivery times,
    [floor((x - first) * 20 / (last - first))] with the maximum put in
    the last bin: every bin but the last is half-open, the last is
    closed, and no value is counted twice. *)
Theorem delivery_histogram_uniform df :
  (plot_delivery_times_distribution df).2 =
  uniform_counts (outer_edges (map order_delivery_time df)).1
                 (outer_edges (map order_delivery_time df)).2 bins (delivery_days df).
Proof.
  unfold plot_delivery_times_distribution.
  pose proof (outer_edges_lt (map order_delivery_time df)) as Hlt.
  destruct (outer_edges (map order_delivery_time df)) as [first last]. cbn [fst snd] in *.
  apply np_histogram_uniform; [exact Hlt|unfold bins; lia].
Qed.

(** C38: the panel has 21 edges and 20 bars, and the bars add up to the
    number of rows whose delivery time is not NaN: no value falls
    outside the edges. *)
Theorem delivery_histogram_conservation df :
  length (plot_delivery_times_distribution df).1 = S bins ∧
  length (plot_delivery_times_distribution df).2 = bins ∧
  Σ[λ h, h] (plot_delivery_times_distribution df).2 =
    Z.of_nat (length (filter (λ r, is_Some (order_delivery_time r)) df)).
Proof.
  pose proof (delivery_days_range df) as Hrange.
  unfold plot_delivery_times_distribution.
  destruct (outer_edges (map order_delivery_time df)) as [first last]. cbn [fst snd] in *.
  unfold np_histogram. rewrite search_sorted_linspace, diff_map_seq. split_and!.
  - rewrite linspace_S, length_app, length_map, length_seq. cbn [length]. lia.
  - by rewrite length_map, length_seq.
  - rewrite sum_telescope. unfold cum_count. simpl. unfold searchsorted_left, searchsorted_right.
    rewrite (length_filter_all (λ x, x <= last)) by (intros x Hx; apply Hrange, Hx).
    rewrite (length_filter_none (λ x, x < edge first last bins 0)).
    + unfold delivery_days. rewrite length_map, length_omap_is_Some. lia.
    + intros x Hx%Hrange. unfold edge, Qnat. simpl. rewrite Qmult_0_l, Qplus_0_l.
      apply Qle_not_lt, Hx.
Qed.

(** One repeated value: the edges are widened by 0.5. *)
Lemma outer_edges_single days d :
  Some d ∈ days → (∀ o, o ∈ days → o = None ∨ o = Some d) →
  outer_edges days = (inject_Z d - (1 # 2), inject_Z d + (1 # 2)).
Proof.
  intros Hd Hall. unfold outer_edges.
  pose proof (min_opt_spec days) as Hmin. pose proof (max_opt_spec days) as Hmax.
  destruct (min_opt days) as [lo|], (max_opt days) as [hi|];
    [|by specialize (Hmax _ Hd)|by specialize (Hmin _ Hd)|by specialize (Hmin _ Hd)].
  destruct Hmin as [Hlo _], Hmax as [Hhi _].
  destruct (Hall _ Hlo) as [|[= ->]]; [done|]. destruct (Hall _ Hhi) as [|[= ->]]; [done|].
  by rewrite decide_True.
Qed.

(** The bin of the repeated value. *)
Lemma uniform_bin_middle d :
  uniform_bin (inject_Z d - (1 # 2)) (inject_Z d + (1 # 2)) bins (inject_Z d) = 10%Z.
Proof.
  unfold uniform_bin. cbv zeta.
  assert ((inject_Z d - (inject_Z d - (1 # 2))) *
          (Qnat bins / (inject_Z d + (1 # 2) - (inject_Z d - (1 # 2)))) == inject_Z 10) as H10.
  { assert (inject_Z d + (1 # 2) - (inject_Z d - (1 # 2)) == 1) as -> by ring.
    assert (inject_Z d - (inject_Z d - (1 # 2)) == 1 # 2) as -> by ring.
    reflexivity. }
  rewrite (Qfloor_comp _ _ H10), Qfloor_Z. done.
Qed.

Lemma map_seq_const_count (N : nat) (P : nat → Prop) `{∀ i, Decision (P i)} (f : nat → nat) :
  (∀ i, f i = if decide (P i) then N else 0%nat) →
  map (λ i, Z.of_nat (f i)) (seq 0 bins) = map (λ i, Z.of_nat (if decide (P i) then N else 0%nat)) (seq 0 bins).
Proof. intros Hf. apply map_ext. intros i. by rewrite Hf. Qed.

(** The heights when every delivery time is [d] (or NaN). *)
Lemma single_value_heights df d :
  (∀ r, r ∈ df → order_delivery_time r = None ∨ order_delivery_time r = Some d) →
  (plot_delivery_times_distribution df).2 =
    replicate 10 0%Z ++
    [Z.of_nat (length (filter (λ r, is_Some (order_delivery_time r)) df))] ++ replicate 9 0%Z.
Proof.
  intros Hall. rewrite <- length_omap_is_Some.
  assert (∀ x, x ∈ delivery_days df → x = inject_Z d) as Hxs.
  { unfold delivery_days. intros x (e & -> & He)%list_elem_of_fmap.
    apply list_elem_of_omap in He as (r & Hr & Her). destruct (Hall r Hr); congruence. }
  destruct (omap order_delivery_time df) as [|e es] eqn:Hom.
  - unfold plot_delivery_times_distribution, np_histogram, delivery_days. rewrite Hom.
    destruct (outer_edges _) as [f l]. rewrite search_sorted_linspace, diff_map_seq.
    reflexivity.
  - assert (e ∈ omap order_delivery_time df) as He by (rewrite Hom; left).
    apply list_elem_of_omap in He as (r & Hr & Her).
    assert (e = d) as -> by (destruct (Hall r Hr); congruence).
    unfold plot_delivery_times_distribution.
    assert (Some d ∈ map order_delivery_time df) as Hd
      by (rewrite <- Her; by apply list_elem_of_fmap_2).
    assert (∀ o, o ∈ map order_delivery_time df → o = None ∨ o = Some d) as Ho
      by (intros o (r' & -> & Hr')%list_elem_of_fmap; by apply Hall).
    rewrite (outer_edges_single _ d Hd Ho).
    rewrite np_histogram_uniform by (unfold bins; lra || lia). unfold uniform_counts.
    rewrite (map_seq_const_count (length (d :: es)) (λ i, i = 10%nat)).
    + reflexivity.
    + intros i. case_decide as Hi.
      * subst i. rewrite <- (length_map inject_Z (d :: es)).
        unfold delivery_days. rewrite Hom. apply length_filter_all.
        intros x Hx. rewrite (Hxs x) by (unfold delivery_days; rewrite Hom; exact Hx).
        rewrite uniform_bin_middle. split_and!; [lra|lra|done].
      * apply length_filter_none. intros x Hx.
        rewrite (Hxs x) by exact Hx. rewrite uniform_bin_middle. intros (_ & _ & Hb). lia.
Qed.

(** C39: when every delivery time is the same value [d], numpy widens
    the range to [d - 0.5, d + 0.5]: the 21 edges are [linspace] from
    [d - 1/2] to [d + 1/2]; the single bar is the eleventh (the middle
    one), holding every row with a delivery time; with no delivery time
    at all every bar is 0. *)
Theorem delivery_histogram_single_value df d :
  (∀ r, r ∈ df → order_delivery_time r = None ∨ order_delivery_time r = Some d) →
  ((∃ r, r ∈ df ∧ order_delivery_time r = Some d) →
     (plot_delivery_times_distribution df).1 =
       linspace (inject_Z d - (1 # 2)) (inject_Z d + (1 # 2)) 21) ∧
  (plot_delivery_times_distribution df).2 =
    replicate 10 0%Z ++
    [Z.of_nat (length (filter (λ r, is_Some (order_delivery_time r)) df))] ++ replicate 9 0%Z.
Proof.
  intros Hall. split; [|exact (single_value_heights df d Hall)].
  intros (r & Hr & Hrd). unfold plot_delivery_times_distribution.
  rewrite (outer_edges_single _ d); [reflexivity| |].
  - rewrite <- Hrd. by apply list_elem_of_fmap_2.
  - intros o (r' & -> & Hr')%list_elem_of_fmap. by apply Hall.
Qed.

(** A row with only a delivery time. *)
Definition delivered (oid : string) (days : option Z) : order_row :=
  {| order_id := oid; order_item_id := 1; product_category_name_english := None;
     payment_value := 0; price := None; review_score := None; order_approved_at := None;
     order_delivery_time := days; customer_state := "SP"; customer_city := "sao paulo";
     payment_type := "boleto" |}.

Definition same_day : list order_row :=
  [delivered "a" (Some 7%Z); delivered "b" None; delivered "c" (Some 7%Z)].

Lemma delivery_histogram_single_value_witness :
  (∀ r, r ∈ same_day → order_delivery_time r = None ∨ order_delivery_time r = Some 7%Z) ∧
  (plot_delivery_times_distribution same_day).1 = linspace (13 # 2) (15 # 2) 21 ∧
  (plot_delivery_times_distribution same_day).2 = replicate 10 0%Z ++ [2%Z] ++ replicate 9 0%Z.
Proof.
  assert (∀ r, r ∈ same_day → order_delivery_time r = None ∨ order_delivery_time r = Some 7%Z)
    as Hall by by_compute.
  assert (∃ r, r ∈ same_day ∧ order_delivery_time r = Some 7%Z) as Hex
    by (eexists; split; [left|reflexivity]).
  destruct (delivery_histogram_single_value same_day 7 Hall) as [He Hh].
  split; [exact Hall|]. split.
  - rewrite (He Hex). reflexivity.
  - rewrite Hh. reflexivity.
Defined.

End Histogram.
