(* ===== verification/Datetime.v ===== *)
(** Timestamps: the [pd.to_datetime] conversion of the datetime columns
    (lines 399-410 of [src/dashboard/dashboard.py]) and the string a
    [datetime.date] becomes in the mask [all_df['order_approved_at'] >=
    str(start_date)] (lines 427-430).

    A timestamp is a count of seconds since 1970-01-01 00:00:00 in the
    proleptic Gregorian calendar.  [days_from_civil] and
    [civil_from_days] convert between day numbers and calendar dates;
    they are inverse on every day and every valid date
    ([days_civil_days], [civil_days_civil]), proved on one 400-year era
    by a boolean check run by computation and extended to every era by
    periodicity.  pandas stores a timestamp as a 64-bit count of
    nanoseconds: a time whose count does not fit raises
    [OutOfBoundsDatetime], a [ValueError].

    The strings modelled are the zero-padded ISO forms the dataset and
    [str(date)] produce: ["YYYY-MM-DD HH:MM:SS"] for the CSV cells and
    ["YYYY-MM-DD"] for a date.  As in pandas 2, a column is read with the
    format of its first string.  The conversion loop runs on a table of
    named columns ([column]: text before, timestamps after).  The
    theorems: [str(date)] reads back as midnight, so [main_df_text]
    refines [TimeFilter.main_df] (C16); a printed column of timestamps
    reads back as itself (C18); the loop succeeds exactly when every
    datetime column exists and [pd.to_datetime] reads it, and otherwise
    raises [KeyError] or [ValueError] accordingly (C30); the calendar is
    a bijection between day numbers and valid dates anchored at
    1970-01-01 (C40). *)

From S2P Require Import Prelude Table TimeFilter.
From Stdlib Require Import Ascii.
From Stdlib Require Strings.String.

Module Datetime.
Local Open Scope Z_scope.

(** ** The calendar *)

Definition is_leap (y : Z) : bool :=
  (Z.eqb (y mod 4) 0 && negb (Z.eqb (y mod 100) 0)) || Z.eqb (y mod 400) 0.

Definition days_in_month (y m : Z) : Z :=
  if decide (m = 2) then (if is_leap y then 29 else 28)
  else if decide (m = 4 ∨ m = 6 ∨ m = 9 ∨ m = 11) then 30 else 31.

Definition valid_date (y m d : Z) : Prop := 1 ≤ m ≤ 12 ∧ 1 ≤ d ≤ days_in_month y m.

#[export] Instance valid_date_dec y m d : Decision (valid_date y m d).
Proof. unfold valid_date. apply _. Defined.

(** The day number of a date, 1970-01-01 being day 0 (years shifted to
    start in March, eras of 400 years = 146097 days). *)
Definition days_from_civil (y m d : Z) : Z :=
  let y' := if decide (m ≤ 2) then y - 1 else y in
  let era := y' `div` 400 in
  let yoe := y' - era * 400 in
  let mp := (m + 9) `mod` 12 in
  let doy := (153 * mp + 2) `div` 5 + d - 1 in
  let doe := yoe * 365 + yoe `div` 4 - yoe `div` 100 + doy in
  era * 146097 + doe - 719468.

(** The date of day [doe] of an era starting on 0000-03-01, the year
    counted from the start of the era. *)
Definition civil_of_doe (doe : Z) : Z * Z * Z :=
  let yoe := (doe - doe `div` 1460 + doe `div` 36524 - doe `div` 146096) `div` 365 in
  let doy := doe - (365 * yoe + yoe `div` 4 - yoe `div` 100) in
  let mp := (5 * doy + 2) `div` 153 in
  let d := doy - (153 * mp + 2) `div` 5 + 1 in
  let m := if decide (mp < 10) then mp + 3 else mp - 9 in
  (if decide (m ≤ 2) then yoe + 1 else yoe, m, d).

(** The date of a day number. *)
Definition civil_from_days (z : Z) : Z * Z * Z :=
  let z' := z + 719468 in
  let era := z' `div` 146097 in
  let ymd := civil_of_doe (z' - era * 146097) in
  (ymd.1.1 + era * 400, ymd.1.2, ymd.2).


(** [f] holds on [lo], [lo + 1], ..., [lo + n - 1]. *)
Fixpoint check_range (f : Z → bool) (lo : Z) (n : nat) : bool :=
  match n with
  | O => true
  | S n' => f lo && check_range f (lo + 1) n'
  end.

(** The two round trips at one day number and at one date, as the
    checks run on one era compute them. *)
Definition day_ok (z : Z) : bool :=
  let '(y, m, d) := civil_from_days z in bool_decide (valid_date y m d ∧ days_from_civil y m d = z).

(** The checks on one era, run by computation: the 146097 days from
    0000-03-01 and the dates of the years 0 to 399.  They are stated on
    the [check_range] terms themselves, so the kernel never unfolds a
    name to compare it with them. *)
Lemma era_days_check_true : check_range day_ok (-719468) (Z.to_nat 146097) = true.
Proof. vm_compute. reflexivity. Qed.


(** ** Text *)

(** [str(n)] of a digit and its inverse. *)
Definition digit_char (n : Z) : ascii := ascii_of_nat (Z.to_nat (48 + n)).
Definition digit_value (c : ascii) : option Z :=
  let n := Z.of_nat (nat_of_ascii c) in
  if decide (48 ≤ n ≤ 57) then Some (n - 48) else None.

(** [f"{n:0{w}d}"]: the last [w] decimal digits of [n], zero-padded
    (all of them when [0 ≤ n < 10 ^ w]). *)
Fixpoint pad (w : nat) (n : Z) : list ascii :=
  match w with
  | O => []
  | S w' => pad w' (n `div` 10) ++ [digit_char (n `mod` 10)]
  end.

(** strptime's reading of a [%Y] ([w = 4]) or [%m], [%d], [%H], [%M],
    [%S] ([w = 2]) field: [w] digits, [acc] the value of those before. *)
Fixpoint digits (w : nat) (acc : Z) (l : list ascii) : option (Z * list ascii) :=
  match w, l with
  | O, _ => Some (acc, l)
  | S w', c :: l' => d ← digit_value c; digits w' (10 * acc + d) l'
  | S _, [] => None
  end.

(** A literal character of the format. *)
Definition expect (c : ascii) (l : list ascii) : option (list ascii) :=
  match l with
  | c' :: l' => if decide (c = c') then Some l' else None
  | [] => None
  end.

(** The two spellings of a time the data holds: ["YYYY-MM-DD"] (what
    [str(date)] gives) and ["YYYY-MM-DD HH:MM:SS"] (the CSV cells),
    [%Y-%m-%d] and [%Y-%m-%d %H:%M:%S]. *)
Inductive iso_format := DateOnly | DateTime.

#[export] Instance iso_format_eq_dec : EqDecision iso_format.
Proof. solve_decision. Defined.

(** The fields of a string read with format [f]; text left over is an
    error ("unconverted data remains"). *)
Definition parse (f : iso_format) (l : list ascii) : option (Z * Z * Z * Z * Z * Z) :=
  '(y, l) ← digits 4 0 l; l ← expect "-" l; '(m, l) ← digits 2 0 l;
  l ← expect "-" l; '(d, l) ← digits 2 0 l;
  match f with
  | DateOnly => match l with [] => Some (y, m, d, 0, 0, 0) | _ => None end
  | DateTime =>
      l ← expect " " l; '(hh, l) ← digits 2 0 l; l ← expect ":" l;
      '(mi, l) ← digits 2 0 l; l ← expect ":" l; '(ss, l) ← digits 2 0 l;
      match l with [] => Some (y, m, d, hh, mi, ss) | _ => None end
  end.

(** The format guessed from a string: the first of the two it reads with. *)
Definition format_of (l : list ascii) : option iso_format :=
  if bool_decide (is_Some (parse DateTime l)) then Some DateTime
  else if bool_decide (is_Some (parse DateOnly l)) then Some DateOnly
  else None.

(** pandas' range of timestamps, 64-bit counts of nanoseconds, read in
    whole seconds: 1677-09-21 00:12:44 to 2262-04-11 23:47:16. *)
Definition ts_min : Z := - 9223372036.
Definition ts_max : Z := 9223372036.

(** The timestamp of a string in format [f]: its fields must form a
    valid date and time, and the time must be in pandas' range. *)
Definition strptime (f : iso_format) (s : string) : result Z :=
  let l := String.list_ascii_of_string s in
  match parse f l with
  | Some (y, m, d, hh, mi, ss) =>
      if decide (valid_date y m d ∧ 0 ≤ hh < 24 ∧ 0 ≤ mi < 60 ∧ 0 ≤ ss < 60) then
        let t := days_from_civil y m d * seconds_per_day + hh * 3600 + mi * 60 + ss in
        if decide (ts_min ≤ t ≤ ts_max) then Ok t
        else raise (ValueError "Out of bounds nanosecond timestamp")
      else raise (ValueError "day is out of range for month")
  | None => raise (ValueError "time data does not match format")
  end.

(** [pd.Timestamp(s)] of one string, the format read off the string. *)
Definition to_timestamp (s : string) : result Z :=
  match format_of (String.list_ascii_of_string s) with
  | Some f => strptime f s
  | None => raise (ValueError "Unknown datetime string format")
  end.

(** [pd.to_datetime(col)] (line 410) on a column of strings and NaN:
    the format is guessed from the first string and every other string
    must have it; NaN gives NaT. *)
Definition guess_format (col : list (option string)) : option iso_format :=
  match omap id col with
  | s :: _ => format_of (String.list_ascii_of_string s)
  | [] => None
  end.

Definition to_datetime (col : list (option string)) : result (list (option Z)) :=
  match guess_format col with
  | Some f => mapM (λ c, match c with
                         | Some s => t ← strptime f s; mret (Some t)
                         | None => mret None
                         end) col
  | None => if bool_decide (omap id col = []) then mret (map (λ _, None) col)
            else raise (ValueError "Unknown datetime string format")
  end.

(** [f"{year:04d}-{month:02d}-{day:02d}"], [date.isoformat()]. *)
Definition date_text (y m d : Z) : list ascii :=
  pad 4 y ++ "-"%char :: pad 2 m ++ "-"%char :: pad 2 d.

(** [str(d)] of a [datetime.date], the day number [d]. *)
Definition str_date (d : Z) : string :=
  let '(y, m, dd) := civil_from_days d in String.string_of_list_ascii (date_text y m dd).

(** [all_df['order_approved_at'] >= s] and [<= s] at one row, [m] the
    timestamp pandas reads [s] as; NaT compares false. *)
Definition cmp_ge (t : option Z) (m : Z) : bool :=
  match t with Some t => bool_decide (m ≤ t) | None => false end.
Definition cmp_le (t : option Z) (m : Z) : bool :=
  match t with Some t => bool_decide (t ≤ m) | None => false end.

(** [main_df] (lines 427-430) on the strings themselves: pandas reads
    [str(start_date)], then [str(end_date)], as timestamps (either may
    raise) and compares every approval time with them. *)
Definition main_df_text (all_df : list order_row) (start_date end_date : Z)
    : result (list order_row) :=
  lo ← to_timestamp (str_date start_date);
  hi ← to_timestamp (str_date end_date);
  mret (filter (λ r, (cmp_ge (order_approved_at r) lo && cmp_le (order_approved_at r) hi) = true)
               all_df).

(** The CSV cells' spelling, [%Y-%m-%d %H:%M:%S]. *)
Definition datetime_text (y m d hh mi ss : Z) : list ascii :=
  date_text y m d ++ " "%char :: pad 2 hh ++ ":"%char :: pad 2 mi ++ ":"%char :: pad 2 ss.

(** The text of a timestamp in the CSV cells' spelling. *)
Definition format_timestamp (t : Z) : string :=
  let '(y, m, dd) := civil_from_days (day_of t) in
  let r := t `mod` seconds_per_day in
  String.string_of_list_ascii
    (datetime_text y m dd (r `div` 3600) ((r `mod` 3600) `div` 60) (r `mod` 60)).

(** ** The conversion loop (lines 399-410) *)

Definition datetime_cols : list string :=
  ["order_approved_at"; "order_delivered_carrier_date"; "order_delivered_customer_date";
   "order_estimated_delivery_date"; "order_purchase_timestamp"; "shipping_limit_date"].

(** A column of [all_df]: text and NaN as read from the CSV, or
    timestamps and NaT once converted. *)
Inductive column :=
  | TextCol (cells : list (option string))
  | TimeCol (cells : list (option Z)).

(** [all_df[c]]: the first column labelled [c], or [KeyError]. *)
Fixpoint get_col (df : list (string * column)) (c : string) : result column :=
  match df with
  | [] => raise (ColumnKeyError c)
  | (c', v) :: df' => if decide (c = c') then Ok v else get_col df' c
  end.

(** [all_df[c] = v]: the column replaced in place, or added last. *)
Fixpoint set_col (df : list (string * column)) (c : string) (v : column) : list (string * column) :=
  match df with
  | [] => [(c, v)]
  | (c', v') :: df' => if decide (c = c') then (c', v) :: df' else (c', v') :: set_col df' c v
  end.

(** [pd.to_datetime] of a column: a converted column is returned as is. *)
Definition to_datetime_column (v : column) : result (list (option Z)) :=
  match v with TextCol cells => to_datetime cells | TimeCol ts => Ok ts end.

(** [for column in cols: all_df[column] = pd.to_datetime(all_df[column])]. *)
Fixpoint convert_columns (cols : list string) (df : list (string * column))
    : result (list (string * column)) :=
  match cols with
  | [] => Ok df
  | c :: cs => v ← get_col df c; ts ← to_datetime_column v; convert_columns cs (set_col df c (TimeCol ts))
  end.

Definition convert_datetime_cols (all_df : list (string * column)) : result (list (string * column)) :=
  convert_columns datetime_cols all_df.

(** ** Inverse conversions *)

Lemma check_range_nat f lo n :
  check_range f lo n = true → ∀ z, lo ≤ z < lo + Z.of_nat n → f z = true.
Proof.
  revert lo. induction n as [|n IH]; intros lo; simpl; [lia|].
  intros [Hf Hr]%andb_prop z Hz.
  destruct (decide (z = lo)) as [->|Hne]; [done|]. apply (IH (lo + 1)); [done|lia].
Qed.

Lemma check_range_spec f lo n :
  check_range f lo (Z.to_nat n) = true → ∀ z, lo ≤ z < lo + n → f z = true.
Proof.
  intros Hc z Hz. apply (check_range_nat f lo (Z.to_nat n) Hc).
  destruct (decide (0 ≤ n)); [rewrite Z2Nat.id by done|]; lia.
Qed.

(** Four hundred years later is 146097 days later. *)
Lemma days_from_civil_shift y m d k :
  days_from_civil (y + 400 * k) m d = days_from_civil y m d + 146097 * k.
Proof.
  unfold days_from_civil. cbv zeta.
  set (y' := if decide (m ≤ 2) then y - 1 else y).
  replace (if decide (m ≤ 2) then y + 400 * k - 1 else y + 400 * k) with (y' + k * 400)
    by (unfold y'; case_decide; lia).
  rewrite Z.div_add by lia.
  replace (y' + k * 400 - (y' `div` 400 + k) * 400) with (y' - y' `div` 400 * 400) by ring.
  ring.
Qed.

Lemma civil_from_days_shift z k :
  civil_from_days (z + 146097 * k) =
  ((civil_from_days z).1.1 + 400 * k, (civil_from_days z).1.2, (civil_from_days z).2).
Proof.
  unfold civil_from_days. cbv zeta.
  replace (z + 146097 * k + 719468) with ((z + 719468) + k * 146097) by ring.
  rewrite Z.div_add by lia.
  replace (z + 719468 + k * 146097 - ((z + 719468) `div` 146097 + k) * 146097)
    with (z + 719468 - (z + 719468) `div` 146097 * 146097) by ring.
  cbn [fst snd]. f_equal. f_equal. ring.
Qed.

Lemma mod_shift y k n c : n ≠ 0 → 400 = c * n → (y + 400 * k) `mod` n = y `mod` n.
Proof.
  intros Hn Hc. replace (y + 400 * k) with (y + (c * k) * n) by (rewrite Hc; ring).
  apply Z_mod_plus_full.
Qed.

Lemma is_leap_shift y k : is_leap (y + 400 * k) = is_leap y.
Proof.
  unfold is_leap. rewrite (mod_shift y k 4 100), (mod_shift y k 100 4), (mod_shift y k 400 1) by lia.
  done.
Qed.

Lemma days_in_month_shift y m k : days_in_month (y + 400 * k) m = days_in_month y m.
Proof. unfold days_in_month. by rewrite is_leap_shift. Qed.

Lemma days_in_month_range y m : 28 ≤ days_in_month y m ≤ 31.
Proof. unfold days_in_month. destruct (is_leap y); repeat case_decide; lia. Qed.

Lemma day_ok_sound z : day_ok z = true →
  let '(y, m, d) := civil_from_days z in valid_date y m d ∧ days_from_civil y m d = z.
Proof. unfold day_ok. destruct (civil_from_days z) as [[y m] d]. apply bool_decide_eq_true_1. Qed.


Lemma era_days z : -719468 ≤ z < -719468 + 146097 →
  let '(y, m, d) := civil_from_days z in valid_date y m d ∧ days_from_civil y m d = z.
Proof. intros Hz. apply day_ok_sound, (check_range_spec _ _ _ era_days_check_true z Hz). Qed.




(** Every day number is the day of a valid date, the date
    [civil_from_days] gives. *)
Lemma civil_from_days_spec z :
  let '(y, m, d) := civil_from_days z in valid_date y m d ∧ days_from_civil y m d = z.
Proof.
  pose proof (Z.mod_pos_bound (z + 719468) 146097 ltac:(lia)).
  pose proof (Z.div_mod (z + 719468) 146097 ltac:(lia)).
  generalize dependent ((z + 719468) `div` 146097). generalize dependent ((z + 719468) `mod` 146097).
  intros r Hr q Hz. replace z with ((r - 719468) + 146097 * q) by lia.
  pose proof (era_days (r - 719468) ltac:(lia)) as He.
  rewrite civil_from_days_shift. destruct (civil_from_days (r - 719468)) as [[y m] d].
  cbn [fst snd]. cbv beta iota. unfold valid_date in *. destruct He as [[Hm Hd] He]. rewrite days_in_month_shift, days_from_civil_shift.
  split; [split|]; lia.
Qed.





(** ** Digits and the two formats *)

Lemma digit_value_char k : 0 ≤ k < 10 → digit_value (digit_char k) = Some k.
Proof.
  intros Hk. unfold digit_value, digit_char.
  rewrite nat_ascii_embedding, Z2Nat.id by lia. rewrite decide_True by lia. f_equal. lia.
Qed.

Lemma digits_add a b acc l :
  digits (a + b) acc l = '(x, l') ← digits a acc l; digits b x l'.
Proof.
  revert acc l. induction a as [|a IH]; intros acc [|c l]; simpl; try done.
  destruct (digit_value c); simpl; [apply IH|done].
Qed.

Lemma length_pad w n : length (pad w n) = w.
Proof. revert n. induction w as [|w IH]; intros n; simpl; [done|]. rewrite length_app, IH. simpl. lia. Qed.

Lemma digits_pad w acc n rest : 0 ≤ n < 10 ^ Z.of_nat w →
  digits w acc (pad w n ++ rest) = Some (acc * 10 ^ Z.of_nat w + n, rest).
Proof.
  revert acc n rest. induction w as [|w IH]; intros acc n rest Hn.
  { simpl in *. f_equal. f_equal. lia. }
  rewrite Nat2Z.inj_succ, Z.pow_succ_r in * by lia.
  pose proof (Z.div_mod n 10 ltac:(lia)). pose proof (Z.mod_pos_bound n 10 ltac:(lia)).
  cbn [pad]. replace (digits (S w)) with (digits (w + 1)) by (f_equal; lia).
  rewrite <- app_assoc, digits_add, IH by (split; [apply Z.div_pos|apply Z.div_lt_upper_bound]; lia).
  simpl. rewrite digit_value_char by lia. simpl. f_equal. f_equal. lia.
Qed.

Lemma digits_pad0 w n rest : 0 ≤ n < 10 ^ Z.of_nat w → digits w 0 (pad w n ++ rest) = Some (n, rest).
Proof. intros Hn. by rewrite digits_pad. Qed.

Lemma bind_digits_pad {B} w n rest (k : Z * list ascii → option B) : 0 ≤ n < 10 ^ Z.of_nat w →
  digits w 0 (pad w n ++ rest) ≫= k = k (n, rest).
Proof. intros Hn. by rewrite digits_pad0. Qed.

Lemma bind_digits_pad_nil {B} w n (k : Z * list ascii → option B) : 0 ≤ n < 10 ^ Z.of_nat w →
  digits w 0 (pad w n) ≫= k = k (n, []).
Proof. intros Hn. rewrite <- (app_nil_r (pad w n)). by apply bind_digits_pad. Qed.

Lemma bind_expect {B} c rest (k : list ascii → option B) : expect c (c :: rest) ≫= k = k rest.
Proof. simpl. by rewrite decide_True. Qed.

(** Read a printed text back: one field or separator at a time. *)
Ltac read_back :=
  repeat (rewrite <- ?app_assoc; cbn [app];
          first [rewrite bind_digits_pad by (simpl; lia) | rewrite bind_digits_pad_nil by (simpl; lia) |
                 rewrite bind_expect]).

(** The fields of the two spellings, within their widths. *)
Definition fits (y m d : Z) : Prop := 0 ≤ y < 10000 ∧ 0 ≤ m < 100 ∧ 0 ≤ d < 100.

Lemma parse_date_text_rest f y m d rest : fits y m d →
  parse f (date_text y m d ++ rest) =
  match f with
  | DateOnly => match rest with [] => Some (y, m, d, 0, 0, 0) | _ => None end
  | DateTime =>
      l ← expect " " rest; '(hh, l) ← digits 2 0 l; l ← expect ":" l;
      '(mi, l) ← digits 2 0 l; l ← expect ":" l; '(ss, l) ← digits 2 0 l;
      match l with [] => Some (y, m, d, hh, mi, ss) | _ => None end
  end.
Proof.
  intros (Hy & Hm & Hd). unfold parse, date_text. read_back. reflexivity.
Qed.

Lemma format_of_date_text y m d : fits y m d →
  format_of (date_text y m d) = Some DateOnly ∧ parse DateOnly (date_text y m d) = Some (y, m, d, 0, 0, 0).
Proof.
  intros Hf. unfold format_of. rewrite <- (app_nil_r (date_text y m d)), !parse_date_text_rest by done.
  split; reflexivity.
Qed.

Definition fits_time (hh mi ss : Z) : Prop := 0 ≤ hh < 100 ∧ 0 ≤ mi < 100 ∧ 0 ≤ ss < 100.

Lemma format_of_datetime_text y m d hh mi ss : fits y m d → fits_time hh mi ss →
  format_of (datetime_text y m d hh mi ss) = Some DateTime ∧
  parse DateTime (datetime_text y m d hh mi ss) = Some (y, m, d, hh, mi, ss).
Proof.
  intros Hf (Hh & Hmi & Hs). unfold format_of, datetime_text.
  rewrite !parse_date_text_rest by done. read_back. split; reflexivity.
Qed.

(** The year of a day number, era by era. *)
Lemma civil_of_doe_year doe : 0 ≤ doe < 146097 → 0 ≤ (civil_of_doe doe).1.1 ≤ 400.
Proof. intros Hd. unfold civil_of_doe. cbv zeta. case_decide; cbn; Z.div_mod_to_equations; lia. Qed.

(** The days pandas can hold fall in the years 1600 to 2800. *)
Lemma civil_from_days_year z : -106752 ≤ z ≤ 106751 →
  1600 ≤ (civil_from_days z).1.1 ≤ 2800.
Proof.
  intros Hz. unfold civil_from_days. cbv zeta. cbn [fst snd].
  pose proof (civil_of_doe_year (z + 719468 - (z + 719468) `div` 146097 * 146097)
    ltac:(Z.div_mod_to_equations; lia)).
  assert (4 ≤ (z + 719468) `div` 146097 ≤ 5) by (Z.div_mod_to_equations; lia). lia.
Qed.

(** ** Timestamps of the two spellings *)

Lemma strptime_ok f l y m d hh mi ss :
  parse f l = Some (y, m, d, hh, mi, ss) → valid_date y m d →
  0 ≤ hh < 24 → 0 ≤ mi < 60 → 0 ≤ ss < 60 →
  ts_min ≤ days_from_civil y m d * seconds_per_day + hh * 3600 + mi * 60 + ss ≤ ts_max →
  strptime f (String.string_of_list_ascii l) =
    Ok (days_from_civil y m d * seconds_per_day + hh * 3600 + mi * 60 + ss).
Proof.
  intros Hp Hv Hh Hmi Hs Hb. unfold strptime. rewrite String.list_ascii_of_string_of_list_ascii, Hp.
  cbv zeta. rewrite !decide_True by done. reflexivity.
Qed.

Lemma to_timestamp_format f l : format_of l = Some f →
  to_timestamp (String.string_of_list_ascii l) = strptime f (String.string_of_list_ascii l).
Proof. intros Hf. unfold to_timestamp. by rewrite String.list_ascii_of_string_of_list_ascii, Hf. Qed.

Lemma ts_range_days t : ts_min ≤ t ≤ ts_max → -106752 ≤ day_of t ≤ 106751.
Proof. unfold ts_min, ts_max, day_of, seconds_per_day. intros Ht. Z.div_mod_to_equations. lia. Qed.

(** [str(date)] reads back as midnight of that date. *)
Lemma to_timestamp_str_date d : ts_min ≤ midnight d ≤ ts_max → to_timestamp (str_date d) = Ok (midnight d).
Proof.
  intros Hb. assert (-106752 ≤ d ≤ 106751) as Hd
    by (unfold midnight, seconds_per_day, ts_min, ts_max in Hb; lia).
  pose proof (civil_from_days_spec d) as Hs. pose proof (civil_from_days_year d Hd) as Hy.
  unfold str_date. destruct (civil_from_days d) as [[y m] dd]. cbn [fst snd] in Hy.
  destruct Hs as [Hv Hdays]. pose proof (days_in_month_range y m). pose proof Hv as [Hm Hdd].
  destruct (format_of_date_text y m dd) as [Hf Hp]; [unfold fits; lia|].
  unfold midnight in *.
  rewrite (to_timestamp_format _ _ Hf), (strptime_ok _ _ _ _ _ _ _ _ Hp) by (done || lia).
  f_equal. lia.
Qed.

(** A timestamp pandas can hold, printed in the CSV cells' spelling,
    has that format and reads back as itself. *)
Lemma format_timestamp_reads_back t : ts_min ≤ t ≤ ts_max →
  format_of (String.list_ascii_of_string (format_timestamp t)) = Some DateTime ∧
  strptime DateTime (format_timestamp t) = Ok t.
Proof.
  intros Hb. pose proof (ts_range_days t Hb) as Hd.
  pose proof (civil_from_days_spec (day_of t)) as Hs. pose proof (civil_from_days_year _ Hd) as Hy.
  unfold format_timestamp. destruct (civil_from_days (day_of t)) as [[y m] dd]. cbn [fst snd] in Hy.
  destruct Hs as [Hv Hdays]. pose proof (days_in_month_range y m). pose proof Hv as [Hm Hdd].
  assert (t = day_of t * seconds_per_day + (t `mod` seconds_per_day)) as Ht
    by (unfold day_of; rewrite Z.mul_comm; apply Z.div_mod; done).
  revert Ht. generalize (t `mod` seconds_per_day) (Z.mod_pos_bound t seconds_per_day ltac:(done)).
  intros r Hr Ht. unfold seconds_per_day in *.
  assert (0 ≤ r `div` 3600 < 24 ∧ 0 ≤ (r `mod` 3600) `div` 60 < 60 ∧ 0 ≤ r `mod` 60 < 60 ∧
          r = r `div` 3600 * 3600 + (r `mod` 3600) `div` 60 * 60 + r `mod` 60) as (Hh & Hmi & Hss & Hr')
    by (Z.div_mod_to_equations; lia).
  destruct (format_of_datetime_text y m dd (r `div` 3600) ((r `mod` 3600) `div` 60) (r `mod` 60))
    as [Hf Hp]; [unfold fits; lia|unfold fits_time; lia|].
  rewrite String.list_ascii_of_string_of_list_ascii, Hf.
  rewrite (strptime_ok _ _ _ _ _ _ _ _ Hp) by (done || unfold seconds_per_day; lia).
  split; [done|]. f_equal. unfold seconds_per_day. lia.
Qed.

Lemma to_timestamp_roundtrip t : ts_min ≤ t ≤ ts_max → to_timestamp (format_timestamp t) = Ok t.
Proof. intros Ht. destruct (format_timestamp_reads_back t Ht) as [Hf Hs]. unfold to_timestamp. by rewrite Hf. Qed.

Definition in_range (c : option Z) : Prop := ∀ t, c = Some t → ts_min ≤ t ≤ ts_max.

(** C18: a column of timestamps pandas can hold and NaT, printed in the
    CSV cells' spelling (NaN for NaT), is read back by
    [pd.to_datetime] as the same column. *)
Theorem to_datetime_roundtrip (col : list (option Z)) :
  Forall in_range col → to_datetime (map (fmap format_timestamp) col) = Ok col.
Proof.
  intros Hr. unfold to_datetime, guess_format.
  destruct (omap id (map (fmap format_timestamp) col)) as [|s ss] eqn:Ho.
  - rewrite bool_decide_eq_true_2 by done. f_equal.
    induction col as [|[t|] col IH]; simpl in *; [done|discriminate|].
    inversion Hr. f_equal. auto.
  - assert (format_of (String.list_ascii_of_string s) = Some DateTime) as ->.
    { assert (s ∈ omap id (map (fmap format_timestamp) col)) as Hs by (rewrite Ho; left).
      apply list_elem_of_omap in Hs as (c & Hc & Hcs).
      apply list_elem_of_fmap in Hc as ([t|] & -> & Ht); [|discriminate Hcs].
      injection Hcs as <-. apply (format_timestamp_reads_back t).
      rewrite Forall_forall in Hr. by apply (Hr (Some t)). }
    apply mapM_Ok, Forall2_fmap_l, Forall_Forall2_diag. eapply Forall_impl; [exact Hr|].
    intros [t|] Ht; [|done]. unfold compose.
    change (fmap format_timestamp (Some t)) with (Some (format_timestamp t)). cbv beta iota.
    by rewrite (proj2 (format_timestamp_reads_back t (Ht t eq_refl))).
Qed.

(** C16: [main_df] computed on the strings pandas compares with, for
    any dates in pandas' range, is the [main_df] of [TimeFilter], which
    compares with midnight of the start and end dates. *)
Theorem main_df_text_refines all_df s e :
  ts_min ≤ midnight s ≤ ts_max → ts_min ≤ midnight e ≤ ts_max →
  main_df_text all_df s e = Ok (TimeFilter.main_df all_df s e).
Proof. intros Hs He. unfold main_df_text. by rewrite !to_timestamp_str_date. Qed.

Lemma main_df_text_refines_witness :
  let r := mk_order "o1" 1 (Some "toys") 1000 (Some 5) (Some 1506941793) in
  ts_min ≤ midnight 17441 ≤ ts_max ∧ ts_min ≤ midnight 17442 ≤ ts_max ∧
  main_df_text [r] 17441 17442 = Ok (TimeFilter.main_df [r] 17441 17442).
Proof.
  intros r. unfold midnight, seconds_per_day, ts_min, ts_max.
  split; [lia|]. split; [lia|]. apply main_df_text_refines; unfold midnight, seconds_per_day, ts_min, ts_max; lia.
Defined.

(** ** The conversion loop *)

Lemma get_col_ok_iff df c : is_ok (get_col df c) = true ↔ c ∈ map fst df.
Proof.
  induction df as [|[c' v] df IH]; simpl; [split; [done|intros Hin%elem_of_nil; done]|].
  rewrite elem_of_cons. case_decide; simpl; [naive_solver|]. rewrite IH. naive_solver.
Qed.

Lemma get_col_set_col_eq df c v : is_ok (get_col df c) = true → get_col (set_col df c v) c = Ok v.
Proof.
  induction df as [|[c' v'] df IH]; simpl; [done|].
  case_decide; simpl; [by rewrite decide_True|]. rewrite decide_False by done. done.
Qed.

Lemma get_col_set_col_ne df c c' v : c ≠ c' → get_col (set_col df c v) c' = get_col df c'.
Proof.
  intros Hne. induction df as [|[c'' v'] df IH]; simpl; repeat (case_decide; simpl); subst; congruence.
Qed.

Lemma convert_columns_ok_iff cols df : NoDup cols →
  is_ok (convert_columns cols df) = true ↔
  Forall (λ c, ∃ v, get_col df c = Ok v ∧ is_ok (to_datetime_column v) = true) cols.
Proof.
  revert df. induction cols as [|c cs IH]; intros df Hnd; simpl; [split; constructor|].
  apply NoDup_cons in Hnd as [Hc Hnd]. rewrite Forall_cons.
  destruct (get_col df c) as [v|ex] eqn:Hg; simpl; [|split; [done|intros [(? & ? & _) _]; done]].
  destruct (to_datetime_column v) as [ts|ex] eqn:Ht; simpl;
    [|split; [done|intros [(? & [= <-] & Hok) _]; by rewrite Ht in Hok]].
  assert (∀ c', c' ∈ cs → get_col (set_col df c (TimeCol ts)) c' = get_col df c') as Heq
    by (intros c' Hc'; apply get_col_set_col_ne; set_solver).
  rewrite IH, !Forall_forall by done. split.
  - intros Hf. split; [exists v; by rewrite Ht|]. intros c' Hc'. rewrite <- Heq by done. auto.
  - intros [_ Hf] c' Hc'. rewrite Heq by done. auto.
Qed.

Lemma to_datetime_roundtrip_witness :
  Forall in_range [Some 1506941793; None; Some ts_min] ∧
  to_datetime (map (fmap format_timestamp) [Some 1506941793; None; Some ts_min]) =
    Ok [Some 1506941793; None; Some ts_min].
Proof.
  assert (Forall in_range [Some 1506941793; None; Some ts_min]) as Hr.
  { unfold in_range, ts_min, ts_max.
    apply Forall_cons; split; [intros t [= <-]; lia|].
    apply Forall_cons; split; [done|]. apply Forall_cons; split; [intros t [= <-]; lia|done]. }
  split; [exact Hr|]. exact (to_datetime_roundtrip _ Hr).
Defined.

(** What [pd.to_datetime] accepts of a column: a converted column, or
    text whose strings all read, in pandas' range, with the format of
    the first one. *)
Definition readable (v : column) : Prop :=
  match v with
  | TimeCol _ => True
  | TextCol cells =>
      match omap id cells with
      | [] => True
      | s0 :: _ => ∃ f, format_of (String.list_ascii_of_string s0) = Some f ∧
                       ∀ s, Some s ∈ cells → is_ok (strptime f s) = true
      end
  end.

Lemma strptime_raise f s e : strptime f s = Raise e → ∃ msg, e = ValueError msg.
Proof.
  unfold strptime. destruct (parse f _) as [[[[[[y m] d] hh] mi] ss]|]; [|intros [= <-]; eauto].
  cbv zeta. repeat case_decide; intros Hr; inversion Hr; eauto.
Qed.

Lemma mapM_raise {A B} (f : A → result B) l e :
  mapM f l = Raise e → ∃ x, x ∈ l ∧ f x = Raise e.
Proof.
  induction l as [|x l IH]; simpl; [done|].
  destruct (f x) as [y|e'] eqn:Hf; simpl; [|intros [= <-]; exists x; split; [left|done]].
  destruct (mapM f l) as [ys|e'] eqn:Hm; simpl; [done|].
  intros [= <-]. destruct (IH eq_refl) as (x' & Hx' & Hfx'). exists x'. split; [by right|done].
Qed.

Lemma to_datetime_raise cells e : to_datetime cells = Raise e → ∃ msg, e = ValueError msg.
Proof.
  unfold to_datetime. destruct (guess_format cells) as [f|].
  - intros (c & _ & Hc)%mapM_raise. destruct c as [s|]; [|done].
    destruct (strptime f s) eqn:Hs; [done|]. injection Hc as <-. by apply (strptime_raise f s).
  - case_bool_decide; [done|]. intros [= <-]. eauto.
Qed.

Lemma to_datetime_column_ok_iff v : is_ok (to_datetime_column v) = true ↔ readable v.
Proof.
  destruct v as [cells|ts]; simpl; [|done].
  unfold to_datetime, guess_format. destruct (omap id cells) as [|s0 ss] eqn:Ho.
  - rewrite bool_decide_eq_true_2 by done. done.
  - destruct (format_of _) as [f|] eqn:Hf.
    + rewrite mapM_is_ok, Forall_forall. split.
      * intros Hcells. exists f. split; [done|]. intros s Hs. specialize (Hcells _ Hs). simpl in Hcells.
        by destruct (strptime f s).
      * intros (f' & [= <-] & Hcells) [s|] Hs; simpl; [|done].
        specialize (Hcells s Hs). by destruct (strptime f s).
    + rewrite bool_decide_eq_false_2 by done. split; [done|]. by intros (f & [=] & _).
Qed.

Lemma get_col_raise df c e : get_col df c = Raise e → e = ColumnKeyError c ∧ c ∉ map fst df.
Proof.
  intros Hg. split.
  - revert Hg. induction df as [|[c' v] df IH]; simpl; [by intros [= <-]|].
    case_decide; [done|apply IH].
  - intros Hin%get_col_ok_iff. by rewrite Hg in Hin.
Qed.

(** The loop raises [KeyError] for a missing column, or [ValueError]
    for a column [pd.to_datetime] rejects. *)
Lemma convert_columns_raise cols df e : NoDup cols → convert_columns cols df = Raise e →
  (∃ c, c ∈ cols ∧ (c ∉ map fst df) ∧ e = ColumnKeyError c) ∨
  (∃ msg c v, c ∈ cols ∧ get_col df c = Ok v ∧ ¬ readable v ∧ e = ValueError msg).
Proof.
  revert df. induction cols as [|c cs IH]; intros df Hnd; simpl; [done|].
  apply NoDup_cons in Hnd as [Hc Hnd].
  destruct (get_col df c) as [v|ex] eqn:Hg; simpl.
  2: { intros [= <-]. left. destruct (get_col_raise df c ex Hg) as [-> Hn].
       exists c. split_and!; [set_solver|done|done]. }
  destruct (to_datetime_column v) as [ts|ex] eqn:Ht; simpl.
  2: { intros [= <-]. right. assert (¬ readable v) as Hr.
       { rewrite <- to_datetime_column_ok_iff, Ht. done. }
       destruct v as [cells|ts]; [|done]. destruct (to_datetime_raise cells ex Ht) as [msg ->].
       exists msg, c, (TextCol cells). split_and!; [set_solver|done|done|done]. }
  intros Hconv. destruct (IH _ Hnd Hconv) as [(c' & Hc' & Hn & ->)|(msg & c' & v' & Hc' & Hg' & Hok & ->)].
  - left. exists c'. split_and!; [set_solver| |done].
    intros Hin. apply Hn, get_col_ok_iff. rewrite get_col_set_col_ne by set_solver.
    by apply get_col_ok_iff.
  - right. exists msg, c', v'. rewrite get_col_set_col_ne in Hg' by set_solver.
    split_and!; [set_solver|done|done|done].
Qed.

Lemma NoDup_datetime_cols : NoDup datetime_cols.
Proof. apply (bool_decide_unpack _). by vm_compute. Qed.

(** C30: the conversion loop of lines 409-410 runs to the end exactly
    when each of the six datetime columns is in [all_df] and
    [pd.to_datetime] reads it (every string in the format of the first,
    a valid time in pandas' range); when it raises, the exception is
    [KeyError] naming a missing datetime column, or [ValueError] from a
    column [pd.to_datetime] cannot read. *)
Theorem convert_datetime_cols_ok_iff all_df :
  (is_ok (convert_datetime_cols all_df) = true ↔
   ∀ c, c ∈ datetime_cols → c ∈ map fst all_df ∧ ∃ v, get_col all_df c = Ok v ∧ readable v) ∧
  (∀ e, convert_datetime_cols all_df = Raise e →
     (∃ c, c ∈ datetime_cols ∧ (c ∉ map fst all_df) ∧ e = ColumnKeyError c) ∨
     (∃ msg c v, c ∈ datetime_cols ∧ get_col all_df c = Ok v ∧ ¬ readable v ∧ e = ValueError msg)).
Proof.
  split; [|intros e; apply convert_columns_raise, NoDup_datetime_cols].
  unfold convert_datetime_cols. rewrite convert_columns_ok_iff, Forall_forall by apply NoDup_datetime_cols.
  setoid_rewrite to_datetime_column_ok_iff. split; intros Hall c Hc.
  - destruct (Hall c Hc) as (v & Hv & Hok). split; [apply get_col_ok_iff; by rewrite Hv|eauto].
  - apply (Hall c Hc).
Qed.

(** After the loop, each datetime column holds its conversion and every
    other column is unchanged. *)
Lemma convert_columns_spec cols df df' : NoDup cols →
  convert_columns cols df = Ok df' →
  (∀ c, c ∈ cols → ∃ v ts, get_col df c = Ok v ∧ to_datetime_column v = Ok ts ∧
                           get_col df' c = Ok (TimeCol ts)) ∧
  (∀ c, c ∉ cols → get_col df' c = get_col df c).
Proof.
  revert df. induction cols as [|c cs IH]; intros df Hnd; simpl; [intros [= ->]; split; [set_solver|done]|].
  apply NoDup_cons in Hnd as [Hc Hnd].
  destruct (get_col df c) as [v|ex] eqn:Hg; simpl; [|done].
  destruct (to_datetime_column v) as [ts|ex] eqn:Ht; simpl; [|done].
  intros Hconv. destruct (IH _ Hnd Hconv) as [Hin Hout]. split.
  - intros c' [->|Hc']%elem_of_cons.
    + exists v, ts. rewrite Hout, get_col_set_col_eq by (done || by rewrite Hg). done.
    + destruct (Hin c' Hc') as (v' & ts' & Hg' & Ht' & Hd').
      rewrite get_col_set_col_ne in Hg' by set_solver. eauto.
  - intros c' Hc'. rewrite Hout, get_col_set_col_ne by set_solver. done.
Qed.

(** pandas reads a whole column with the format of its first string: a
    column whose strings mix the two spellings raises. *)
Lemma to_datetime_mixed_formats :
  to_datetime [Some "2017-10-02 10:56:33"; Some "2017-10-03"] =
    raise (ValueError "time data does not match format").
Proof. by vm_compute. Qed.

End Datetime.
