(* ===== verification/Reviews.v ===== *)
(** The review-score panel: [plot_review_scores_distribution] (lines
    180-241 of [src/dashboard/dashboard.py]).  [value_counts()] counts
    the rows of each score (NaN dropped) and sorts by count; the left
    chart draws the counts, the right chart the same counts as
    percentages of their total, coloured through the dictionary
    [review_colors], whose lookup raises [KeyError] on a score that is
    not one of 1..5. *)

From S2P Require Import Prelude Table GroupBy Stats.
From Stdlib Require Import QArith Qfield.

Module Reviews.
Local Open Scope Z_scope.

Section Reviews.
Context `{SortValues}.

(** [df['review_score'].value_counts()]. *)
Definition value_counts (df : list order_row) : list (Z * Z) :=
  sort_values Descending
    (agg (λ g, Z.of_nat (length g)) (groupby Z.le review_score df)).

(** [review_scores = ....sort_values(ascending=False)] (line 181). *)
Definition review_scores (df : list order_row) : list (Z * Z) :=
  sort_values Descending (value_counts df).

(** [percentages = (review_scores / review_scores.sum()) * 100]. *)
Definition percentages (rs : list (Z * Z)) : list (Z * Q) :=
  let total := Σ[snd] rs in
  map (λ kc, (kc.1, (inject_Z kc.2 / inject_Z total * 100)%Q)) rs.

(** The dictionary [review_colors] (lines 214-220) and its lookup. *)
Definition review_colors : list (Z * string) :=
  [(5, "#577fd7"); (4, "#bcccef"); (3, "#bcccef"); (2, "#bcccef"); (1, "#bcccef")].

Definition dict_get (d : list (Z * string)) (k : Z) : result string :=
  match list_find (λ kv, kv.1 = k) d with
  | Some (_, (_, v)) => Ok v
  | None => raise (KeyError k)
  end.

(** The whole panel: the bars of the left chart with their labels, the
    wedges of the right chart and their colours (line 228); the figure
    is drawn only if every colour lookup succeeds. *)
Definition plot_review_scores_distribution (df : list order_row)
    : result (list (Z * Z) * list (nat * Z) * list (Z * Q) * list string) :=
  let rs := review_scores df in
  let pct := percentages rs in
  colors ← mapM (dict_get review_colors) (map fst pct);
  mret (rs, imap (λ i kc, (i, kc.2)) rs, pct, colors).

(** ** Lemmas *)

Lemma elem_of_value_counts df k c :
  (k, c) ∈ value_counts df ↔
  (∃ r, r ∈ df ∧ review_score r = Some k) ∧
  c = Z.of_nat (length (filter (λ r, review_score r = Some k) df)).
Proof.
  unfold value_counts.
  by rewrite elem_of_sort_values, elem_of_agg_groupby, elem_of_group_keys by apply _.
Qed.

Lemma elem_of_review_scores_keys df k :
  k ∈ map fst (review_scores df) ↔ ∃ r, r ∈ df ∧ review_score r = Some k.
Proof.
  unfold review_scores. rewrite list_elem_of_fmap. split.
  - intros ([k' c] & -> & Hin%elem_of_sort_values%elem_of_value_counts). naive_solver.
  - intros Hk. exists (k, Z.of_nat (length (filter (λ r, review_score r = Some k) df))).
    split; [done|]. by apply elem_of_sort_values, elem_of_value_counts.
Qed.

Lemma sum_review_scores df :
  Σ[snd] (review_scores df) = Z.of_nat (length (filter (λ r, is_Some (review_score r)) df)).
Proof.
  unfold review_scores, value_counts. rewrite !sum_sort_values.
  rewrite <- sum_by_one, <- (agg_sum_groupby Z.le). unfold agg.
  f_equal. apply map_ext. intros [k g]. simpl. by rewrite sum_by_one.
Qed.

Lemma Qsum_percentages (rs : list (Z * Z)) (T : Z) :
  Qsum (map (λ kc, inject_Z kc.2 / inject_Z T * 100)%Q rs) ==
  (inject_Z (Σ[snd] rs) / inject_Z T * 100)%Q.
Proof.
  induction rs as [|[k c] rs IH]; simpl.
  - unfold Qdiv. ring.
  - eapply Qeq_trans; [apply Qplus_comp; [reflexivity|exact IH]|].
    rewrite inject_Z_plus. unfold Qdiv. ring.
Qed.

Lemma dict_get_review_colors k :
  is_ok (dict_get review_colors k) = true ↔ 1 ≤ k ≤ 5.
Proof.
  unfold dict_get, review_colors. simpl.
  repeat (case_decide; simpl); split; intros; subst; done || lia.
Qed.

(** C19: the percentages of the pie chart add up to 100 when at least
    one row has a review score. *)
Theorem percentages_sum_100 df r s :
  r ∈ df → review_score r = Some s →
  Qsum (map snd (percentages (review_scores df))) == 100%Q.
Proof.
  intros Hr Hs. unfold percentages. rewrite map_map.
  eapply Qeq_trans; [apply Qsum_percentages|].
  assert (0 < Σ[snd] (review_scores df)).
  { rewrite sum_review_scores. assert (r ∈ filter (λ r, is_Some (review_score r)) df)
      by (apply list_elem_of_filter; split; [by eexists|done]).
    destruct (filter _ df); [set_solver|simpl; lia]. }
  field. intros Heq. unfold Qeq in Heq. simpl in Heq. lia.
Qed.

#[local] Instance bad_score_dec r : Decision (∃ s, review_score r = Some s ∧ ¬ (1 ≤ s ≤ 5)).
Proof.
  destruct (review_score r) as [s|]; [destruct (decide (1 ≤ s ≤ 5))|];
    [right; naive_solver|left; eauto|right; naive_solver].
Defined.

Lemma plot_review_scores_ok_iff df :
  is_ok (plot_review_scores_distribution df) = true ↔
  ∀ r, r ∈ df → ∀ s, review_score r = Some s → 1 ≤ s ≤ 5.
Proof.
  unfold plot_review_scores_distribution.
  assert (∀ c : result (list string), is_ok c = true ↔
            is_ok (c ≫= (λ colors, mret (review_scores df,
              imap (λ i kc, (i, kc.2)) (review_scores df),
              percentages (review_scores df), colors)) : result _) = true) as Hbind
    by (intros [|]; done).
  rewrite <- Hbind, mapM_is_ok, Forall_forall.
  unfold percentages. rewrite map_map. simpl.
  setoid_rewrite dict_get_review_colors. split.
  - intros Hall r Hr s Hs. apply Hall, elem_of_review_scores_keys. eauto.
  - intros Hall k (r & Hr & Hs)%elem_of_review_scores_keys. eauto.
Qed.

(** C20: the panel raises [KeyError] exactly when some row has a review
    score outside 1..5: the colour dictionary has keys 1 to 5 only. *)
Theorem review_panel_ok_iff df :
  is_ok (plot_review_scores_distribution df) = false ↔
  ∃ r, r ∈ df ∧ ∃ s, review_score r = Some s ∧ ¬ (1 ≤ s ≤ 5).
Proof.
  rewrite <- not_true_iff_false, plot_review_scores_ok_iff. split.
  - intros Hn. apply (@dec_stable _ (list_exist_dec _ df _)). intros Hno. apply Hn. intros r Hr s Hs.
    destruct (decide (1 ≤ s ≤ 5)); [done|]. exfalso. apply Hno. eauto 6.
  - intros (r & Hr & s & Hs & Hns) Hall. by apply Hns, (Hall r).
Qed.

(** C21: the bars are sorted by decreasing count and the bar of a score
    counts exactly the rows with that score. *)
Theorem review_scores_spec df k c :
  Sorted (λ a b, b.2 ≤ a.2) (review_scores df) ∧
  ((k, c) ∈ review_scores df ↔
   (∃ r, r ∈ df ∧ review_score r = Some k) ∧
   c = Z.of_nat (length (filter (λ r, review_score r = Some k) df))).
Proof.
  split; [apply (sort_values_sorted Descending)|].
  unfold review_scores. by rewrite elem_of_sort_values, elem_of_value_counts.
Qed.

End Reviews.

(** Four reviewed items and one without a review. *)
Definition reviewed : list order_row :=
  [mk_order "a" 1 None 0 (Some 5) None; mk_order "b" 1 None 0 (Some 3) None;
   mk_order "c" 1 None 0 (Some 5) None; mk_order "d" 1 None 0 (Some 4) None;
   mk_order "e" 1 None 0 None None].

Lemma percentages_sum_100_witness :
  mk_order "a" 1 None 0 (Some 5) None ∈ reviewed ∧
  review_score (mk_order "a" 1 None 0 (Some 5) None) = Some 5 ∧
  Qsum (map snd (percentages (review_scores reviewed))) == 100%Q.
Proof.
  assert (mk_order "a" 1 None 0 (Some 5) None ∈ reviewed) as Hr by by_compute.
  split; [exact Hr|]. split; [reflexivity|].
  exact (percentages_sum_100 reviewed _ 5 Hr eq_refl).
Defined.

(** A score of 7 makes the panel raise. *)
Example review_panel_key_error :
  plot_review_scores_distribution (mk_order "f" 1 None 0 (Some 7) None :: reviewed) =
  raise (KeyError 7).
Proof. vm_compute. reflexivity. Qed.

End Reviews.
