(* ===== verification/Demographics.v ===== *)
(** The demographics panel: [plot_demographic_characteristics]
    (lines 256-333 of [src/dashboard/dashboard.py]).  Three series of
    distinct order counts, by customer state, by city (first ten) and by
    payment type, each sorted by decreasing count.  The state of
    [idxmax()] is drawn in the dark colour; [idxmax] of an empty series
    raises [ValueError].  The city chart is drawn with the palette
    [colors_] computed for the states. *)

From S2P Require Import Prelude Table GroupBy.

Module Demographics.
Local Open Scope Z_scope.

Definition dark : string := "#577fd7".
Definition light : string := "#bcccef".

(** [Series.idxmax()] on a series whose index is [0 .. n-1] (after
    [reset_index]): the position of the first maximum. *)
Fixpoint argmax_from (i best : nat) (bv : Z) (l : list Z) : nat :=
  match l with
  | [] => best
  | x :: l' => if decide (bv < x) then argmax_from (S i) i x l' else argmax_from (S i) best bv l'
  end.

Definition idxmax (l : list Z) : result nat :=
  match l with
  | [] => raise (ValueError "attempt to get argmax of an empty sequence")
  | x :: l' => Ok (argmax_from 1 0 x l')
  end.

(** The colour seaborn gives bar [j] from a palette list: the list is
    cycled when it is shorter than the number of bars. *)
Definition palette_color (palette : list string) (j : nat) : string :=
  default light (palette !! (j `mod` length palette)%nat).

(** The panel's data. *)
Record demographics := {
  bystate_df : list (string * Z);
  order_value_max : string;
  colors_ : list string;
  bycity_df : list (string * Z);
  city_palette : list string;
  bypayment_type_df : list (string * Z)
}.

Section Demographics.
Context `{SortValues}.

(** [df.groupby(by=col).order_id.nunique().sort_values(ascending=False)
    .reset_index()]. *)
Definition nunique_by (col : order_row → string) (df : list order_row) : list (string * Z) :=
  sort_values Descending
    (agg (λ g, Z.of_nat (nunique order_id g)) (groupby String.le (λ r, Some (col r)) df)).

Definition plot_demographic_characteristics (df : list order_row) : result demographics :=
  let bystate := nunique_by customer_state df in
  i ← idxmax (map snd bystate);
  let omax := default "" (fst <$> bystate !! i) in
  let colors := map (λ sc, if decide (sc.1 ≠ omax) then light else dark) bystate in
  mret {| bystate_df := bystate;
          order_value_max := omax;
          colors_ := colors;
          bycity_df := head 10 (nunique_by customer_city df);
          city_palette := colors;
          bypayment_type_df := nunique_by payment_type df |}.

(** The colours of the city bars (line 299: [palette=colors_]). *)
Definition city_bar_colors (d : demographics) : list string :=
  imap (λ j _, palette_color (city_palette d) j) (bycity_df d).

(** ** Lemmas *)

Lemma argmax_from_le i best bv l :
  Forall (λ x, x ≤ bv) l → argmax_from i best bv l = best.
Proof.
  intros Hall. revert i. induction Hall as [|x l Hx Hl IH]; intros i; simpl; [done|].
  rewrite decide_False by lia. apply IH.
Qed.

Lemma idxmax_ok_iff l : is_ok (idxmax l) = true ↔ l ≠ [].
Proof. destruct l; simpl; naive_solver. Qed.

(** The first entry of a series sorted by decreasing value is its
    first maximum. *)
Lemma idxmax_sorted (l : list Z) x :
  StronglySorted (λ a b, b ≤ a) (x :: l) → idxmax (x :: l) = Ok 0%nat.
Proof.
  intros [_ Hall]%StronglySorted_inv. simpl. f_equal. by apply argmax_from_le.
Qed.

Lemma nunique_by_keys_NoDup col df : NoDup (map fst (nunique_by col df)).
Proof.
  unfold nunique_by. rewrite (sort_values_perm Descending). unfold agg.
  rewrite map_map. simpl. rewrite (groupby_keys String.le) by apply _.
  apply (StronglySorted_key_lt_NoDup String.le), group_keys_sorted; apply _.
Qed.

Lemma nunique_by_nil col df : nunique_by col df = [] ↔ df = [].
Proof.
  split; [|intros ->; unfold nunique_by; apply Permutation_nil_r, sort_values_perm].
  destruct df as [|r df]; [done|]. intros Hnil.
  assert ((col r, Z.of_nat (nunique order_id (group_of (λ r, Some (col r)) (r :: df) (col r))))
          ∈ nunique_by col (r :: df)) as Hin.
  { unfold nunique_by. rewrite elem_of_sort_values, elem_of_agg_groupby by apply _.
    split; [|done]. apply elem_of_group_keys. exists r. set_solver. }
  rewrite Hnil in Hin. set_solver.
Qed.

(** The state bars, their highlighted state and their colours when the
    panel is drawn. *)
Lemma plot_ok_shape df d :
  plot_demographic_characteristics df = Ok d →
  ∃ s v rest, bystate_df d = (s, v) :: rest ∧ order_value_max d = s ∧
    colors_ d = dark :: map (λ _, light) rest ∧ city_palette d = colors_ d ∧
    Forall (λ p, p.2 ≤ v) rest ∧ bystate_df d = nunique_by customer_state df.
Proof.
  unfold plot_demographic_characteristics.
  pose proof (sort_values_strongly_sorted Descending
    (agg (λ g, Z.of_nat (nunique order_id g))
         (groupby String.le (λ r, Some (customer_state r)) df))) as Hs.
  pose proof (nunique_by_keys_NoDup customer_state df) as Hnd.
  fold (nunique_by customer_state df) in Hs.
  destruct (nunique_by customer_state df) as [|[s v] rest]; [done|].
  assert (idxmax (map snd ((s, v) :: rest)) = Ok 0%nat) as Hi.
  { apply idxmax_sorted.
    change (StronglySorted (λ a b, b ≤ a) (snd <$> ((s, v) :: rest))).
    eapply (StronglySorted_fmap snd (sort_rel Descending)); [|done]. by intros ? ? ?. }
  rewrite Hi. simpl. intros [= <-]. exists s, v, rest. simpl. split_and!; try done.
  - rewrite decide_False by tauto. f_equal. apply map_ext_in.
    intros [s' v'] Hin%list_elem_of_In. simpl in Hnd. apply NoDup_cons in Hnd as [Hs' _].
    case_decide as Hne; [done|]. exfalso. apply Hs', list_elem_of_fmap.
    exists (s', v'). split; [|done]. simpl. destruct (decide (s' = s)); [done|contradiction].
  - apply StronglySorted_inv in Hs as [_ Hall]. eapply Forall_impl; [done|]. by intros ? ?.
Qed.

Lemma plot_demographic_ok_iff df : is_ok (plot_demographic_characteristics df) = true ↔ df ≠ [].
Proof.
  rewrite <- (nunique_by_nil customer_state). unfold plot_demographic_characteristics.
  destruct (nunique_by customer_state df) as [|[s v] rest]; simpl; [done|]. done.
Qed.

Lemma filter_some_key (col : order_row → string) (df : list order_row) :
  filter (λ r, is_Some (Some (col r))) df = df.
Proof.
  induction df as [|r df IH]; [done|]. rewrite filter_cons, decide_True by by eexists.
  by rewrite IH.
Qed.

Lemma colors_lookup (rest : list (string * Z)) j c :
  (dark :: map (λ _, light) rest) !! j = Some c → (c = dark ↔ j = 0%nat).
Proof.
  destruct j as [|j]; simpl; [intros [= <-]; done|].
  rewrite list_lookup_fmap. destruct (rest !! j); simpl; [|done].
  intros [= <-]. unfold light, dark. split; [discriminate|lia].
Qed.

(** C22: the panel raises [ValueError] (from [idxmax] on an empty
    series) exactly when the table is empty: an empty date range breaks
    it, which the spec says must not happen. *)
Theorem demographics_raises_iff df :
  is_ok (plot_demographic_characteristics df) = false ↔ df = [].
Proof. rewrite <- not_true_iff_false, plot_demographic_ok_iff. destruct df; naive_solver. Qed.

(** C23: the highlighted state has the largest number of distinct
    orders, and exactly the first bar of the state chart is dark. *)
Theorem highlighted_state_max df d :
  plot_demographic_characteristics df = Ok d →
  (∃ v, (order_value_max d, v) ∈ bystate_df d ∧ ∀ p, p ∈ bystate_df d → p.2 ≤ v) ∧
  ∀ j c, colors_ d !! j = Some c → (c = dark ↔ j = 0%nat).
Proof.
  intros (s & v & rest & Hby & Hmax & Hcol & _ & Hle & _)%plot_ok_shape.
  rewrite Hby, Hmax, Hcol. split; [|apply colors_lookup].
  exists v. split; [set_solver|]. intros p [->|Hp]%elem_of_cons; [simpl; lia|].
  rewrite Forall_forall in Hle. auto.
Qed.

(** C24: the city chart reuses the state colours: city bar [j] is dark
    exactly when [j] is a multiple of the number of states, so with
    fewer states than cities more than one city is highlighted. *)
Theorem city_colors_from_states df d :
  plot_demographic_characteristics df = Ok d →
  ∀ j c, city_bar_colors d !! j = Some c →
         (c = dark ↔ (j `mod` length (bystate_df d) = 0)%nat).
Proof.
  intros (s & v & rest & Hby & _ & Hcol & Hpal & _ & _)%plot_ok_shape j c.
  unfold city_bar_colors. rewrite list_lookup_imap.
  destruct (bycity_df d !! j); simpl; [|done]. intros [= <-].
  unfold palette_color. rewrite Hpal, Hcol, Hby. cbn [length]. rewrite length_map.
  destruct ((dark :: map (λ _, light) rest) !! (j `mod` S (length rest))%nat) as [c|] eqn:Hc.
  - exact (colors_lookup rest _ _ Hc).
  - exfalso. apply lookup_ge_None in Hc. simpl in Hc. rewrite length_map in Hc.
    pose proof (Nat.mod_upper_bound j (S (length rest))). lia.
Qed.

(** C25: when every order has one customer state, the state bars add up
    to the number of distinct orders. *)
Theorem bystate_conservation df :
  (∀ r1, r1 ∈ df → ∀ r2, r2 ∈ df → order_id r1 = order_id r2 →
         customer_state r1 = customer_state r2) →
  Σ[snd] (nunique_by customer_state df) = Z.of_nat (nunique order_id df).
Proof.
  intros Hfd. unfold nunique_by. rewrite sum_sort_values.
  rewrite (agg_nunique_groupby String.le) by (apply _ || (intros; f_equal; auto)).
  by rewrite filter_some_key.
Qed.

End Demographics.

Definition customer (oid state city pay : string) : order_row :=
  {| order_id := oid; order_item_id := 1; product_category_name_english := None;
     payment_value := 0; price := None; review_score := None; order_approved_at := None;
     order_delivery_time := None; customer_state := state; customer_city := city;
     payment_type := pay |}.

(** Three orders from one state and two cities. *)
Definition one_state : list order_row :=
  [customer "a" "SP" "sao paulo" "credit_card"; customer "b" "SP" "campinas" "boleto";
   customer "c" "SP" "campinas" "credit_card"].

Definition one_state_demographics : demographics :=
  {| bystate_df := [("SP", 3)]; order_value_max := "SP"; colors_ := [dark];
     bycity_df := [("campinas", 2); ("sao paulo", 1)]; city_palette := [dark];
     bypayment_type_df := [("credit_card", 2); ("boleto", 1)] |}.

Lemma one_state_plot :
  plot_demographic_characteristics one_state = Ok one_state_demographics.
Proof. vm_compute. reflexivity. Qed.

Lemma highlighted_state_max_witness :
  plot_demographic_characteristics one_state = Ok one_state_demographics ∧
  (∃ v, ("SP", v) ∈ bystate_df one_state_demographics ∧
        ∀ p, p ∈ bystate_df one_state_demographics → p.2 ≤ v).
Proof.
  split; [exact one_state_plot|].
  exact (proj1 (highlighted_state_max one_state one_state_demographics one_state_plot)).
Defined.

(** The second city, not the top one, is drawn dark too. *)
Lemma city_colors_from_states_witness :
  plot_demographic_characteristics one_state = Ok one_state_demographics ∧
  city_bar_colors one_state_demographics !! 1%nat = Some dark ∧
  (1 `mod` length (bystate_df one_state_demographics) = 0)%nat.
Proof.
  assert (city_bar_colors one_state_demographics !! 1%nat = Some dark) as Hc
    by (vm_compute; reflexivity).
  split; [exact one_state_plot|]. split; [exact Hc|].
  exact (proj1 (city_colors_from_states one_state one_state_demographics one_state_plot
                  1 dark Hc) eq_refl).
Defined.

Lemma bystate_conservation_witness :
  (∀ r1, r1 ∈ one_state → ∀ r2, r2 ∈ one_state → order_id r1 = order_id r2 →
         customer_state r1 = customer_state r2) ∧
  Σ[snd] (nunique_by customer_state one_state) = 3.
Proof.
  assert (∀ r1, r1 ∈ one_state → ∀ r2, r2 ∈ one_state → order_id r1 = order_id r2 →
          customer_state r1 = customer_state r2) as Hfd by by_compute.
  split; [exact Hfd|]. rewrite (bystate_conservation one_state Hfd). reflexivity.
Defined.

End Demographics.
