(* ===== verification/Geo.v ===== *)
(** The geolocation panel: [plot_geolocation_distribution] (lines
    362-397 of [src/dashboard/dashboard.py]).  The slider picks a range
    [(lo, hi)] of zip-code prefixes, by default [(min_val, max_val)];
    the range is passed to [gdf.plot] as [vmin]/[vmax], so it only sets
    the colour scale: every row is drawn, its colour level is
    [(z - lo) / (hi - lo)] clipped to [0, 1] by the colormap, and 0 for
    every row when [lo = hi] (matplotlib's [Normalize]).  A range with
    [lo > hi] makes [Normalize] raise [ValueError]. *)

From S2P Require Import Prelude Table.
From Stdlib Require Import QArith Qminmax.

Module Geo.
Local Open Scope Z_scope.

(** [geo_df['geolocation_zip_code_prefix'].min()] / [.max()] and the
    slider's initial value [(min_val, max_val)]. *)
Definition zip_range (geo_df : list geo_row) : option (Z * Z) :=
  match min_opt (map (λ g, Some (geolocation_zip_code_prefix g)) geo_df),
        max_opt (map (λ g, Some (geolocation_zip_code_prefix g)) geo_df) with
  | Some lo, Some hi => Some (lo, hi)
  | _, _ => None
  end.

(** [Normalize(vmin, vmax)] followed by the colormap's clipping. *)
Definition color_level (vmin vmax z : Z) : result Q :=
  if decide (vmax < vmin) then raise (ValueError "minvalue must be less than or equal to maxvalue")
  else if decide (vmin = vmax) then Ok 0%Q
  else Ok (Qmax 0 (Qmin 1 (inject_Z (z - vmin) / inject_Z (vmax - vmin))))%Q.

(** [gdf.plot(column='geolocation_zip_code_prefix', vmin=threshold[0],
    vmax=threshold[1])]: one point per row, at [(lng, lat)], with its
    colour level. *)
Definition plot_geolocation_distribution (geo_df : list geo_row) (threshold : Z * Z)
    : result (list (Z * Z * Q)) :=
  mapM (λ g, lvl ← color_level threshold.1 threshold.2 (geolocation_zip_code_prefix g);
             mret (geolocation_lng g, geolocation_lat g, lvl)) geo_df.

(** ** Lemmas *)

Lemma color_level_ok vmin vmax z :
  vmin ≤ vmax → ∃ q, color_level vmin vmax z = Ok q.
Proof.
  intros Hle. unfold color_level. rewrite decide_False by lia.
  case_decide; eexists; reflexivity.
Qed.

Lemma color_level_bounds vmin vmax z q :
  vmin < vmax → color_level vmin vmax z = Ok q →
  (0 <= q <= 1)%Q ∧ (z ≤ vmin → q == 0)%Q ∧ (vmax ≤ z → q == 1)%Q.
Proof.
  intros Hlt. unfold color_level. rewrite !decide_False by lia. intros [= <-].
  assert (0 < inject_Z (vmax - vmin))%Q as Hpos.
  { unfold Qlt. simpl. lia. }
  set (x := (inject_Z (z - vmin) / inject_Z (vmax - vmin))%Q).
  split_and!.
  - apply Q.le_max_l.
  - apply Q.max_lub; [discriminate|apply Q.le_min_l].
  - intros Hz. apply Q.max_l. eapply Qle_trans; [apply Q.le_min_r|].
    apply Qle_shift_div_r; [done|]. rewrite Qmult_0_l. unfold Qle. simpl. lia.
  - intros Hz. rewrite Q.min_l; [apply Q.max_r; discriminate|].
    apply Qle_shift_div_l; [done|]. rewrite Qmult_1_l. unfold Qle. simpl. lia.
Qed.

(** The panel raises exactly when there is a point to colour and the
    slider's range is reversed. *)
Lemma plot_geolocation_ok_iff geo_df thr :
  is_ok (plot_geolocation_distribution geo_df thr) = true ↔ geo_df = [] ∨ thr.1 ≤ thr.2.
Proof.
  unfold plot_geolocation_distribution. rewrite mapM_is_ok.
  destruct geo_df as [|g geo_df]; [split; [by left|constructor]|].
  split.
  - intros Hf%Forall_inv. right. unfold color_level in Hf.
    case_decide; [done|lia].
  - intros [[=]|Hle]. apply Forall_forall. intros g' _.
    destruct (color_level_ok thr.1 thr.2 (geolocation_zip_code_prefix g') Hle) as [q ->]. done.
Qed.

(** C26: every row of the table is drawn, whatever range the slider
    selects; the range only sets the colour scale, and a one-point range
    [lo = hi] gives every point the same colour.  The spec calls this a
    filter that returns the rows in range. *)
Theorem geo_plots_every_row geo_df lo hi :
  lo ≤ hi →
  ∃ pts, plot_geolocation_distribution geo_df (lo, hi) = Ok pts ∧
    map fst pts = map (λ g, (geolocation_lng g, geolocation_lat g)) geo_df ∧
    (lo = hi → ∀ p, p ∈ pts → p.2 = 0%Q).
Proof.
  intros Hle. unfold plot_geolocation_distribution. simpl.
  induction geo_df as [|g geo_df IH]; simpl.
  { eexists. split_and!; [done|done|]. intros _ p Hp. by apply elem_of_nil in Hp. }
  destruct (color_level_ok lo hi (geolocation_zip_code_prefix g) Hle) as [q Hq].
  rewrite Hq. simpl. destruct IH as (pts & Hpts & Hmap & Hsame). rewrite Hpts. simpl.
  eexists. split_and!; [done|simpl; by rewrite Hmap|].
  intros Heq p [->|Hp]%elem_of_cons; [|by apply Hsame].
  simpl. subst hi. unfold color_level in Hq. rewrite decide_False, decide_True in Hq by lia.
  by injection Hq.
Qed.

(** C27: with [lo < hi] every colour level lies in [0, 1], a row at or
    below [lo] gets the lowest colour and a row at or above [hi] the
    highest. *)
Theorem geo_level_bounds geo_df lo hi pts :
  lo < hi → plot_geolocation_distribution geo_df (lo, hi) = Ok pts →
  Forall2 (λ g p, (0 <= p.2 <= 1)%Q ∧
                  (geolocation_zip_code_prefix g ≤ lo → p.2 == 0)%Q ∧
                  (hi ≤ geolocation_zip_code_prefix g → p.2 == 1)%Q) geo_df pts.
Proof.
  intros Hlt Hplot%mapM_Ok. simpl in Hplot.
  eapply Forall2_impl; [exact Hplot|]. intros g p Hgp. cbv beta in Hgp.
  destruct (color_level lo hi (geolocation_zip_code_prefix g)) as [q|e] eqn:Hq;
    cbv [mbind result_bind mret result_ret] in Hgp; [|discriminate].
  injection Hgp as <-. simpl. by apply (color_level_bounds lo hi).
Qed.

(** Three points with zip prefixes 1000, 5000 and 9000. *)
Definition three_points : list geo_row :=
  [{| geolocation_zip_code_prefix := 1000; geolocation_lat := -23; geolocation_lng := -46 |};
   {| geolocation_zip_code_prefix := 5000; geolocation_lat := -15; geolocation_lng := -47 |};
   {| geolocation_zip_code_prefix := 9000; geolocation_lat := -3; geolocation_lng := -60 |}].

(** The slider at [lo = hi = min]: the three points are still drawn. *)
Lemma geo_plots_every_row_witness :
  zip_range three_points = Some (1000, 9000) ∧ 1000 ≤ 1000 ∧
  ∃ pts, plot_geolocation_distribution three_points (1000, 1000) = Ok pts ∧
    map fst pts = [(-46, -23); (-47, -15); (-60, -3)] ∧
    (1000 = 1000 → ∀ p, p ∈ pts → p.2 = 0%Q).
Proof.
  split; [vm_compute; reflexivity|]. split; [lia|].
  exact (geo_plots_every_row three_points 1000 1000 ltac:(lia)).
Defined.

Lemma geo_level_bounds_witness :
  let pts := [(-46, -23, 0%Q); (-47, -15, (3000 # 6000)%Q); (-60, -3, 1%Q)] in
  2000 < 8000 ∧ plot_geolocation_distribution three_points (2000, 8000) = Ok pts ∧
  Forall2 (λ g p, (0 <= p.2 <= 1)%Q ∧
                  (geolocation_zip_code_prefix g ≤ 2000 → p.2 == 0)%Q ∧
                  (8000 ≤ geolocation_zip_code_prefix g → p.2 == 1)%Q) three_points pts.
Proof.
  intros pts.
  assert (plot_geolocation_distribution three_points (2000, 8000) = Ok pts) as Hp
    by (vm_compute; reflexivity).
  split; [lia|]. split; [exact Hp|].
  exact (geo_level_bounds three_points 2000 8000 pts ltac:(lia) Hp).
Defined.

End Geo.
