(* ===== verification/Dashboard.v ===== *)
(** The script as a whole: lines 412-468 of
    [src/dashboard/dashboard.py], after the datetime conversion of
    lines 399-410 (modelled in [Datetime]; [all_df] here holds its
    result).  Streamlit runs the script top to
    bottom on each interaction: the sidebar yields [main_df], then every
    panel is computed from it in the order of the source; an exception
    in one panel stops the page there.  [run_dashboard] is that run, in
    the result monad; its inputs are the two tables and the values of the
    five widgets the panels read (the date range, the category
    multiselect, the correlation threshold slider and the price
    checkbox, the zip-code slider). *)

From S2P Require Import Prelude Table TimeFilter GroupBy Ranking Daily Currency Metrics Stats Correlation Histogram Reviews Demographics Geo.
From Stdlib Require Import QArith.

Module Dashboard.
Local Open Scope Z_scope.

Section Dashboard.
Context `{SortValues}.

(** Everything the page shows, panel by panel. *)
Record page := {
  detail : Metrics.metrics;
  daily_orders : list Daily.daily_row;
  total_orders_metric : Z;
  total_revenue_metric : string;
  daily_plot : list (Z * nat) * list (Z * Z * nat);
  best_worst : (list (string * Z) * list (nat * Z)) * (list (string * Z) * list (nat * Z));
  reviews : list (Z * Z) * list (nat * Z) * list (Z * Q) * list string;
  delivery : list Q * list Z;
  demographics : Demographics.demographics;
  correlation : Correlation.matrix * list (string * list (string * bool)) *
                option (list (string * Correlation.cell));
  geolocation : list (Z * Z * Q)
}.

Definition run_dashboard (all_df : list order_row) (geo_df : list geo_row)
    (picked : list Z) (option : list (option string)) (threshold : Q) (price_checkbox : bool)
    (zip_threshold : Z * Z) : result page :=
  main_df ← TimeFilter.sidebar all_df picked;
  let det := Metrics.display_dataframe main_df option in
  let daily := Daily.create_daily_orders_df main_df in
  let totals := Daily.plot_total_orders_and_revenue daily in
  let dplot := Daily.plot_daily_orders daily (TimeFilter.min_date all_df) in
  let bw := Ranking.plot_best_worst_performing_product main_df in
  rv ← Reviews.plot_review_scores_distribution main_df;
  let dl := Histogram.plot_delivery_times_distribution main_df in
  dm ← Demographics.plot_demographic_characteristics main_df;
  cr ← Correlation.plot_correlation_matrix main_df threshold price_checkbox;
  geo ← Geo.plot_geolocation_distribution geo_df zip_threshold;
  mret {| detail := det; daily_orders := daily; total_orders_metric := totals.1;
          total_revenue_metric := Currency.format_currency totals.2;
          daily_plot := dplot; best_worst := bw; reviews := rv; delivery := dl;
          demographics := dm; correlation := cr; geolocation := geo |}.

(** ** Lemmas *)

Lemma run_dashboard_Ok all_df geo_df picked option t b thr pg :
  run_dashboard all_df geo_df picked option t b thr = Ok pg →
  ∃ main_df, TimeFilter.sidebar all_df picked = Ok main_df ∧
    detail pg = Metrics.display_dataframe main_df option ∧
    daily_orders pg = Daily.create_daily_orders_df main_df ∧
    total_orders_metric pg = (Daily.plot_total_orders_and_revenue
                                (Daily.create_daily_orders_df main_df)).1 ∧
    total_revenue_metric pg = Currency.format_currency
      (Daily.plot_total_orders_and_revenue (Daily.create_daily_orders_df main_df)).2 ∧
    daily_plot pg = Daily.plot_daily_orders (Daily.create_daily_orders_df main_df)
                                            (TimeFilter.min_date all_df).
Proof.
  unfold run_dashboard.
  destruct (TimeFilter.sidebar all_df picked) as [main_df|]; simpl; [|done].
  destruct (Reviews.plot_review_scores_distribution main_df); simpl; [|done].
  destruct (Demographics.plot_demographic_characteristics main_df); simpl; [|done].
  destruct (Correlation.plot_correlation_matrix main_df t b); simpl; [|done].
  destruct (Geo.plot_geolocation_distribution geo_df thr); simpl; [|done].
  intros [= <-]. by exists main_df.
Qed.

(** C5: the page is drawn to the end exactly when two dates are picked,
    the range they select holds an order, every review score in it is
    1 to 5, and the zip-code slider's range is not reversed (unless
    there is no point to draw).  Each failure raises in its panel: the
    sidebar, the review colours, the demographics' [idxmax], the map's
    colour normalisation; the correlation panel never raises. *)
Theorem run_dashboard_ok_iff all_df geo_df picked option t b thr :
  is_ok (run_dashboard all_df geo_df picked option t b thr) = true ↔
  (∃ main_df, TimeFilter.sidebar all_df picked = Ok main_df ∧ main_df ≠ [] ∧
     ∀ r, r ∈ main_df → ∀ s, review_score r = Some s → 1 ≤ s ≤ 5) ∧
  (geo_df = [] ∨ thr.1 ≤ thr.2).
Proof.
  unfold run_dashboard.
  destruct (TimeFilter.sidebar all_df picked) as [main_df|e]; simpl; [|naive_solver].
  pose proof (Reviews.plot_review_scores_ok_iff main_df) as Hr.
  pose proof (Demographics.plot_demographic_ok_iff main_df) as Hd.
  pose proof (Correlation.plot_correlation_matrix_is_ok main_df t b) as Hc.
  pose proof (Geo.plot_geolocation_ok_iff geo_df thr) as Hg.
  destruct (Reviews.plot_review_scores_distribution main_df); simpl in *;
    destruct (Demographics.plot_demographic_characteristics main_df); simpl in *;
    destruct (Correlation.plot_correlation_matrix main_df t b); simpl in *;
    destruct (Geo.plot_geolocation_distribution geo_df thr); simpl in *; naive_solver.
Qed.

(** Every row of [main_df] has an approval date. *)
Lemma sidebar_approved all_df picked main_df :
  TimeFilter.sidebar all_df picked = Ok main_df →
  (∀ r, r ∈ main_df → r ∈ all_df) ∧
  filter (λ r, is_Some (order_approved_at r)) main_df = main_df.
Proof.
  unfold TimeFilter.sidebar. destruct (TimeFilter.date_input picked) as [[s e]|]; simpl; [|done].
  intros [= <-]. split.
  - intros r Hr%TimeFilter.elem_of_main_df. tauto.
  - unfold TimeFilter.main_df. rewrite list_filter_filter.
    apply list_filter_iff. intros r. rewrite TimeFilter.main_mask_true. naive_solver.
Qed.

(** A date range that selects no order crashes the page: the
    review panel copes with the empty table but the demographics panel
    raises [ValueError]. *)
Theorem empty_range_raises all_df geo_df picked option t b thr :
  TimeFilter.sidebar all_df picked = Ok [] →
  run_dashboard all_df geo_df picked option t b thr =
  raise (ValueError "attempt to get argmax of an empty sequence").
Proof.
  intros Hs. unfold run_dashboard. rewrite Hs. simpl.
  unfold Reviews.plot_review_scores_distribution, Reviews.review_scores,
    Reviews.value_counts, Demographics.plot_demographic_characteristics,
    Demographics.nunique_by. simpl. rewrite !sort_values_nil. done.
Qed.

(** C29: when every order has one approval time, the daily panel's
    [#Total Orders] and [#Total Revenue] are the detail panel's
    [#Orders] and [#Revenue] with no category selected. *)
Theorem daily_totals_agree_with_detail all_df geo_df picked t b thr pg :
  (∀ r1, r1 ∈ all_df → ∀ r2, r2 ∈ all_df → order_id r1 = order_id r2 →
         order_approved_at r1 = order_approved_at r2) →
  run_dashboard all_df geo_df picked [] t b thr = Ok pg →
  total_orders_metric pg = Z.of_nat (Metrics.total_orders (detail pg)) ∧
  total_revenue_metric pg = Metrics.formatted_revenue (detail pg).
Proof.
  intros Hfd (main_df & Hs & -> & _ & -> & -> & _)%run_dashboard_Ok.
  destruct (sidebar_approved _ _ _ Hs) as [Hsub Happ].
  unfold Metrics.display_dataframe. rewrite decide_True by done. simpl.
  unfold Daily.create_daily_orders_df. rewrite !sum_by_map. split.
  - unfold Daily.daily_agg, Daily.rows_of_day. simpl.
    rewrite nunique_keys by (apply Daily.NoDup_day_bins ||
      (intros x y Hx Hy Hid; unfold Daily.approved_day; f_equal; auto)).
    by rewrite Daily.filter_in_day_bins, Happ.
  - f_equal. unfold Daily.daily_agg. simpl. by rewrite Daily.sum_daily, Happ.
Qed.

End Dashboard.

(** A table with approvals on days 0, 5, 95 and 100, one hour after
    midnight. *)
Definition four_days : list order_row :=
  [mk_order "a" 1 (Some "toys") 1000 (Some 5) (Some (midnight 0 + 3600));
   mk_order "b" 1 (Some "toys") 2000 (Some 4) (Some (midnight 5 + 3600));
   mk_order "c" 1 (Some "auto") 3000 (Some 3) (Some (midnight 95 + 3600));
   mk_order "d" 1 (Some "auto") 4000 (Some 2) (Some (midnight 100 + 3600))].

Lemma empty_range_raises_witness :
  TimeFilter.sidebar four_days [200; 210] = Ok [] ∧
  run_dashboard four_days [] [200; 210] [] 0 false (0, 0) =
  raise (ValueError "attempt to get argmax of an empty sequence").
Proof.
  assert (TimeFilter.sidebar four_days [200; 210] = Ok []) as Hs by (vm_compute; reflexivity).
  split; [exact Hs|]. exact (empty_range_raises four_days [] [200; 210] [] 0 false (0, 0) Hs).
Defined.

Lemma daily_totals_agree_with_detail_witness :
  (∀ r1, r1 ∈ four_days → ∀ r2, r2 ∈ four_days → order_id r1 = order_id r2 →
         order_approved_at r1 = order_approved_at r2) ∧
  ∃ pg, run_dashboard four_days [] [0; 100] [] 0 false (0, 0) = Ok pg ∧
    total_orders_metric pg = Z.of_nat (Metrics.total_orders (detail pg)) ∧
    total_revenue_metric pg = Metrics.formatted_revenue (detail pg).
Proof.
  assert (∀ r1, r1 ∈ four_days → ∀ r2, r2 ∈ four_days → order_id r1 = order_id r2 →
          order_approved_at r1 = order_approved_at r2) as Hfd by by_compute.
  split; [exact Hfd|].
  destruct (run_dashboard four_days [] [0; 100] [] 0 false (0, 0)) as [pg|e] eqn:Hrun;
    [|vm_compute in Hrun; discriminate].
  exists pg. split; [reflexivity|].
  exact (daily_totals_agree_with_detail four_days [] [0; 100] 0 false (0, 0) pg Hfd Hrun).
Defined.

(** Whether the daily chart labels its points depends on where the
    selected window lies, not on its width: the label test compares with
    the global [min_date].  Two windows of ten days: the first one is
    labelled, the last one is not. *)
Theorem labels_depend_on_window_position :
  ∃ p1 p2, run_dashboard four_days [] [0; 10] [] 0 false (0, 0) = Ok p1 ∧
           run_dashboard four_days [] [90; 100] [] 0 false (0, 0) = Ok p2 ∧
           (daily_plot p1).2 ≠ [] ∧ (daily_plot p2).2 = [].
Proof. eexists _, _. split_and!; [vm_compute; reflexivity..|vm_compute; discriminate|done]. Qed.

End Dashboard.
