(* ===== verification/Session.v ===== *)
(** The Streamlit session: the script of [src/dashboard/dashboard.py]
    reruns from the top on every interaction, and the sidebar's
    [st.date_input(..., value=[min_date, max_date])] (lines 419-424) is
    a range picker whose value is the dates clicked so far.  A click
    while a range is complete starts a new range of one date (the rerun
    then raises at the unpacking, C10's one-date state); the next click
    completes it, the two dates in calendar order.  Only the days from
    [min_value] to [max_value] can be clicked.

    The session is a system whose next state the user chooses: a step
    [session_step] relates a widget value to every value one click can
    give.  The combinators [eventually] and [always] are those of
    omnisemantics: a property holds eventually when every run reaches
    it, always when an invariant that implies it is kept by every step.
    The theorems: the reachable widget values are one date or an
    ordered range within the calendar's bounds, and the sidebar raises
    exactly at the former (C10); whatever the user clicks, the sidebar
    passes again at the next rerun at the latest, so it passes
    infinitely often (C28). *)

From S2P Require Import Prelude Table TimeFilter.

Module Session.
Local Open Scope Z_scope.

(** ** Runs of a system driven by its user *)

Section Combinators.
Context {State : Type} (step : State → (State → Prop) → Prop).

(** [P] is reached on every run from [s]. *)
Inductive eventually (P : State → Prop) (s : State) : Prop :=
  | eventually_done : P s → eventually P s
  | eventually_step (mid : State → Prop) :
      step s mid → (∀ s', mid s' → eventually P s') → eventually P s.

(** [P] holds at every state of every run from [s]: an invariant holds
    at [s], every step keeps it, and it implies [P]. *)
Inductive always (P : State → Prop) (s : State) : Prop :=
  | mk_always (inv : State → Prop) :
      inv s → (∀ s', inv s' → step s' inv) → (∀ s', inv s' → P s') → always P s.

Lemma eventually_weaken (P Q : State → Prop) s :
  eventually P s → (∀ s', P s' → Q s') → eventually Q s.
Proof. induction 1; intros HPQ; [left; auto|]. eapply eventually_step; eauto. Qed.

Lemma always_holds P s : always P s → P s.
Proof. by destruct 1 as [inv Hs _ HP]; apply HP. Qed.

End Combinators.

(** ** The date range picker *)

(** One click on day [d]: it completes a range of one date, in calendar
    order, and starts a new range otherwise. *)
Definition click (picked : list Z) (d : Z) : list Z :=
  match picked with
  | [s] => [Z.min s d; Z.max s d]
  | _ => [d]
  end.

(** One interaction: the user clicks any day from [lo] to [hi], and the
    script reruns with the widget's new value. *)
Definition session_step (lo hi : Z) (picked : list Z) (post : list Z → Prop) : Prop :=
  ∀ d, lo ≤ d ≤ hi → post (click picked d).

(** The widget values a session can reach from the initial value
    [[lo; hi]] ([value=[min_date, max_date]]). *)
Inductive reachable (lo hi : Z) : list Z → Prop :=
  | reach_init : reachable lo hi [lo; hi]
  | reach_click p d : reachable lo hi p → lo ≤ d ≤ hi → reachable lo hi (click p d).

(** The rerun gets past the sidebar with the range [[s; e]]. *)
Definition sidebar_passes (all_df : list order_row) (lo hi : Z) (picked : list Z) : Prop :=
  ∃ s e, picked = [s; e] ∧ lo ≤ s ≤ e ≤ hi ∧
         TimeFilter.sidebar all_df picked = Ok (TimeFilter.main_df all_df s e).

(** ** Lemmas *)

(** The shape of a reachable value, without the sidebar. *)
Lemma reachable_shape lo hi p : lo ≤ hi → reachable lo hi p →
  (∃ s, p = [s] ∧ lo ≤ s ≤ hi) ∨ (∃ s e, p = [s; e] ∧ lo ≤ s ≤ e ≤ hi).
Proof.
  intros Hle Hr. induction Hr as [|p d Hp IH Hd]; [right; exists lo, hi; split; [done|lia]|].
  destruct IH as [(s & -> & Hs)|(s & e & -> & Hse)]; simpl.
  - right. exists (Z.min s d), (Z.max s d). split; [done|lia].
  - left. eauto.
Qed.

Lemma sidebar_two all_df s e :
  TimeFilter.sidebar all_df [s; e] = Ok (TimeFilter.main_df all_df s e).
Proof. done. Qed.

Lemma sidebar_one all_df s : is_ok (TimeFilter.sidebar all_df [s]) = false.
Proof. done. Qed.

(** A click on a one-date value completes the range. *)
Lemma click_one_passes all_df lo hi s d :
  lo ≤ s ≤ hi → lo ≤ d ≤ hi → sidebar_passes all_df lo hi (click [s] d).
Proof. intros Hs Hd. exists (Z.min s d), (Z.max s d). split_and!; [done|lia..|done]. Qed.

(** From a reachable value, every run gets past the sidebar within one
    click. *)
Lemma reachable_eventually_passes all_df lo hi p : lo ≤ hi → reachable lo hi p →
  eventually (session_step lo hi) (sidebar_passes all_df lo hi) p.
Proof.
  intros Hle Hr. destruct (reachable_shape lo hi p Hle Hr) as [(s & -> & Hs)|(s & e & -> & Hse)].
  - apply (eventually_step _ _ _ (sidebar_passes all_df lo hi)).
    + intros d Hd. by apply click_one_passes.
    + intros p' Hp'. by left.
  - left. exists s, e. split_and!; [done|lia..|done].
Qed.

Lemma day_of_mono t1 t2 : t1 ≤ t2 → day_of t1 ≤ day_of t2.
Proof. unfold day_of, seconds_per_day. intros. by apply Z.div_le_mono. Qed.

(** The widget's initial value is an ordered range. *)
Lemma default_picked_le all_df lo hi : TimeFilter.default_picked all_df = [lo; hi] → lo ≤ hi.
Proof.
  unfold TimeFilter.default_picked, TimeFilter.min_date, TimeFilter.max_date.
  pose proof (min_opt_spec (map order_approved_at all_df)) as Hmin.
  pose proof (max_opt_spec (map order_approved_at all_df)) as Hmax.
  destruct (min_opt _) as [a|], (max_opt _) as [b|]; try done.
  intros [= <- <-]. apply day_of_mono, Hmin, Hmax.
Qed.

(** C10: every value the date widget can reach is either one date
    between [lo] and [hi], where the sidebar's unpacking raises, or an
    ordered range [[s; e]] with [lo <= s <= e <= hi], where the sidebar
    passes with [main_df] of that range: the range the page filters
    with is never reversed. *)
Theorem widget_states all_df lo hi p :
  lo ≤ hi → reachable lo hi p →
  ((∃ s, p = [s] ∧ lo ≤ s ≤ hi) ∧ is_ok (TimeFilter.sidebar all_df p) = false) ∨
  (∃ s e, p = [s; e] ∧ lo ≤ s ≤ e ≤ hi ∧
          TimeFilter.sidebar all_df p = Ok (TimeFilter.main_df all_df s e)).
Proof.
  intros Hle Hr. destruct (reachable_shape lo hi p Hle Hr) as [(s & -> & Hs)|(s & e & -> & Hse)].
  - left. split; [eauto|apply sidebar_one].
  - right. exists s, e. split_and!; [done|lia..|apply sidebar_two].
Qed.

Lemma widget_states_witness :
  0 ≤ 10 ∧ reachable 0 10 [5] ∧
  (((∃ s, [5] = [s] ∧ 0 ≤ s ≤ 10) ∧ is_ok (TimeFilter.sidebar [] [5]) = false) ∨
   (∃ s e, [5] = [s; e] ∧ 0 ≤ s ≤ e ≤ 10 ∧
           TimeFilter.sidebar [] [5] = Ok (TimeFilter.main_df [] s e))).
Proof.
  assert (reachable 0 10 [5]) as Hr.
  { change [5] with (click [0; 10] 5). apply reach_click; [apply reach_init|lia]. }
  split; [lia|]. split; [exact Hr|]. exact (widget_states [] 0 10 [5] ltac:(lia) Hr).
Defined.

(** C28: whatever days the user clicks, every run of the session from
    the widget's initial value gets past the sidebar again: at every
    rerun, the sidebar passes then or after the next click, with an
    ordered range within [min_date] and [max_date].  The crash of a
    half-picked range is transient. *)
Theorem session_passes_infinitely_often all_df lo hi :
  TimeFilter.default_picked all_df = [lo; hi] →
  always (session_step lo hi)
    (eventually (session_step lo hi) (sidebar_passes all_df lo hi))
    (TimeFilter.default_picked all_df).
Proof.
  intros Hd. pose proof (default_picked_le all_df lo hi Hd) as Hle. rewrite Hd.
  apply (mk_always _ _ _ (reachable lo hi)); [apply reach_init| |].
  - intros p Hp d Hdd. by apply reach_click.
  - intros p Hp. by apply reachable_eventually_passes.
Qed.

(** Two orders, approved on days 3 and 9. *)
Definition two_days : list order_row :=
  [mk_order "o1" 1 (Some "toys") 1000 (Some 5) (Some (midnight 3 + 60));
   mk_order "o2" 1 (Some "toys") 2500 (Some 4) (Some (midnight 9 + 7200))].

Lemma session_passes_infinitely_often_witness :
  TimeFilter.default_picked two_days = [3; 9] ∧
  always (session_step 3 9)
    (eventually (session_step 3 9) (sidebar_passes two_days 3 9))
    (TimeFilter.default_picked two_days).
Proof.
  assert (TimeFilter.default_picked two_days = [3; 9]) as Hd by (vm_compute; reflexivity).
  split; [exact Hd|]. exact (session_passes_infinitely_often two_days 3 9 Hd).
Defined.

End Session.
